(** * SuperCoach-AI: the authenticated data-fetch layer

    A shallow embedding of the session helpers, the authenticated request
    gateway and the resource hooks of the data module (the one the
    components import as [../data/mockData]), of [handleLogin] of
    [src/components/AuthPage.tsx] and of the create-student modal of the
    courses tab, with the properties the specification states about them.

    Conventions of the embedding.
    - A JavaScript string is a [string] (a sequence of bytes, UTF-8); the
      white space class is the ASCII one (TAB, LF, VT, FF, CR, SPACE), the
      length is the number of bytes and the letters that change case are
      the ASCII ones. On ASCII text ([JS.ascii_only]) this is what the code
      computes.
    - A JavaScript number is an integer [Z]; [None] in [option Z] is [NaN].
      Timestamps, durations and identifiers of this program are integers.
      Sums and products are those of the integers, which are the sums and
      products of the code as long as the operands and the result are safe
      integers ([JS.safe_integer]).
    - [localStorage] and a header object are finite maps from strings to
      strings; [getItem] of an absent key is [None] (JavaScript's [null]).
    - An [async] function is a state-passing function over the [World]
      (storage, the log of network calls, page reloads); what the network
      answers, and what time it is, is read from an environment [Env]. A
      thrown [Error] is the [Err] result carrying its message.
    - The body of an answer is typed: the refresh endpoint answers with the
      three properties that [refreshAuthToken] reads, a resource endpoint
      with the payload type of its hook. *)

From Stdlib Require Import ZArith Ascii String DecimalString Lia.
From Stdlib Require Import DecimalPos DecimalN DecimalZ.
From stdpp Require Import base option list gmap strings.

Local Open Scope string_scope.
Local Open Scope Z_scope.
Local Open Scope list_scope.

Set Warnings "-register-all,-clear-no-such-hyp".

(** ** JavaScript primitives used by the sources *)

Module JS.

(** Truthiness of a string: only the empty string is falsy. *)
Definition truthy_string (s : string) : bool :=
  match s with
  | EmptyString => false
  | String _ _ => true
  end.

(** Truthiness of [string | null]. *)
Definition truthy (v : option string) : bool :=
  match v with
  | None => false
  | Some s => truthy_string s
  end.

(** Truthiness of a number: zero is falsy. *)
Definition truthy_number (n : Z) : bool := negb (n =? 0).

Definition code (c : ascii) : Z := Z.of_nat (nat_of_ascii c).

Definition is_white (c : ascii) : bool :=
  let n := code c in
  ((9 <=? n) && (n <=? 13)) || (n =? 32).

Definition is_digit (c : ascii) : bool :=
  let n := code c in (48 <=? n) && (n <=? 57).

Fixpoint trimStart (s : string) : string :=
  match s with
  | EmptyString => EmptyString
  | String c r => if is_white c then trimStart r else s
  end.

Fixpoint rev_string (s acc : string) : string :=
  match s with
  | EmptyString => acc
  | String c r => rev_string r (String c acc)
  end.

Definition trimEnd (s : string) : string :=
  rev_string (trimStart (rev_string s "")) "".

(** [String.prototype.trim]. *)
Definition trim (s : string) : string := trimEnd (trimStart s).

(** [String.prototype.toLowerCase] on the ASCII letters. *)
Definition lower_char (c : ascii) : ascii :=
  let n := code c in
  if (65 <=? n) && (n <=? 90) then ascii_of_nat (Z.to_nat (n + 32)) else c.

Fixpoint toLowerCase (s : string) : string :=
  match s with
  | EmptyString => EmptyString
  | String c r => String (lower_char c) (toLowerCase r)
  end.

Fixpoint starts_with (p s : string) : bool :=
  match p, s with
  | EmptyString, _ => true
  | String a p', String b s' => if Ascii.eqb a b then starts_with p' s' else false
  | String _ _, EmptyString => false
  end.

(** [String.prototype.includes]. *)
Fixpoint includes (s sub : string) : bool :=
  starts_with sub s ||
  match s with
  | EmptyString => false
  | String _ r => includes r sub
  end.

(** The decimal digits of an integer [n], with its sign: [String(n)],
    and [n] in a template literal, for [n] below [10^21] in absolute
    value. The identifiers, counts and status codes are printed with it;
    a number that may be larger is printed with [Number_toString]. *)
Definition String_of_number (n : Z) : string :=
  NilZero.string_of_int (Z.to_int n).

(** [Number.MAX_SAFE_INTEGER], [2^53 - 1]. *)
Definition MAX_SAFE_INTEGER : Z := 9007199254740991.

(** [Number.isSafeInteger(n)]. *)
Definition safe_integer (n : Z) : Prop := Z.abs n <= MAX_SAFE_INTEGER.

(** A text of digits without the zeros at its end. *)
Fixpoint drop_trailing_zeros (s : string) : string :=
  match s with
  | EmptyString => EmptyString
  | String c r =>
      match drop_trailing_zeros r with
      | EmptyString => if Ascii.eqb c "0" then EmptyString
                       else String c EmptyString
      | r' => String c r'
      end
  end.

(** The exponent notation of the number whose decimal digits are
    [digits]: the first digit, the following digits up to the last one
    that is not zero after a point, and the exponent. *)
Definition exponent_form (digits : string) : string :=
  match digits with
  | EmptyString => EmptyString
  | String d rest =>
      String d
        (match drop_trailing_zeros rest with
         | EmptyString => EmptyString
         | fraction => String "." fraction
         end
         +:+ String "e"
               (String "+"
                  (String_of_number (Z.of_nat (String.length rest)))))
  end.

(** [String(n)] for an integer [n] of any size: the decimal digits below
    [10^21] and the exponent notation from there on, as in ["1e+21"]. The
    digits are those of the integer [n]. The code prints the shortest
    digits that tell the double nearest to [n] from its neighbours; they
    are those of [n] when [n] is a safe integer, and when [n] has at most
    fifteen significant digits. *)
Definition Number_toString (n : Z) : string :=
  if Z.abs n <? 1000000000000000000000 then String_of_number n
  else
    (if n <? 0 then String "-" EmptyString else EmptyString)
    +:+ exponent_form (String_of_number (Z.abs n)).

(** ASCII text: every byte is below 128. *)
Fixpoint ascii_only (s : string) : bool :=
  match s with
  | EmptyString => true
  | String c r => (code c <? 128) && ascii_only r
  end.

(** [String(v)] where [v] may be [NaN]. *)
Definition String_of_nan (v : option Z) : string :=
  match v with
  | Some n => String_of_number n
  | None => "NaN"
  end.

(** Value of a character as a digit of a radix up to 36. *)
Definition digit_value (c : ascii) : option Z :=
  let n := code c in
  if (48 <=? n) && (n <=? 57) then Some (n - 48)
  else if (97 <=? n) && (n <=? 122) then Some (n - 87)
  else if (65 <=? n) && (n <=? 90) then Some (n - 55)
  else None.

(** The longest prefix of radix-[R] digits, read as a number; [acc] is
    [None] while no digit has been read. *)
Fixpoint parse_digits (R : Z) (s : string) (acc : option Z) : option Z :=
  match s with
  | EmptyString => acc
  | String c r =>
      match digit_value c with
      | Some d =>
          if d <? R then parse_digits R r (Some (default 0 acc * R + d))
          else acc
      | None => acc
      end
  end.

(** [parseInt(s)] with no radix argument: leading white space is skipped,
    a sign is read, a [0x] or [0X] prefix selects radix 16, and the digits
    that follow are read up to the first character that is not one; no
    digit at all gives [NaN]. *)
Definition parseInt (s : string) : option Z :=
  let s1 := trimStart s in
  let '(sign, s2) :=
    match s1 with
    | String "-" r => (-1, r)
    | String "+" r => (1, r)
    | _ => (1, s1)
    end in
  let '(R, s3) :=
    match s2 with
    | String "0" (String "x" r) => (16, r)
    | String "0" (String "X" r) => (16, r)
    | _ => (10, s2)
    end in
  Z.mul sign <$> parse_digits R s3 None.

(** [a < b] on numbers: false as soon as one side is [NaN]. *)
Definition lt_number (a b : option Z) : bool :=
  match a, b with
  | Some x, Some y => x <? y
  | _, _ => false
  end.

(** Characters that [encodeURIComponent] leaves as they are. *)
Definition uri_unreserved (c : ascii) : bool :=
  let n := code c in
  ((65 <=? n) && (n <=? 90)) || ((97 <=? n) && (n <=? 122)) ||
  ((48 <=? n) && (n <=? 57)) ||
  (n =? 45) || (n =? 95) || (n =? 46) || (n =? 33) || (n =? 126) ||
  (n =? 42) || (n =? 39) || (n =? 40) || (n =? 41).

Definition hex_digit (n : Z) : ascii :=
  ascii_of_nat (Z.to_nat (if n <? 10 then 48 + n else 55 + n)).

(** [encodeURIComponent]: every byte of the UTF-8 form that is not
    unreserved becomes [%XX]. *)
Fixpoint encodeURIComponent (s : string) : string :=
  match s with
  | EmptyString => EmptyString
  | String c r =>
      if uri_unreserved c then String c (encodeURIComponent r)
      else String "%" (String (hex_digit (code c / 16))
                         (String (hex_digit (code c mod 16))
                            (encodeURIComponent r)))
  end.

(** [Array.prototype.join]. *)
Fixpoint join (sep : string) (l : list string) : string :=
  match l with
  | [] => ""
  | [x] => x
  | x :: r => x +:+ sep +:+ join sep r
  end.

End JS.

(** ** Values exchanged with the server *)

(** A JSON value, as [response.json()] returns it and [JSON.stringify]
    takes it. The properties of an object are kept in insertion order. *)
Inductive JValue : Type :=
  | JUndefined
  | JNull
  | JBool (b : bool)
  | JNum (n : Z)
  | JStr (s : string)
  | JArr (items : list JValue)
  | JObj (props : list (string * JValue)).

Definition JObject : Type := list (string * JValue).

Module Obj.

(** [o.k], [undefined] when the object has no such property. *)
Fixpoint get (k : string) (o : JObject) : JValue :=
  match o with
  | [] => JUndefined
  | (k', v) :: r => if String.eqb k k' then v else get k r
  end.

(** [o.k = v]: an existing property keeps its place, a new one is
    appended. *)
Fixpoint set (k : string) (v : JValue) (o : JObject) : JObject :=
  match o with
  | [] => [(k, v)]
  | (k', v') :: r =>
      if String.eqb k k' then (k', v) :: r else (k', v') :: set k v r
  end.

(** The object literal [{...o, k1: v1, ..., kn: vn}]. *)
Definition extend (o : JObject) (kvs : list (string * JValue)) : JObject :=
  fold_left (fun acc kv => set (fst kv) (snd kv) acc) kvs o.

Definition truthy (v : JValue) : bool :=
  match v with
  | JUndefined | JNull => false
  | JBool b => b
  | JNum n => JS.truthy_number n
  | JStr s => JS.truthy_string s
  | JArr _ | JObj _ => true
  end.

(** [a || b]. *)
Definition or (a b : JValue) : JValue := if truthy a then a else b.

End Obj.

(** The result of an operation that may throw: [Err msg] is a thrown
    [Error] whose message is [msg]. *)
Inductive Result (A : Type) : Type :=
  | Ok (a : A)
  | Err (msg : string).
Arguments Ok {A} a.
Arguments Err {A} msg.

(** The second argument of [fetch]. The body is the value handed to
    [JSON.stringify]. *)
Record RequestInit : Type := mkInit {
  method : option string;
  headers : gmap string string;
  body : option JValue
}.

Definition no_options : RequestInit :=
  {| method := None; headers := ∅; body := None |}.

(** One call of [fetch]. *)
Record Request : Type := mkRequest {
  req_url : string;
  req_init : RequestInit
}.

(** A response; [json] is what [response.json()] settles with, [text] what
    [response.text()] gives. *)
Record Response (A : Type) : Type := mkResponse {
  status : Z;
  text : string;
  json : Result A
}.
Arguments mkResponse {A} status text json.
Arguments status {A} r.
Arguments text {A} r.
Arguments json {A} r.

(** [response.ok]. *)
Definition ok {A} (r : Response A) : bool :=
  (200 <=? status r) && (status r <=? 299).

(** How a [fetch] promise settles: with a response, or rejected with a
    network error. *)
Inductive FetchResult (A : Type) : Type :=
  | Resolved (r : Response A)
  | Rejected (msg : string).
Arguments Resolved {A} r.
Arguments Rejected {A} msg.

(** The properties of the body of the refresh endpoint that
    [refreshAuthToken] reads. *)
Record TokenPayload : Type := mkTokens {
  access_token : string;
  refresh_token : string;
  expires_in : Z
}.

(** What is outside the program: the answer to the [n]-th network call for
    a resource (payload type [T]) and for the refresh endpoint, and the
    value of [Date.now()] once [n] network calls have been issued. *)
Record Env (T : Type) : Type := mkEnv {
  net : nat -> Request -> FetchResult T;
  auth_net : nat -> Request -> FetchResult TokenPayload;
  clock : nat -> Z
}.
Arguments mkEnv {T} net auth_net clock.
Arguments net {T} e n r.
Arguments auth_net {T} e n r.
Arguments clock {T} e n.

(** What the program can change: [localStorage], the network calls made so
    far (oldest first) and the number of [window.location.reload()]. *)
Record World : Type := mkWorld {
  storage : gmap string string;
  netlog : list Request;
  reloads : nat
}.

Definition with_storage (f : gmap string string -> gmap string string)
    (w : World) : World :=
  {| storage := f (storage w); netlog := netlog w; reloads := reloads w |}.

(** The world after one more network call. *)
Definition log_call (req : Request) (w : World) : World :=
  {| storage := storage w; netlog := netlog w ++ [req]; reloads := reloads w |}.

(** ** A state and exception monad for the asynchronous functions *)

Definition M (A : Type) : Type := World -> Result A * World.

Definition ret {A} (a : A) : M A := fun w => (Ok a, w).

Definition throw {A} (msg : string) : M A := fun w => (Err msg, w).

Definition bind {A B} (m : M A) (k : A -> M B) : M B :=
  fun w =>
    match m w with
    | (Ok a, w') => k a w'
    | (Err e, w') => (Err e, w')
    end.

(** [try { m } catch (error) { h error.message }]. *)
Definition try_catch {A} (m : M A) (h : string -> M A) : M A :=
  fun w =>
    match m w with
    | (Ok a, w') => (Ok a, w')
    | (Err e, w') => h e w'
    end.

Definition gets {A} (f : World -> A) : M A := fun w => (Ok (f w), w).

Definition modify (f : World -> World) : M unit := fun w => (Ok tt, f w).

(** [await] of a value that is already a [Result]. *)
Definition of_result {A} (r : Result A) : M A := fun w => (r, w).

Declare Scope js_scope.
Delimit Scope js_scope with js.
Notation "x <- m ;; k" := (bind m (fun x => k))
  (at level 100, m at next level, right associativity) : js_scope.
Notation "m ;; k" := (bind m (fun _ => k))
  (at level 100, right associativity) : js_scope.

(** ** The session store and the gateway *)

Definition API_BASE_URL : string := "http://localhost:3100".

Definition getItem (k : string) (ls : gmap string string) : option string :=
  ls !! k.

Definition setItem (k v : string) (ls : gmap string string)
    : gmap string string :=
  <[k := v]> ls.

Definition removeItem (k : string) (ls : gmap string string)
    : gmap string string :=
  delete k ls.

Definition getAuthToken (ls : gmap string string) : option string :=
  getItem "access_token" ls.

Definition getRefreshToken (ls : gmap string string) : option string :=
  getItem "refresh_token" ls.

(** [isAuthenticated], with the value of [Date.now()] and the content of
    [localStorage] as arguments. *)
Definition isAuthenticated (now : Z) (ls : gmap string string) : bool :=
  let token := getAuthToken ls in
  let expiresAt := getItem "expires_at" ls in
  if negb (JS.truthy token) || negb (JS.truthy expiresAt) then false
  else
    let expiry := JS.parseInt (default "" expiresAt) in
    JS.lt_number (Some now) expiry.

Definition clearAuthData (ls : gmap string string) : gmap string string :=
  removeItem "expires_at"
    (removeItem "coach"
       (removeItem "refresh_token"
          (removeItem "access_token" ls))).

Definition redirectToLogin (w : World) : World :=
  {| storage := clearAuthData (storage w);
     netlog := netlog w;
     reloads := S (reloads w) |}.

Definition getAuthHeaders (ls : gmap string string) : gmap string string :=
  let token := getAuthToken ls in
  let base : gmap string string := {[ "Content-Type" := "application/json" ]} in
  match token with
  | Some t =>
      if JS.truthy_string t then <[ "Authorization" := "Bearer " +:+ t ]> base
      else base
  | None => base
  end.

(** The message of the [Error] that [handleAuthError] builds. *)
Definition handleAuthError (status : Z) (errorText : string) : string :=
  if status =? 401 then
    if JS.includes errorText "expired" then
      "Your session has expired. Please log in again."
    else if JS.includes errorText "invalid" then
      "Invalid authentication credentials. Please log in again."
    else "Authentication failed. Please log in again."
  else if status =? 403 then
    "You do not have permission to access this resource."
  else if status =? 404 then "The requested resource was not found."
  else if status =? 429 then "Too many requests. Please try again later."
  else if status =? 500 then "Server error. Please try again later."
  else
    "Request failed with status " +:+ JS.String_of_number status +:+ ". "
      +:+ errorText.

Section Gateway.

Context {T : Type} (env : Env T).

Local Open Scope js_scope.

Definition Date_now (w : World) : Z := clock env (length (netlog w)).

(** [fetch(url, init)]: the call is logged and settles as the
    environment says. *)
Definition fetch {A} (oracle : nat -> Request -> FetchResult A)
    (url : string) (init : RequestInit) : M (Response A) :=
  fun w =>
    let req := {| req_url := url; req_init := init |} in
    match oracle (length (netlog w)) req with
    | Resolved r => (Ok r, log_call req w)
    | Rejected msg => (Err msg, log_call req w)
    end.

Definition refresh_url : string := API_BASE_URL +:+ "/api/auth/refresh".

(** How many of the calls of a log went to [url]. *)
Definition calls_to (url : string) (log : list Request) : nat :=
  length (filter (fun r => req_url r = url) log).

Definition refresh_init (refreshToken : string) : RequestInit :=
  {| method := Some "POST";
     headers := {[ "Content-Type" := "application/json" ]};
     body := Some (JObj [("refresh_token", JStr refreshToken)]) |}.

(** The call that [refreshAuthToken] makes. *)
Definition refresh_request (refreshToken : string) : Request :=
  {| req_url := refresh_url; req_init := refresh_init refreshToken |}.

(** [localStorage] once [refreshAuthToken] has stored the answer [data],
    [now] being the value of [Date.now()] at that moment. *)
Definition refreshed (now : Z) (data : TokenPayload)
    (ls : gmap string string) : gmap string string :=
  setItem "expires_at" (JS.Number_toString (now + expires_in data * 1000))
    (setItem "refresh_token" (refresh_token data)
       (setItem "access_token" (access_token data) ls)).

(** [refreshAuthToken]: [None] is the [null] it returns on failure. *)
Definition refreshAuthToken : M (option string) :=
  refreshToken <- gets (fun w => getRefreshToken (storage w)) ;;
  if negb (JS.truthy refreshToken) then
    modify redirectToLogin ;; ret None
  else
    try_catch
      (response <- fetch (auth_net env) refresh_url
                     (refresh_init (default "" refreshToken)) ;;
       if negb (ok response) then
         modify redirectToLogin ;; ret None
       else
         data <- of_result (json response) ;;
         modify (with_storage (setItem "access_token" (access_token data))) ;;
         modify (with_storage (setItem "refresh_token" (refresh_token data))) ;;
         now <- gets Date_now ;;
         modify (with_storage
                   (setItem "expires_at"
                      (JS.Number_toString (now + expires_in data * 1000)))) ;;
         ret (Some (access_token data)))
      (fun _ => modify redirectToLogin ;; ret None).

(** [{...options, headers: {...getAuthHeaders(), ...options.headers}}]:
    on a key that both define, the caller's header wins. *)
Definition with_auth_headers (options : RequestInit)
    (ls : gmap string string) : RequestInit :=
  {| method := method options;
     headers := headers options ∪ getAuthHeaders ls;
     body := body options |}.

(** The first call of [authenticatedFetch] in the world [w]. *)
Definition original (url : string) (options : RequestInit) (w : World)
    : Request :=
  {| req_url := url; req_init := with_auth_headers options (storage w) |}.

Definition authenticatedFetch (url : string) (options : RequestInit)
    : M (Response T) :=
  authed <- gets (fun w => isAuthenticated (Date_now w) (storage w)) ;;
  if negb authed then
    modify redirectToLogin ;; throw "Authentication required"
  else
    init <- gets (fun w => with_auth_headers options (storage w)) ;;
    response <- fetch (net env) url init ;;
    if status response =? 401 then
      newToken <- refreshAuthToken ;;
      if JS.truthy newToken then
        init' <- gets (fun w => with_auth_headers options (storage w)) ;;
        fetch (net env) url init'
      else throw "Authentication failed"
    else ret response.

Definition makeAuthenticatedAPICall (url : string) (options : RequestInit)
    : M T :=
  try_catch
    (response <- authenticatedFetch url options ;;
     if negb (ok response) then
       let errorText := text response in
       if status response =? 401 then
         modify redirectToLogin ;; throw "Authentication failed"
       else throw (handleAuthError (status response) errorText)
     else of_result (json response))
    (fun message => throw message).

End Gateway.

(** ** Resource fetch hooks *)

(** The three pieces of React state of a hook. *)
Record FetchState (D : Type) : Type := mkFetchState {
  data : option D;
  loading : bool;
  error : option string
}.
Arguments mkFetchState {D} data loading error.
Arguments data {D} f.
Arguments loading {D} f.
Arguments error {D} f.

Definition setData {D} (d : D) (st : FetchState D) : FetchState D :=
  {| data := Some d; loading := loading st; error := error st |}.

Definition setLoading {D} (b : bool) (st : FetchState D) : FetchState D :=
  {| data := data st; loading := b; error := error st |}.

Definition setError {D} (e : option string) (st : FetchState D)
    : FetchState D :=
  {| data := data st; loading := loading st; error := e |}.

(** The state a hook is left in by a failure with message [msg]: the
    data is the one it had. *)
Definition failed {D} (msg : string) (st : FetchState D) : FetchState D :=
  {| data := data st; loading := false; error := Some msg |}.

(** [useState(null)], [useState(true)], [useState(null)]. *)
Definition initial_state {D} : FetchState D :=
  {| data := None; loading := true; error := None |}.

Record DashboardMetrics : Type := mkMetrics {
  live_courses : Z;
  total_students : Z;
  avg_progress : Z;
  need_help : Z
}.

Module Metrics.

(** The statements of [fetchMetrics] before its [await]. *)
Definition fetchMetrics_begin (st : FetchState DashboardMetrics)
    : FetchState DashboardMetrics :=
  setError None (setLoading true st).

(** The statements of [fetchMetrics] after its [await], [finally]
    included. *)
Definition fetchMetrics_settle (r : Result DashboardMetrics)
    (st : FetchState DashboardMetrics) : FetchState DashboardMetrics :=
  match r with
  | Ok metrics => setLoading false (setData metrics st)
  | Err errorMessage => setLoading false (setError (Some errorMessage) st)
  end.

Definition fetchMetrics (env : Env DashboardMetrics)
    (st : FetchState DashboardMetrics) (w : World)
    : FetchState DashboardMetrics * World :=
  let st1 := fetchMetrics_begin st in
  let '(r, w') :=
    makeAuthenticatedAPICall env
      (API_BASE_URL +:+ "/api/dashboard/metrics") no_options w in
  (fetchMetrics_settle r st1, w').

(** The effect of [useDashboardMetrics], run once on mount. *)
Definition useDashboardMetrics (env : Env DashboardMetrics)
    (st : FetchState DashboardMetrics) (w : World)
    : FetchState DashboardMetrics * World :=
  if isAuthenticated (Date_now env w) (storage w) then fetchMetrics env st w
  else (setError (Some "Authentication required") (setLoading false st), w).

End Metrics.

Record StudentStatus : Type := mkStudentStatus {
  all : Z;
  new : Z;
  in_progress : Z;
  stuck : Z;
  completed : Z
}.

Module Status.

Definition fetchStudentStatus_begin (st : FetchState StudentStatus)
    : FetchState StudentStatus :=
  setError None (setLoading true st).

Definition fetchStudentStatus_settle (r : Result StudentStatus)
    (st : FetchState StudentStatus) : FetchState StudentStatus :=
  match r with
  | Ok status => setLoading false (setData status st)
  | Err errorMessage => setLoading false (setError (Some errorMessage) st)
  end.

Definition fetchStudentStatus (env : Env StudentStatus)
    (st : FetchState StudentStatus) (w : World)
    : FetchState StudentStatus * World :=
  let st1 := fetchStudentStatus_begin st in
  let '(r, w') :=
    makeAuthenticatedAPICall env
      (API_BASE_URL +:+ "/api/dashboard/student-status") no_options w in
  (fetchStudentStatus_settle r st1, w').

(** The effect of [useStudentStatus], run once on mount. *)
Definition useStudentStatus (env : Env StudentStatus)
    (st : FetchState StudentStatus) (w : World)
    : FetchState StudentStatus * World :=
  if isAuthenticated (Date_now env w) (storage w) then
    fetchStudentStatus env st w
  else (setError (Some "Authentication required") (setLoading false st), w).

End Status.

Module Courses.

(** The object that [fetchCourses] builds from one course of the answer. *)
Definition transformCourse (course : JObject) : JObject :=
  Obj.extend course
    [ ("enrolledStudents", Obj.get "student_count" course);
      ("completionRate", Obj.get "completion_rate" course);
      ("status",
        if Obj.truthy (Obj.get "is_active" course) then JStr "live"
        else JStr "draft");
      ("version", Obj.or (Obj.get "version" course) (JNum 1));
      ("modules", JArr []);
      ("superCoachId", JNull);
      ("baseId", Obj.get "id" course);
      ("isCurrentVersion", JBool true);
      ("updatedAt", Obj.get "created_at" course) ].

Definition fetchCourses_begin (st : FetchState (list JObject))
    : FetchState (list JObject) :=
  setError None (setLoading true st).

Definition fetchCourses_settle (r : Result (list JObject))
    (st : FetchState (list JObject)) : FetchState (list JObject) :=
  match r with
  | Ok courses =>
      let transformedCourses := map transformCourse courses in
      setLoading false (setData transformedCourses st)
  | Err errorMessage => setLoading false (setError (Some errorMessage) st)
  end.

Definition fetchCourses (env : Env (list JObject))
    (st : FetchState (list JObject)) (w : World)
    : FetchState (list JObject) * World :=
  let st1 := fetchCourses_begin st in
  let '(r, w') :=
    makeAuthenticatedAPICall env (API_BASE_URL +:+ "/api/courses")
      no_options w in
  (fetchCourses_settle r st1, w').

(** The effect of [useCourses], run once on mount. *)
Definition useCourses (env : Env (list JObject))
    (st : FetchState (list JObject)) (w : World)
    : FetchState (list JObject) * World :=
  if isAuthenticated (Date_now env w) (storage w) then fetchCourses env st w
  else (setError (Some "Authentication required") (setLoading false st), w).

End Courses.

Module Students.

(** The argument of [useStudents]; an absent property is [None]. *)
Record Filters : Type := mkFilters {
  course_id : option Z;
  status : option string;
  search : option string
}.

(** [filters?.course_id] and its siblings. *)
Definition opt_course_id (filters : option Filters) : option Z :=
  match filters with Some f => course_id f | None => None end.
Definition opt_status (filters : option Filters) : option string :=
  match filters with Some f => status f | None => None end.
Definition opt_search (filters : option Filters) : option string :=
  match filters with Some f => search f | None => None end.

(** The array [queryParams] that [fetchStudents] fills. *)
Definition students_queryParams (filters : option Filters) : list string :=
  let queryParams : list string := [] in
  let queryParams :=
    match opt_course_id filters with
    | Some id =>
        if JS.truthy_number id then
          queryParams ++ ["course_id=" +:+ JS.String_of_number id]
        else queryParams
    | None => queryParams
    end in
  let queryParams :=
    match opt_status filters with
    | Some s =>
        if JS.truthy_string s then
          queryParams ++ ["status=" +:+ JS.encodeURIComponent s]
        else queryParams
    | None => queryParams
    end in
  let queryParams :=
    match opt_search filters with
    | Some s =>
        if JS.truthy_string s then
          queryParams ++ ["search=" +:+ JS.encodeURIComponent s]
        else queryParams
    | None => queryParams
    end in
  queryParams.

(** The URL that [fetchStudents] builds. *)
Definition students_url (filters : option Filters) : string :=
  let url := API_BASE_URL +:+ "/api/students" in
  let queryParams := students_queryParams filters in
  if (0 <? length queryParams)%nat then
    url +:+ "?" +:+ JS.join "&" queryParams
  else url.

(** The object that [fetchStudents] builds from one student of the
    answer; [toLocaleString v] is [new Date(v).toLocaleString()], which
    depends on the browser's locale. *)
Definition transformStudent (toLocaleString : JValue -> string)
    (student : JObject) : JObject :=
  Obj.extend student
    [ ("enrolledCourses", JArr []);
      ("progress", JArr []);
      ("joinedAt", Obj.get "created_at" student);
      ("lastActivity",
        if Obj.truthy (Obj.get "last_active" student) then
          JStr (toLocaleString (Obj.get "last_active" student))
        else JStr "No activity");
      ("courses_enrolled",
        Obj.or (Obj.get "courses_enrolled" student) (JNum 0)) ].

Definition fetchStudents_begin (st : FetchState (list JObject))
    : FetchState (list JObject) :=
  setError None (setLoading true st).

Definition fetchStudents_settle (toLocaleString : JValue -> string)
    (r : Result (list JObject)) (st : FetchState (list JObject))
    : FetchState (list JObject) :=
  match r with
  | Ok students =>
      let transformedStudents :=
        map (transformStudent toLocaleString) students in
      setLoading false (setData transformedStudents st)
  | Err errorMessage => setLoading false (setError (Some errorMessage) st)
  end.

Definition fetchStudents (toLocaleString : JValue -> string)
    (env : Env (list JObject)) (filters : option Filters)
    (st : FetchState (list JObject)) (w : World)
    : FetchState (list JObject) * World :=
  let st1 := fetchStudents_begin st in
  let '(r, w') :=
    makeAuthenticatedAPICall env (students_url filters) no_options w in
  (fetchStudents_settle toLocaleString r st1, w').

(** The effect of [useStudents], run on mount and whenever one of the
    three filters changes, here with no other effect run in between. *)
Definition useStudents (toLocaleString : JValue -> string)
    (env : Env (list JObject)) (filters : option Filters)
    (st : FetchState (list JObject)) (w : World)
    : FetchState (list JObject) * World :=
  if isAuthenticated (Date_now env w) (storage w) then
    fetchStudents toLocaleString env filters st w
  else (setError (Some "Authentication required") (setLoading false st), w).

(** *** Overlapping runs of the effect

    The effect has no clean-up function and [fetchStudents] keeps no
    token of the run it belongs to, so a run that is still waiting for
    its answer continues when the answer arrives, whatever was started
    meanwhile. An instance of the hook is its state together with the
    URLs of the calls started so far and the calls already settled. *)
Record Instance : Type := mkInstance {
  view : FetchState (list JObject);
  issued : list string;
  settled : list nat
}.

Inductive Event : Type :=
  | EffectRun (authed : bool) (filters : option Filters)
      (* mount, or a render with changed filters; [authed] is what
         [isAuthenticated()] returns then *)
  | Settle (k : nat) (r : Result (list JObject)).
      (* the gateway call of the [k]-th run settles with [r] *)


Definition step (toLocaleString : JValue -> string) (i : Instance)
    (e : Event) : Instance :=
  match e with
  | EffectRun true filters =>
      {| view := fetchStudents_begin (view i);
         issued := issued i ++ [students_url filters];
         settled := settled i |}
  | EffectRun false _ =>
      {| view := setError (Some "Authentication required")
                   (setLoading false (view i));
         issued := issued i;
         settled := settled i |}
  | Settle k r =>
      if bool_decide (k < length (issued i))%nat
         && negb (bool_decide (k ∈ settled i)) then
        {| view := fetchStudents_settle toLocaleString r (view i);
           issued := issued i;
           settled := k :: settled i |}
      else i
  end.

Definition run (toLocaleString : JValue -> string) (i : Instance)
    (es : list Event) : Instance :=
  fold_left (step toLocaleString) es i.

End Students.

Record Message : Type := mkMessage {
  msg_id : Z;
  senderId : Z;
  senderType : string;
  content : string;
  timestamp : string;
  msg_type : string
}.

Record Conversation : Type := mkConversation {
  conv_id : Z;
  studentId : Z;
  superCoachId : Z;
  courseId : Z;
  courseVersion : Z;
  messages : list Message;
  startedAt : string;
  lastMessageAt : string
}.

Definition mockMessages : list Message :=
  [ {| msg_id := 1;
       senderId := 1;
       senderType := "student";
       content := "Hi Coach Maya! I'm having trouble understanding the Facebook advertising module. Could you help me?";
       timestamp := "2024-02-25T10:00:00Z";
       msg_type := "text" |};
    {| msg_id := 2;
       senderId := 1;
       senderType := "supercoach";
       content := "Hi Sarah! I'd be happy to help you with Facebook advertising. What specific part are you finding challenging? Is it the audience targeting or the ad creation process?";
       timestamp := "2024-02-25T10:15:00Z";
       msg_type := "text" |};
    {| msg_id := 3;
       senderId := 1;
       senderType := "student";
       content := "I'm confused about how to set up custom audiences. The interface seems different from what's shown in the video.";
       timestamp := "2024-02-25T10:30:00Z";
       msg_type := "text" |};
    {| msg_id := 4;
       senderId := 1;
       senderType := "supercoach";
       content := "That's a great question! Facebook does update their interface regularly. Let me walk you through the current process step by step. First, go to your Ads Manager and click on 'Audiences' in the main menu...";
       timestamp := "2024-02-25T10:45:00Z";
       msg_type := "text" |};
    {| msg_id := 5;
       senderId := 1;
       senderType := "student";
       content := "Thank you so much! That makes it much clearer. I'll try it now and let you know how it goes.";
       timestamp := "2024-02-25T11:00:00Z";
       msg_type := "text" |} ].

Definition mockMessages2 : list Message :=
  [ {| msg_id := 6;
       senderId := 3;
       senderType := "student";
       content := "Coach Alexander, I've completed the team building module and I'm really excited to apply these concepts in my workplace!";
       timestamp := "2024-02-24T14:00:00Z";
       msg_type := "text" |};
    {| msg_id := 7;
       senderId := 2;
       senderType := "supercoach";
       content := "Excellent work, Emma! Your enthusiasm is wonderful to see. How do you plan to implement the team building strategies we discussed?";
       timestamp := "2024-02-24T14:30:00Z";
       msg_type := "text" |};
    {| msg_id := 8;
       senderId := 3;
       senderType := "student";
       content := "I'm thinking of starting with the trust-building exercises during our weekly team meetings. Do you think that's a good approach?";
       timestamp := "2024-02-24T15:00:00Z";
       msg_type := "text" |};
    {| msg_id := 9;
       senderId := 2;
       senderType := "supercoach";
       content := "That's a strategic approach! Starting with trust-building is foundational. Remember to be consistent and patient - trust develops over time. Keep me updated on your progress!";
       timestamp := "2024-02-24T15:15:00Z";
       msg_type := "text" |} ].

Definition mockMessages3 : list Message :=
  [ {| msg_id := 10;
       senderId := 2;
       senderType := "supercoach";
       content := "Hi Mike! I noticed you haven't been active in the course for a few days. Is everything okay? I'm here to help if you're facing any challenges.";
       timestamp := "2024-02-23T09:00:00Z";
       msg_type := "text" |};
    {| msg_id := 11;
       senderId := 2;
       senderType := "student";
       content := "Hi Coach Maya, sorry for the delay. I've been really busy at work and finding it hard to keep up with the course material.";
       timestamp := "2024-02-26T18:30:00Z";
       msg_type := "text" |};
    {| msg_id := 12;
       senderId := 1;
       senderType := "supercoach";
       content := "I completely understand! Work-life balance can be challenging. Would it help if we created a more flexible study schedule that works with your work commitments?";
       timestamp := "2024-02-26T19:00:00Z";
       msg_type := "text" |} ].

Definition mockConversations : list Conversation :=
  [ {| conv_id := 1;
       studentId := 1;
       superCoachId := 1;
       courseId := 1;
       courseVersion := 2;
       messages := mockMessages;
       startedAt := "2024-02-25T10:00:00Z";
       lastMessageAt := "2024-02-25T11:00:00Z" |};
    {| conv_id := 2;
       studentId := 3;
       superCoachId := 2;
       courseId := 2;
       courseVersion := 1;
       messages := mockMessages2;
       startedAt := "2024-02-24T14:00:00Z";
       lastMessageAt := "2024-02-24T15:15:00Z" |};
    {| conv_id := 3;
       studentId := 2;
       superCoachId := 1;
       courseId := 4;
       courseVersion := 1;
       messages := mockMessages3;
       startedAt := "2024-02-23T09:00:00Z";
       lastMessageAt := "2024-02-26T19:00:00Z" |} ].

Module Conversations.

Definition fetchConversations_begin (st : FetchState (list Conversation))
    : FetchState (list Conversation) :=
  setError None (setLoading true st).

Definition fetchConversations_settle (r : Result (list Conversation))
    (st : FetchState (list Conversation)) : FetchState (list Conversation) :=
  match r with
  | Ok conversations => setLoading false (setData conversations st)
  | Err errorMessage =>
      if JS.includes errorMessage "404"
         || JS.includes errorMessage "not found" then
        setLoading false (setError None (setData mockConversations st))
      else setLoading false (setError (Some errorMessage) st)
  end.

Definition fetchConversations (env : Env (list Conversation))
    (st : FetchState (list Conversation)) (w : World)
    : FetchState (list Conversation) * World :=
  let st1 := fetchConversations_begin st in
  let '(r, w') :=
    makeAuthenticatedAPICall env (API_BASE_URL +:+ "/api/conversations")
      no_options w in
  (fetchConversations_settle r st1, w').

(** The effect of [useConversations], run once on mount. *)
Definition useConversations (env : Env (list Conversation))
    (st : FetchState (list Conversation)) (w : World)
    : FetchState (list Conversation) * World :=
  if isAuthenticated (Date_now env w) (storage w) then
    fetchConversations env st w
  else (setLoading false (setData mockConversations st), w).

End Conversations.

Module StudentDetail.

Definition fetchStudentDetail_begin (st : FetchState JValue)
    : FetchState JValue :=
  setError None (setLoading true st).

Definition fetchStudentDetail_settle (r : Result JValue)
    (st : FetchState JValue) : FetchState JValue :=
  match r with
  | Ok studentDetail => setLoading false (setData studentDetail st)
  | Err errorMessage => setLoading false (setError (Some errorMessage) st)
  end.

Definition fetchStudentDetail (env : Env JValue) (studentId : Z)
    (st : FetchState JValue) (w : World) : FetchState JValue * World :=
  let st1 := fetchStudentDetail_begin st in
  let '(r, w') :=
    makeAuthenticatedAPICall env
      (API_BASE_URL +:+ "/api/students/" +:+ JS.String_of_number studentId)
      no_options w in
  (fetchStudentDetail_settle r st1, w').

(** The effect of [useStudentDetail], run on mount and whenever
    [studentId] changes; [None] is [null]. *)
Definition useStudentDetail (env : Env JValue) (studentId : option Z)
    (st : FetchState JValue) (w : World) : FetchState JValue * World :=
  match studentId with
  | Some id =>
      if JS.truthy_number id then
        if isAuthenticated (Date_now env w) (storage w) then
          fetchStudentDetail env id st w
        else
          (setError (Some "Authentication required") (setLoading false st), w)
      else
        ({| data := None; loading := false; error := error st |}, w)
  | None => ({| data := None; loading := false; error := error st |}, w)
  end.

End StudentDetail.

Module Leaderboard.

Record Filters : Type := mkFilters {
  course_id : option Z;
  limit : option Z;
  student_id : option Z
}.

Definition opt_course_id (filters : option Filters) : option Z :=
  match filters with Some f => course_id f | None => None end.
Definition opt_limit (filters : option Filters) : option Z :=
  match filters with Some f => limit f | None => None end.
Definition opt_student_id (filters : option Filters) : option Z :=
  match filters with Some f => student_id f | None => None end.

(** The parameter that a numeric filter adds to [queryParams]. *)
Definition number_param (key : string) (value : option Z) : list string :=
  match value with
  | Some n =>
      if JS.truthy_number n then [key +:+ "=" +:+ JS.String_of_number n]
      else []
  | None => []
  end.

(** The URL that [fetchLeaderboard] builds. *)
Definition leaderboard_url (filters : option Filters) : string :=
  let url := API_BASE_URL +:+ "/api/leaderboard" in
  let queryParams : list string := [] in
  let queryParams :=
    queryParams ++ number_param "course_id" (opt_course_id filters) in
  let queryParams :=
    queryParams ++ number_param "limit" (opt_limit filters) in
  let queryParams :=
    queryParams ++ number_param "student_id" (opt_student_id filters) in
  if (0 <? length queryParams)%nat then
    url +:+ "?" +:+ JS.join "&" queryParams
  else url.

Definition fetchLeaderboard_begin (st : FetchState JValue)
    : FetchState JValue :=
  setError None (setLoading true st).

Definition fetchLeaderboard_settle (r : Result JValue)
    (st : FetchState JValue) : FetchState JValue :=
  match r with
  | Ok leaderboard => setLoading false (setData leaderboard st)
  | Err errorMessage => setLoading false (setError (Some errorMessage) st)
  end.

Definition fetchLeaderboard (env : Env JValue) (filters : option Filters)
    (st : FetchState JValue) (w : World) : FetchState JValue * World :=
  let st1 := fetchLeaderboard_begin st in
  let '(r, w') :=
    makeAuthenticatedAPICall env (leaderboard_url filters) no_options w in
  (fetchLeaderboard_settle r st1, w').

(** The effect of [useLeaderboard]. *)
Definition useLeaderboard (env : Env JValue) (filters : option Filters)
    (st : FetchState JValue) (w : World) : FetchState JValue * World :=
  if isAuthenticated (Date_now env w) (storage w) then
    fetchLeaderboard env filters st w
  else (setError (Some "Authentication required") (setLoading false st), w).

End Leaderboard.

Record SuperCoach : Type := mkSuperCoach {
  coach_id : Z;
  coach_name : string;
  personalityType : string;
  description : string;
  avatar : string;
  coursesAssigned : list Z;
  createdAt : string;
  isActive : bool
}.

Definition mockSuperCoaches : list SuperCoach :=
  [ {| coach_id := 1;
       coach_name := "Coach Maya";
       personalityType := "friendly";
       description := "A warm and encouraging coach who specializes in digital marketing. Maya helps students overcome challenges with patience and positivity.";
       avatar := "";
       coursesAssigned := [1; 4];
       createdAt := "2024-01-10T08:00:00Z";
       isActive := true |};
    {| coach_id := 2;
       coach_name := "Coach Alexander";
       personalityType := "professional";
       description := "A structured and results-oriented coach focused on leadership development. Alexander provides clear guidance and actionable feedback.";
       avatar := "";
       coursesAssigned := [2];
       createdAt := "2024-01-15T10:00:00Z";
       isActive := true |};
    {| coach_id := 3;
       coach_name := "Coach Zara";
       personalityType := "motivational";
       description := "An energetic and inspiring coach who helps students push through barriers and achieve their goals with enthusiasm.";
       avatar := "";
       coursesAssigned := [];
       createdAt := "2024-02-01T12:00:00Z";
       isActive := true |};
    {| coach_id := 4;
       coach_name := "Coach Sam";
       personalityType := "supportive";
       description := "A patient and understanding coach who provides emotional support and helps students build confidence in their learning journey.";
       avatar := "";
       coursesAssigned := [];
       createdAt := "2024-02-10T14:30:00Z";
       isActive := false |} ].

Module SuperCoaches.

Definition fetchSuperCoaches_begin (st : FetchState (list SuperCoach))
    : FetchState (list SuperCoach) :=
  setError None (setLoading true st).

Definition fetchSuperCoaches_settle (r : Result (list SuperCoach))
    (st : FetchState (list SuperCoach)) : FetchState (list SuperCoach) :=
  match r with
  | Ok superCoaches => setLoading false (setData superCoaches st)
  | Err errorMessage =>
      if JS.includes errorMessage "404"
         || JS.includes errorMessage "not found" then
        setLoading false (setError None (setData mockSuperCoaches st))
      else setLoading false (setError (Some errorMessage) st)
  end.

Definition fetchSuperCoaches (env : Env (list SuperCoach))
    (st : FetchState (list SuperCoach)) (w : World)
    : FetchState (list SuperCoach) * World :=
  let st1 := fetchSuperCoaches_begin st in
  let '(r, w') :=
    makeAuthenticatedAPICall env (API_BASE_URL +:+ "/api/supercoaches")
      no_options w in
  (fetchSuperCoaches_settle r st1, w').

(** The effect of [useSuperCoaches], run once on mount. *)
Definition useSuperCoaches (env : Env (list SuperCoach))
    (st : FetchState (list SuperCoach)) (w : World)
    : FetchState (list SuperCoach) * World :=
  if isAuthenticated (Date_now env w) (storage w) then
    fetchSuperCoaches env st w
  else (setLoading false (setData mockSuperCoaches st), w).

End SuperCoaches.

(** ** What a failed run of a hook must leave behind

    The effect of a hook, as a function of the environment, the state
    before and the world. The three predicates say of such an effect that
    a failure leaves [data] as it was, sets [error] to the message and
    [loading] to false. *)

Definition Effect (T D : Type) : Type :=
  Env T -> FetchState D -> World -> FetchState D * World.

(** With no valid session the run fails with [Authentication required]. *)
Definition stale_without_session {T D} (effect : Effect T D) : Prop :=
  forall env st w,
    isAuthenticated (Date_now env w) (storage w) = false ->
    fst (effect env st w)
    = {| data := data st; loading := false;
         error := Some "Authentication required" |}.

(** With a valid session, a gateway call to [url] that fails with [msg]
    makes the run fail with [msg]. *)
Definition stale_on_failure {T D} (url : string) (effect : Effect T D)
    : Prop :=
  forall env st w msg,
    isAuthenticated (Date_now env w) (storage w) = true ->
    fst (makeAuthenticatedAPICall env url no_options w) = Err msg ->
    fst (effect env st w)
    = {| data := data st; loading := false; error := Some msg |}.

(** The same for a hook with a fallback data set, for the failures that do
    not trigger the fallback. *)
Definition stale_on_other_failure {T D} (url : string) (effect : Effect T D)
    : Prop :=
  forall env st w msg,
    isAuthenticated (Date_now env w) (storage w) = true ->
    fst (makeAuthenticatedAPICall env url no_options w) = Err msg ->
    JS.includes msg "404" = false ->
    JS.includes msg "not found" = false ->
    fst (effect env st w)
    = {| data := data st; loading := false; error := Some msg |}.

(** ** The login handler (AuthPage.tsx) *)

Module AuthPage.

Record Coach : Type := mkCoach {
  id : string;
  name : string;
  email : string;
  phone : option string;
  auth_user_id : string
}.

(** The body of a 2xx answer of the login endpoint, as [handleLogin]
    uses it. [access_token] and [refresh_token] are the texts that
    [setItem] stores for these properties (the property itself when it is a
    string, its [String] form otherwise, ["undefined"] when it is absent);
    [coach] is [None] when the body has no coach object ([undefined] or
    [null]); [expires_in] is [None] when the property is absent or not a
    number, so that the product with 1000 is [NaN]. *)
Record LoginResponse : Type := mkLoginResponse {
  access_token : string;
  refresh_token : string;
  coach : option Coach;
  expires_in : option Z
}.

(** How the call of the login endpoint ends, as [handleLogin] tells the
    cases apart. *)
Inductive LoginOutcome : Type :=
  | NetworkError (msg : string)      (* [fetch] rejects *)
  | BadBody (msg : string)           (* [response.json()] rejects, or the
                                        body is [null], so that reading a
                                        property of it throws *)
  | Refused (detail : option string) (* [!response.ok], body read *)
  | Granted (loginData : LoginResponse). (* [response.ok], body read *)

Inductive ToastType : Type := success | error.

Record Toast : Type := mkToast {
  message : string;
  type : ToastType
}.

(** What [handleLogin] leaves behind: [localStorage], the toast and
    whether [onAuthenticated] has been scheduled. *)
Record LoginEffect : Type := mkLoginEffect {
  stored : gmap string string;
  toast : Toast;
  scheduled : bool
}.

(** [String(Date.now() + (loginData.expires_in * 1000))]. *)
Definition expiry_text (now : Z) (expires_in : option Z) : string :=
  match expires_in with
  | Some seconds => JS.Number_toString (now + seconds * 1000)
  | None => "NaN"
  end.

(** [handleLogin] after its two [await]s. [stringify] gives the text that
    is stored for [JSON.stringify(loginData.coach)], [typeError] is the
    message of the [TypeError] that reading [name] of a missing coach
    throws, and [now] is the value of [Date.now()]. The four keys are
    written before the coach is read for the toast. *)
Definition handleLogin (stringify : option Coach -> string)
    (typeError : string) (now : Z) (outcome : LoginOutcome)
    (ls : gmap string string) : LoginEffect :=
  match outcome with
  | NetworkError msg =>
      {| stored := ls; toast := mkToast msg error; scheduled := false |}
  | BadBody msg =>
      {| stored := ls; toast := mkToast msg error; scheduled := false |}
  | Refused detail =>
      let msg := if JS.truthy detail then default "" detail
                 else "Login failed" in
      {| stored := ls; toast := mkToast msg error; scheduled := false |}
  | Granted loginData =>
      let ls := setItem "access_token" (access_token loginData) ls in
      let ls := setItem "refresh_token" (refresh_token loginData) ls in
      let ls := setItem "coach" (stringify (coach loginData)) ls in
      let ls :=
        setItem "expires_at" (expiry_text now (expires_in loginData)) ls in
      match coach loginData with
      | Some c =>
          {| stored := ls;
             toast := mkToast ("Welcome back, " +:+ name c +:+ "!") success;
             scheduled := true |}
      | None =>
          {| stored := ls; toast := mkToast typeError error;
             scheduled := false |}
      end
  end.


End AuthPage.

(** ** Regular expressions of the form validation *)

Module Regex.

Inductive regex : Type :=
  | Void
  | Eps
  | Class (p : ascii -> bool)
  | Seq (r1 r2 : regex)
  | Alt (r1 r2 : regex)
  | Star (r : regex).

Fixpoint nullable (r : regex) : bool :=
  match r with
  | Void => false
  | Eps => true
  | Class _ => false
  | Seq r1 r2 => nullable r1 && nullable r2
  | Alt r1 r2 => nullable r1 || nullable r2
  | Star _ => true
  end.

Fixpoint deriv (c : ascii) (r : regex) : regex :=
  match r with
  | Void => Void
  | Eps => Void
  | Class p => if p c then Eps else Void
  | Seq r1 r2 =>
      if nullable r1 then Alt (Seq (deriv c r1) r2) (deriv c r2)
      else Seq (deriv c r1) r2
  | Alt r1 r2 => Alt (deriv c r1) (deriv c r2)
  | Star r1 => Seq (deriv c r1) (Star r1)
  end.

(** [/^r$/.test(s)]. *)
Fixpoint test (r : regex) (s : string) : bool :=
  match s with
  | EmptyString => nullable r
  | String c s' => test (deriv c r) s'
  end.

Definition Plus (r : regex) : regex := Seq r (Star r).
Definition Opt (r : regex) : regex := Alt Eps r.

(** [r{n,}]. *)
Fixpoint AtLeast (n : nat) (r : regex) : regex :=
  match n with
  | O => Star r
  | S n' => Seq r (AtLeast n' r)
  end.

Definition char (c : ascii) : regex := Class (Ascii.eqb c).

End Regex.

(** ** The create-student modal of the courses tab *)

Module CreateStudentModal.

Definition BASE_URL : string := "http://localhost:3100".

Record FormData : Type := mkFormData {
  name : string;
  email : string;
  phone : string
}.

Definition empty_form : FormData :=
  {| name := ""; email := ""; phone := "" |}.

(** The React state of the modal. *)
Record State : Type := mkState {
  formData : FormData;
  isLoading : bool;
  showSuccess : bool;
  error : option string;
  fieldErrors : gmap string string
}.

Definition initial : State :=
  {| formData := empty_form; isLoading := false; showSuccess := false;
     error := None; fieldErrors := ∅ |}.

(** [/^[^\s@]+@[^\s@]+\.[^\s@]+$/] *)
Definition emailRegex : Regex.regex :=
  let other := Regex.Class (fun c => negb (JS.is_white c || Ascii.eqb c "@")) in
  Regex.Seq (Regex.Plus other)
    (Regex.Seq (Regex.char "@")
       (Regex.Seq (Regex.Plus other)
          (Regex.Seq (Regex.char ".") (Regex.Plus other)))).

(** [/^[+]?[\d\s\-\(\)]{10,}$/] *)
Definition phoneRegex : Regex.regex :=
  let symbol :=
    Regex.Class (fun c => JS.is_digit c || JS.is_white c || Ascii.eqb c "-"
                          || Ascii.eqb c "(" || Ascii.eqb c ")") in
  Regex.Seq (Regex.Opt (Regex.char "+")) (Regex.AtLeast 10 symbol).

(** [s.replace(/\s/g, '')]. *)
Fixpoint remove_white (s : string) : string :=
  match s with
  | EmptyString => EmptyString
  | String c r => if JS.is_white c then remove_white r
                  else String c (remove_white r)
  end.

(** [validateForm]: the messages it hands to [setFieldErrors] and the
    boolean it returns. *)
Definition validateForm (formData : FormData) : gmap string string * bool :=
  let errors : gmap string string := ∅ in
  let isValid := true in
  let '(errors, isValid) :=
    if negb (JS.truthy_string (JS.trim (name formData))) then
      (<[ "name" := "Name is required" ]> errors, false)
    else if (String.length (JS.trim (name formData)) <? 2)%nat then
      (<[ "name" := "Name must be at least 2 characters" ]> errors, false)
    else (errors, isValid) in
  let '(errors, isValid) :=
    if negb (JS.truthy_string (JS.trim (email formData))) then
      (<[ "email" := "Email is required" ]> errors, false)
    else if negb (Regex.test emailRegex (email formData)) then
      (<[ "email" := "Please enter a valid email address" ]> errors, false)
    else (errors, isValid) in
  let '(errors, isValid) :=
    if negb (JS.truthy_string (JS.trim (phone formData))) then
      (<[ "phone" := "Phone number is required" ]> errors, false)
    else if negb (Regex.test phoneRegex (remove_white (phone formData))) then
      (<[ "phone" := "Please enter a valid phone number" ]> errors, false)
    else (errors, isValid) in
  (errors, isValid).

(** The body of an error answer, as far as [handleSubmit] reads it. *)
Record ErrorBody : Type := mkErrorBody { detail : option string }.

(** The modal with its surroundings: the network calls it has made, how
    many of them are still unanswered, the pending success timers and
    the calls of the parent's callbacks. *)
Record Modal : Type := mkModal {
  ui : State;
  sent : list Request;
  inflight : nat;
  timers : nat;
  onClose_calls : nat;
  onSuccess_calls : nat
}.

Definition opened : Modal :=
  {| ui := initial; sent := []; inflight := 0; timers := 0;
     onClose_calls := 0; onSuccess_calls := 0 |}.

Definition with_ui (f : State -> State) (m : Modal) : Modal :=
  {| ui := f (ui m); sent := sent m; inflight := inflight m;
     timers := timers m; onClose_calls := onClose_calls m;
     onSuccess_calls := onSuccess_calls m |}.

Definition create_request (formData : FormData) : Request :=
  {| req_url := BASE_URL +:+ "/api/students";
     req_init :=
       {| method := Some "POST";
          headers := {[ "Content-Type" := "application/json" ]};
          body := Some (JObj
            [ ("name", JStr (JS.trim (name formData)));
              ("email", JStr (JS.toLowerCase (JS.trim (email formData))));
              ("phone", JStr (JS.trim (phone formData))) ]) |} |}.

(** [handleSubmit] up to its [await], or up to the [return] that comes
    before. *)
Definition handleSubmit_begin (m : Modal) : Modal :=
  let st := ui m in
  let '(errors, isValid) := validateForm (formData st) in
  let st1 :=
    {| formData := formData st; isLoading := isLoading st;
       showSuccess := showSuccess st;
       error := None;            (* setError(null) *)
       fieldErrors := errors |}  (* setFieldErrors({}), then
                                    setFieldErrors(errors) *) in
  if negb isValid then with_ui (fun _ => st1) m
  else if isLoading st then with_ui (fun _ => st1) m
  else
    {| ui := {| formData := formData st1; isLoading := true;
                showSuccess := showSuccess st1; error := error st1;
                fieldErrors := fieldErrors st1 |};
       sent := sent m ++ [create_request (formData st)];
       inflight := S (inflight m);
       timers := timers m;
       onClose_calls := onClose_calls m;
       onSuccess_calls := onSuccess_calls m |}.

(** [handleSubmit] from its [await] on, [catch] and [finally] included. *)
Definition handleSubmit_settle (r : FetchResult ErrorBody) (m : Modal)
    : Modal :=
  let st := ui m in
  let failed (msg : string) : Modal :=
    {| ui := {| formData := formData st; isLoading := false;
                showSuccess := showSuccess st; error := Some msg;
                fieldErrors := fieldErrors st |};
       sent := sent m; inflight := pred (inflight m); timers := timers m;
       onClose_calls := onClose_calls m;
       onSuccess_calls := onSuccess_calls m |} in
  match r with
  | Rejected msg => failed msg
  | Resolved response =>
      if negb (ok response) then
        let errorMessage := "Failed to create student" in
        let errorMessage :=
          match json response with
          | Ok errorData =>
              if JS.truthy (detail errorData) then
                default "" (detail errorData)
              else errorMessage
          | Err _ => errorMessage
          end in
        failed errorMessage
      else
        {| ui := {| formData := empty_form; isLoading := false;
                    showSuccess := true; error := error st;
                    fieldErrors := fieldErrors st |};
           sent := sent m; inflight := pred (inflight m);
           timers := S (timers m);
           onClose_calls := onClose_calls m;
           onSuccess_calls := onSuccess_calls m |}
  end.

Inductive Field : Type := FName | FEmail | FPhone.

Definition key (f : Field) : string :=
  match f with FName => "name" | FEmail => "email" | FPhone => "phone" end.

Definition set_field (f : Field) (value : string) (d : FormData)
    : FormData :=
  match f with
  | FName => {| name := value; email := email d; phone := phone d |}
  | FEmail => {| name := name d; email := value; phone := phone d |}
  | FPhone => {| name := name d; email := email d; phone := value |}
  end.

Definition handleInputChange (f : Field) (value : string) (st : State)
    : State :=
  {| formData := set_field f value (formData st);
     isLoading := isLoading st;
     showSuccess := showSuccess st;
     error := if JS.truthy (error st) then None else error st;
     fieldErrors :=
       if JS.truthy (fieldErrors st !! key f) then
         <[ key f := "" ]> (fieldErrors st)
       else fieldErrors st |}.

Definition handleClose (m : Modal) : Modal :=
  if isLoading (ui m) then m
  else
    {| ui := initial; sent := sent m; inflight := inflight m;
       timers := timers m; onClose_calls := S (onClose_calls m);
       onSuccess_calls := onSuccess_calls m |}.

(** The callback that [handleSubmit] hands to [setTimeout]. *)
Definition success_timeout (m : Modal) : Modal :=
  {| ui := {| formData := formData (ui m); isLoading := isLoading (ui m);
              showSuccess := false; error := error (ui m);
              fieldErrors := fieldErrors (ui m) |};
     sent := sent m; inflight := inflight m; timers := pred (timers m);
     onClose_calls := S (onClose_calls m);
     onSuccess_calls := S (onSuccess_calls m) |}.

(** What can happen to an open modal. *)
Inductive Event : Type :=
  | Input (f : Field) (value : string)
  | Submit
  | Reply (r : FetchResult ErrorBody)
  | Close
  | Timeout.

(** When an event can happen: the three inputs carry
    [disabled={isLoading}]; an answer needs a call that waits for one,
    and a rejected [fetch] carries the browser's non-empty message; the
    timer fires only when it is pending. *)
Definition enabled (m : Modal) (e : Event) : Prop :=
  match e with
  | Input _ _ => isLoading (ui m) = false
  | Submit => True
  | Reply r =>
      (0 < inflight m)%nat /\
      match r with Rejected msg => msg <> "" | Resolved _ => True end
  | Close => True
  | Timeout => (0 < timers m)%nat
  end.

Definition step (m : Modal) (e : Event) : Modal :=
  match e with
  | Input f value => with_ui (handleInputChange f value) m
  | Submit => handleSubmit_begin m
  | Reply r => handleSubmit_settle r m
  | Close => handleClose m
  | Timeout => success_timeout m
  end.

(** The states an open modal can be in. *)
Inductive reachable : Modal -> Prop :=
  | reach_opened : reachable opened
  | reach_step m e : reachable m -> enabled m e -> reachable (step m e).

(** The form of the modal passes [validateForm]. *)
Definition valid (m : Modal) : Prop :=
  snd (validateForm (formData (ui m))) = true.

(** What holds of every state of an open modal: a general error is shown
    only over a form that passed validation, at most one call waits for its
    answer, and while it waits the modal is loading, shows no error and
    holds the form that was sent. *)
Definition consistent (m : Modal) : Prop :=
  (forall e, error (ui m) = Some e -> e <> "" /\ valid m) /\
  (inflight m <= 1)%nat /\
  (inflight m = 1%nat ->
     isLoading (ui m) = true /\ error (ui m) = None /\ valid m).

End CreateStudentModal.

(** ** Concrete worlds and servers, used to run the model *)

Module Demo.

(** A session that expires at time 5000. *)
Definition session : gmap string string :=
  setItem "expires_at" "5000"
    (setItem "coach" "{}"
       (setItem "refresh_token" "refresh-1"
          (setItem "access_token" "token-1" ∅))).

Definition world : World :=
  {| storage := session; netlog := []; reloads := 0 |}.

Definition tokens : TokenPayload :=
  {| access_token := "token-2"; refresh_token := "refresh-2";
     expires_in := 3600 |}.

Definition answer {A} (code : Z) (body : string) (parsed : Result A)
    : FetchResult A :=
  Resolved {| status := code; text := body; json := parsed |}.

(** A server that answers the first call with 401, refreshes the tokens and
    then sends the number 7. *)
Definition env_expired : Env Z :=
  {| net := fun n _ =>
       match n with
       | O => answer 401 "token expired" (Err "no body")
       | _ => answer 200 "7" (Ok 7)
       end;
     auth_net := fun _ _ => answer 200 "" (Ok tokens);
     clock := fun _ => 1000 |}.

(** A server that answers with 401 and refuses to refresh. *)
Definition env_revoked : Env Z :=
  {| net := fun _ _ => answer 401 "token revoked" (Err "no body");
     auth_net := fun _ _ => answer 403 "" (Err "no body");
     clock := fun _ => 1000 |}.


(** A server without the conversations endpoint. *)
Definition env_no_conversations : Env (list Conversation) :=
  {| net := fun _ _ => answer 404 "Not Found" (Err "no body");
     auth_net := fun _ _ => answer 200 "" (Ok tokens);
     clock := fun _ => 1000 |}.

(** A server that fails on the courses endpoint. *)
Definition env_courses_down : Env (list JObject) :=
  {| net := fun _ _ => answer 500 "boom" (Err "no body");
     auth_net := fun _ _ => answer 200 "" (Ok tokens);
     clock := fun _ => 1000 |}.

(** A server that knows two stuck students. *)
Definition env_two_stuck : Env (list JObject) :=
  {| net := fun _ req =>
       if String.eqb (req_url req)
            "http://localhost:3100/api/students?status=stuck"
       then answer 200 "[...]"
              (Ok [ [("id", JNum 2); ("name", JStr "Mike Chen");
                     ("created_at", JStr "2024-01-25T10:30:00Z")];
                    [("id", JNum 6); ("name", JStr "Alex Thompson");
                     ("created_at", JStr "2024-02-10T09:30:00Z");
                     ("courses_enrolled", JNum 1)] ])
       else answer 404 "Not Found" (Err "no body");
     auth_net := fun _ _ => answer 200 "" (Ok tokens);
     clock := fun _ => 1000 |}.

Definition alice : JObject := [("id", JNum 1); ("name", JStr "Alice")].


Definition only_stuck : Students.Filters :=
  {| Students.course_id := None; Students.status := Some "stuck";
     Students.search := None |}.

Definition locale (_ : JValue) : string := "1/1/2024, 12:00:00 AM".

End Demo.

(** * Further parts of the program

    The validation and the submission of the login page, the mutation
    hooks, the combined dashboard hook, the filters of the students list,
    the health check and the lists that the courses tab, the students tab,
    the conversations tab and the home page compute from the data of the
    hooks. *)

(** ** The denotation of a regular expression *)

Module RegexSem.

Import Regex.

(** The strings that a regular expression denotes. *)
Inductive matches : regex -> string -> Prop :=
  | m_eps : matches Eps ""
  | m_class p c : p c = true -> matches (Class p) (String c "")
  | m_seq r1 r2 s1 s2 :
      matches r1 s1 -> matches r2 s2 -> matches (Seq r1 r2) (s1 +:+ s2)
  | m_alt_l r1 r2 s : matches r1 s -> matches (Alt r1 r2) s
  | m_alt_r r1 r2 s : matches r2 s -> matches (Alt r1 r2) s
  | m_star_nil r : matches (Star r) ""
  | m_star_cons r s1 s2 :
      matches r s1 -> matches (Star r) s2 -> matches (Star r) (s1 +:+ s2).

(** Every character of a string satisfies [p]. *)
Fixpoint all_chars (p : ascii -> bool) (s : string) : bool :=
  match s with
  | EmptyString => true
  | String c r => p c && all_chars p r
  end.

(** [r{0,n}]. *)
Fixpoint AtMost (n : nat) (r : regex) : regex :=
  match n with
  | O => Eps
  | S n' => Opt (Seq r (AtMost n' r))
  end.

End RegexSem.

(** ** The form of the login page (AuthPage.tsx) *)

Module AuthForm.

Record FormData : Type := mkFormData {
  name : string;
  email : string;
  phone : string;
  password : string;
  confirmPassword : string
}.

(** The forms typed in ASCII characters, on which the lengths and the
    character classes of the embedding are those of the code. *)
Definition ascii_form (f : FormData) : bool :=
  JS.ascii_only (name f) && JS.ascii_only (email f)
  && JS.ascii_only (phone f) && JS.ascii_only (password f)
  && JS.ascii_only (confirmPassword f).

(** The React state of the page that the handlers use. *)
Record State : Type := mkState {
  isSignUp : bool;
  formData : FormData;
  errors : gmap string string;
  isLoading : bool;
  toast : option AuthPage.Toast
}.

(** [phone.replace(/[\s\-\(\)]/g, '')]. *)
Fixpoint strip_phone (s : string) : string :=
  match s with
  | EmptyString => EmptyString
  | String c r =>
      if JS.is_white c || Ascii.eqb c "-" || Ascii.eqb c "(" || Ascii.eqb c ")"
      then strip_phone r
      else String c (strip_phone r)
  end.

Definition nonzero_digit (c : ascii) : bool :=
  let n := JS.code c in (49 <=? n) && (n <=? 57).

(** [/^[\+]?[1-9][\d]{0,15}$/] *)
Definition phoneRegex : Regex.regex :=
  Regex.Seq (Regex.Opt (Regex.char "+"))
    (Regex.Seq (Regex.Class nonzero_digit)
       (RegexSem.AtMost 15 (Regex.Class JS.is_digit))).

Definition validatePhone (phone : string) : bool :=
  Regex.test phoneRegex (strip_phone phone).

Definition email_char (c : ascii) : bool :=
  negb (JS.is_white c || Ascii.eqb c "@").

(** [/^[^\s@]+@[^\s@]+\.[^\s@]+$/] *)
Definition emailRegex : Regex.regex :=
  Regex.Seq (Regex.Plus (Regex.Class email_char))
    (Regex.Seq (Regex.char "@")
       (Regex.Seq (Regex.Plus (Regex.Class email_char))
          (Regex.Seq (Regex.char ".") (Regex.Plus (Regex.Class email_char))))).

Definition validateEmail (email : string) : bool :=
  Regex.test emailRegex email.

Definition validatePassword (password : string) : bool :=
  (6 <=? String.length password)%nat.

(** The object [newErrors] that [validateForm] builds and hands to
    [setErrors]. *)
Definition newErrors (isSignUp : bool) (formData : FormData)
    : gmap string string :=
  let errs : gmap string string := ∅ in
  let errs :=
    if negb (JS.truthy_string (JS.trim (email formData))) then
      <[ "email" := "Email is required" ]> errs
    else if negb (validateEmail (email formData)) then
      <[ "email" := "Please enter a valid email address" ]> errs
    else errs in
  let errs :=
    if negb (JS.truthy_string (password formData)) then
      <[ "password" := "Password is required" ]> errs
    else if isSignUp && negb (validatePassword (password formData)) then
      <[ "password" := "Password must be at least 6 characters long" ]> errs
    else errs in
  if isSignUp then
    let errs :=
      if negb (JS.truthy_string (JS.trim (name formData))) then
        <[ "name" := "Name is required" ]> errs
      else if (String.length (JS.trim (name formData)) <? 2)%nat then
        <[ "name" := "Name must be at least 2 characters" ]> errs
      else errs in
    let errs :=
      if negb (JS.truthy_string (JS.trim (phone formData))) then
        <[ "phone" := "Phone number is required" ]> errs
      else if negb (validatePhone (phone formData)) then
        <[ "phone" := "Please enter a valid phone number" ]> errs
      else errs in
    let errs :=
      if negb (JS.truthy_string (confirmPassword formData)) then
        <[ "confirmPassword" := "Please confirm your password" ]> errs
      else if negb (String.eqb (password formData) (confirmPassword formData))
      then <[ "confirmPassword" := "Passwords do not match" ]> errs
      else errs in
    errs
  else errs.

(** What [validateForm] returns: [Object.keys(newErrors).length === 0]. *)
Definition validateForm (st : State) : bool :=
  bool_decide (newErrors (isSignUp st) (formData st) = ∅).

(** The page with its surroundings: the world of the data module and the
    number of times [onAuthenticated] has been scheduled. *)
Record Page : Type := mkPage {
  view : State;
  world : World;
  scheduled : nat
}.

Definition login_request (formData : FormData) : Request :=
  {| req_url := "http://localhost:3100" +:+ "/api/auth/login";
     req_init :=
       {| method := Some "POST";
          headers := {[ "Content-Type" := "application/json" ]};
          body := Some (JObj [ ("email", JStr (email formData));
                               ("password", JStr (password formData)) ]) |} |}.

(** The toast of [handleSignUp]. *)
Definition signUpToast : AuthPage.Toast :=
  {| AuthPage.message :=
       "Sign up functionality needs to be implemented in the backend";
     AuthPage.type := AuthPage.error |}.

(** [handleSubmit], run to its end. [server] says how the login call
    ends; [stringify], [typeError] and [now] are those of
    [AuthPage.handleLogin]. *)
Definition handleSubmit (stringify : option AuthPage.Coach -> string)
    (typeError : string) (now : Z)
    (server : Request -> AuthPage.LoginOutcome) (p : Page) : Page :=
  let st := view p in
  let errs := newErrors (isSignUp st) (formData st) in
  let st1 := {| isSignUp := isSignUp st; formData := formData st;
                errors := errs; isLoading := isLoading st;
                toast := toast st |} in
  if negb (validateForm st) then
    {| view := st1; world := world p; scheduled := scheduled p |}
  else if isSignUp st then
    {| view := {| isSignUp := isSignUp st1; formData := formData st1;
                  errors := errors st1; isLoading := false;
                  toast := Some signUpToast |};
       world := world p; scheduled := scheduled p |}
  else
    let req := login_request (formData st) in
    let w1 := log_call req (world p) in
    let eff :=
      AuthPage.handleLogin stringify typeError now (server req)
        (storage w1) in
    {| view := {| isSignUp := isSignUp st1; formData := formData st1;
                  errors := errors st1; isLoading := false;
                  toast := Some (AuthPage.toast eff) |};
       world := with_storage (fun _ => AuthPage.stored eff) w1;
       scheduled := if AuthPage.scheduled eff then S (scheduled p)
                    else scheduled p |}.

End AuthForm.

(** ** Mutation hooks *)

Module Mutations.

(** The two pieces of React state of a mutation hook. *)
Record MutationState : Type := mkMutationState {
  loading : bool;
  error : option string
}.

(** [useState(false)], [useState(null)]. *)
Definition idle : MutationState := {| loading := false; error := None |}.

Definition post (payload : JObject) : RequestInit :=
  {| method := Some "POST"; headers := ∅; body := Some (JObj payload) |}.

Section Hooks.

Context {T : Type} (env : Env T).

(** [createCourse] of [useCreateCourse], run to its end: what the
    returned promise settles with, the state of the hook and the world. *)
Definition createCourse (courseData : JObject) (st : MutationState)
    (w : World) : Result T * MutationState * World :=
  let st1 := {| loading := true; error := None |} in
  match makeAuthenticatedAPICall env (API_BASE_URL +:+ "/api/courses")
          (post courseData) w with
  | (Ok newCourse, w') =>
      (Ok newCourse, {| loading := false; error := error st1 |}, w')
  | (Err errorMessage, w') =>
      (Err errorMessage,
       {| loading := false; error := Some errorMessage |}, w')
  end.

(** [createStudent] of [useCreateStudent]. *)
Definition createStudent (studentData : JObject) (st : MutationState)
    (w : World) : Result T * MutationState * World :=
  let st1 := {| loading := true; error := None |} in
  match makeAuthenticatedAPICall env (API_BASE_URL +:+ "/api/students")
          (post studentData) w with
  | (Ok newStudent, w') =>
      (Ok newStudent, {| loading := false; error := error st1 |}, w')
  | (Err errorMessage, w') =>
      (Err errorMessage,
       {| loading := false; error := Some errorMessage |}, w')
  end.

(** [enrollStudent] of [useEnrollStudent]. *)
Definition enrollStudent (enrollmentData : JObject) (st : MutationState)
    (w : World) : Result T * MutationState * World :=
  let st1 := {| loading := true; error := None |} in
  match makeAuthenticatedAPICall env (API_BASE_URL +:+ "/api/enrollments")
          (post enrollmentData) w with
  | (Ok result, w') =>
      (Ok result, {| loading := false; error := error st1 |}, w')
  | (Err errorMessage, w') =>
      (Err errorMessage,
       {| loading := false; error := Some errorMessage |}, w')
  end.

End Hooks.

End Mutations.

(** ** The combined dashboard hook *)

Module Dashboard.

(** [a || b] on [string | null]. *)
Definition or_error (a b : option string) : option string :=
  if JS.truthy a then a else b.

(** [metrics.loading || studentStatus.loading || courses.loading ||
    students.loading]. *)
Definition any_loading (m : FetchState DashboardMetrics)
    (s : FetchState StudentStatus) (c : FetchState (list JObject))
    (st : FetchState (list JObject)) : bool :=
  loading m || loading s || loading c || loading st.

(** [metrics.error || studentStatus.error || courses.error ||
    students.error]. *)
Definition first_error (m : FetchState DashboardMetrics)
    (s : FetchState StudentStatus) (c : FetchState (list JObject))
    (st : FetchState (list JObject)) : option string :=
  or_error (or_error (or_error (error m) (error s)) (error c)) (error st).

(** What [useDashboardData] returns, as far as it is computed from the
    four hooks. *)
Record DashboardData : Type := mkDashboardData {
  d_metrics : option DashboardMetrics;
  d_studentStatus : option StudentStatus;
  d_courses : option (list JObject);
  d_students : option (list JObject);
  d_loading : bool;
  d_error : option string
}.

Definition useDashboardData (m : FetchState DashboardMetrics)
    (s : FetchState StudentStatus) (c : FetchState (list JObject))
    (st : FetchState (list JObject)) : DashboardData :=
  {| d_metrics := data m;
     d_studentStatus := data s;
     d_courses := data c;
     d_students := data st;
     d_loading := any_loading m s c st;
     d_error := first_error m s c st |}.

End Dashboard.

(** ** The students hook with its own filters *)

Module StudentsWithFilters.

(** A [Partial] of the filters: [None] when the property is absent,
    [Some v] when it is there with the value [v] ([Some None] being a
    property set to [undefined]). *)
Record PartialFilters : Type := mkPartial {
  p_course_id : option (option Z);
  p_status : option (option string);
  p_search : option (option string)
}.

(** [useState({})]. *)
Definition no_filters : Students.Filters :=
  {| Students.course_id := None; Students.status := None;
     Students.search := None |}.

(** [setFilters(prev => ({ ...prev, ...newFilters }))]. *)
Definition updateFilters (newFilters : PartialFilters)
    (prev : Students.Filters) : Students.Filters :=
  {| Students.course_id :=
       match p_course_id newFilters with
       | Some v => v
       | None => Students.course_id prev
       end;
     Students.status :=
       match p_status newFilters with
       | Some v => v
       | None => Students.status prev
       end;
     Students.search :=
       match p_search newFilters with
       | Some v => v
       | None => Students.search prev
       end |}.

(** [setFilters({})]. *)
Definition clearFilters (prev : Students.Filters) : Students.Filters :=
  no_filters.

(** [{ ...p, ...q }] on two partial filter sets. *)
Definition merge (p q : PartialFilters) : PartialFilters :=
  {| p_course_id :=
       match p_course_id q with Some v => Some v | None => p_course_id p end;
     p_status :=
       match p_status q with Some v => Some v | None => p_status p end;
     p_search :=
       match p_search q with Some v => Some v | None => p_search p end |}.

End StudentsWithFilters.

(** ** The health check *)

Module APIStatus.

Record State : Type := mkState {
  isOnline : bool;
  lastChecked : option Z
}.

(** [useState(true)], [useState(null)]. *)
Definition initial : State := {| isOnline := true; lastChecked := None |}.

Definition health_request : Request :=
  {| req_url := API_BASE_URL +:+ "/health"; req_init := no_options |}.

(** [checkAPIStatus], run to its end: the boolean it returns, the state
    and the world. *)
Definition checkAPIStatus {T} (env : Env T) (st : State) (w : World)
    : bool * State * World :=
  let w' := log_call health_request w in
  match net env (length (netlog w)) health_request with
  | Resolved response =>
      let isHealthy := ok response in
      (isHealthy,
       {| isOnline := isHealthy; lastChecked := Some (Date_now env w') |},
       w')
  | Rejected _ =>
      (false,
       {| isOnline := false; lastChecked := Some (Date_now env w') |}, w')
  end.

End APIStatus.

(** ** The lists of the courses tab *)

Module CoursesTab.

(** The properties that [transformCourse] writes. *)
Definition frontend_keys : list string :=
  ["enrolledStudents"; "completionRate"; "status"; "version"; "modules";
   "superCoachId"; "baseId"; "isCurrentVersion"; "updatedAt"].

(** [course.is_active], as a condition. *)
Definition is_active (course : JObject) : bool :=
  Obj.truthy (Obj.get "is_active" course).

(** [v === s] for a string [s]. *)
Definition is_string (s : string) (v : JValue) : bool :=
  match v with
  | JStr t => String.eqb t s
  | _ => false
  end.

(** [apiCourses || propCourses || []]. *)
Definition courses (apiCourses propCourses : option (list JObject))
    : list JObject :=
  match apiCourses with
  | Some l => l
  | None => match propCourses with Some l => l | None => [] end
  end.

Definition has_status (s : string) (c : JObject) : bool :=
  is_string s (Obj.get "status" c).

Definition liveCourses (courses : list JObject) : list JObject :=
  List.filter (has_status "live") courses.

Definition draftCourses (courses : list JObject) : list JObject :=
  List.filter (has_status "draft") courses.

Definition archivedCourses (courses : list JObject) : list JObject :=
  List.filter (has_status "archived") courses.

End CoursesTab.

(** ** The student list of the home page *)

Module HomePage.

(** The properties of a student that the page reads. *)
Record Student : Type := mkStudent {
  id : Z;
  name : string;
  email : string;
  status : string
}.

Record StatusCounts : Type := mkStatusCounts {
  all : nat;
  new : nat;
  in_progress : nat;
  stuck : nat;
  completed : nat
}.

Definition count_status (s : string) (students : list Student) : nat :=
  length (List.filter (fun st => String.eqb (status st) s) students).

Definition statusCounts (students : list Student) : StatusCounts :=
  {| all := length students;
     new := count_status "new" students;
     in_progress := count_status "in-progress" students;
     stuck := count_status "stuck" students;
     completed := count_status "completed" students |}.

Definition shown (selectedStatus searchTerm : string) (student : Student)
    : bool :=
  let matchesStatus :=
    String.eqb selectedStatus "all"
    || String.eqb (status student) selectedStatus in
  let matchesSearch :=
    JS.includes (JS.toLowerCase (name student)) (JS.toLowerCase searchTerm)
    || JS.includes (JS.toLowerCase (email student))
         (JS.toLowerCase searchTerm) in
  matchesStatus && matchesSearch.

Definition filteredStudents (selectedStatus searchTerm : string)
    (students : list Student) : list Student :=
  List.filter (shown selectedStatus searchTerm) students.

End HomePage.

(** The counts on the five tiles of the home page:
    [studentStatus?.x ?? statusCounts.x], the numbers of the server once
    the status hook has data and the numbers counted in the students of
    the page otherwise. *)
Definition tiles (studentStatus : option StudentStatus)
    (students : list HomePage.Student) : StudentStatus :=
  let statusCounts := HomePage.statusCounts students in
  match studentStatus with
  | Some s => s
  | None =>
      {| all := Z.of_nat (HomePage.all statusCounts);
         new := Z.of_nat (HomePage.new statusCounts);
         in_progress := Z.of_nat (HomePage.in_progress statusCounts);
         stuck := Z.of_nat (HomePage.stuck statusCounts);
         completed := Z.of_nat (HomePage.completed statusCounts) |}
  end.

(** ** The shapes that the validators accept *)

Module Shapes.

(** [local@domain.tld]: three non-empty parts without white space and
    without [@] (the domain and the last part may contain dots). *)
Definition email_shape (s : string) : Prop :=
  exists l d t,
    s = l +:+ "@" +:+ d +:+ "." +:+ t /\
    l <> "" /\ d <> "" /\ t <> "" /\
    RegexSem.all_chars AuthForm.email_char l = true /\
    RegexSem.all_chars AuthForm.email_char d = true /\
    RegexSem.all_chars AuthForm.email_char t = true.

(** The characters that the phone pattern of the create-student modal
    allows after the optional [+]. *)
Definition phone_symbol (c : ascii) : bool :=
  JS.is_digit c || JS.is_white c || Ascii.eqb c "-" || Ascii.eqb c "("
  || Ascii.eqb c ")".

(** An optional [+] and then at least ten allowed characters. *)
Definition modal_phone_shape (s : string) : Prop :=
  exists body,
    (s = body \/ s = "+" +:+ body) /\
    (10 <= String.length body)%nat /\
    RegexSem.all_chars phone_symbol body = true.

(** An optional [+], a digit from 1 to 9 and at most fifteen digits. *)
Definition auth_phone_shape (s : string) : Prop :=
  exists d ds,
    (s = String d ds \/ s = String "+" (String d ds)) /\
    AuthForm.nonzero_digit d = true /\
    RegexSem.all_chars JS.is_digit ds = true /\
    (String.length ds <= 15)%nat.

End Shapes.

(** ** The footprint of the gateway *)

(** The keys of [localStorage] that hold the session. *)
Definition session_keys : list string :=
  ["access_token"; "refresh_token"; "coach"; "expires_at"].

(** A call that the gateway may make on behalf of a call of [url] with
    [options]: the resource itself, with the caller's method and body, or
    the refresh endpoint. *)
Definition gateway_call (url : string) (options : RequestInit)
    (q : Request) : Prop :=
  (req_url q = url /\ method (req_init q) = method options /\
   body (req_init q) = body options /\
   headers options ⊆ headers (req_init q)) \/
  (exists refreshToken, q = refresh_request refreshToken).

(** Further servers and sessions for the examples. *)

Module DemoGateway.

(** No session at all. *)
Definition logged_out : World :=
  {| storage := {[ "theme" := "dark" ]}; netlog := []; reloads := 0 |}.

(** A session next to a key of another part of the page. *)
Definition world_with_theme : World :=
  {| storage := setItem "theme" "dark" Demo.session; netlog := [];
     reloads := 0 |}.

(** A server that knows the answer. *)
Definition env_up : Env Z :=
  {| net := fun _ _ => Demo.answer 200 "7" (Ok 7);
     auth_net := fun _ _ => Demo.answer 200 "" (Ok Demo.tokens);
     clock := fun _ => 1000 |}.

(** A server whose refresh endpoint answers 200 with a body that is not
    JSON. *)
Definition env_garbled_refresh : Env Z :=
  {| net := fun _ _ => Demo.answer 401 "token expired" (Err "no body");
     auth_net := fun _ _ =>
       Demo.answer 200 "<html>" (Err "Unexpected token <");
     clock := fun _ => 1000 |}.

(** A server whose refresh endpoint answers with an empty access token. *)
Definition env_empty_token : Env Z :=
  {| net := fun _ _ => Demo.answer 401 "token expired" (Err "no body");
     auth_net := fun _ _ =>
       Demo.answer 200 ""
         (Ok {| access_token := ""; refresh_token := "refresh-2";
                expires_in := 3600 |});
     clock := fun _ => 1000 |}.

End DemoGateway.

(** How often the character [c] occurs in [s]. *)
Fixpoint occurrences (c : ascii) (s : string) : nat :=
  match s with
  | EmptyString => 0
  | String a r => ((if Ascii.eqb a c then 1 else 0) + occurrences c r)%nat
  end.

(** The characters that structure a URL: the marks of the query and of
    the fragment, the two separators of the query, and the space. *)
Definition url_delimiter (c : ascii) : bool :=
  Ascii.eqb c "?" || Ascii.eqb c "&" || Ascii.eqb c "=" || Ascii.eqb c "#"
  || Ascii.eqb c " ".

(** What a run of the effect of a hook that reads [url] does to the
    world: it ends with [loading] false; without a valid session it leaves
    the world as it is; with one, the world is that of one call of the
    gateway for [url] without options, and the first network call of the
    run is the call of [url] with the headers of the stored session. *)
Definition reads_endpoint {T D} (url : string) (effect : Effect T D) : Prop :=
  forall env st w,
    loading (fst (effect env st w)) = false /\
    (isAuthenticated (Date_now env w) (storage w) = false ->
     snd (effect env st w) = w) /\
    (isAuthenticated (Date_now env w) (storage w) = true ->
     snd (effect env st w)
     = snd (makeAuthenticatedAPICall env url no_options w) /\
     exists later,
       netlog (snd (effect env st w))
       = netlog w ++ original url no_options w :: later).

(** An answer that the two hooks with a fallback take for a missing
    endpoint: a 404, or a failure with a status that has no message of its
    own and a body that mentions "404" or "not found". *)
Definition looks_missing {A} (r : Response A) : Prop :=
  status r = 404 \/
  (ok r = false /\ status r <> 401 /\ status r <> 403 /\ status r <> 429 /\
   status r <> 500 /\
   (JS.includes (text r) "404" = true \/
    JS.includes (text r) "not found" = true)).

Module DemoHooks.

(** A server in maintenance: every endpoint answers 503 with a page that
    says so. *)
Definition env_maintenance : Env (list Conversation) :=
  {| net := fun _ _ =>
       Demo.answer 503 "upstream not found" (Err "no body");
     auth_net := fun _ _ => Demo.answer 200 "" (Ok Demo.tokens);
     clock := fun _ => 1000 |}.

(** A server that accepts what is posted and sends it back. *)
Definition env_echo : Env JValue :=
  {| net := fun _ req =>
       Demo.answer 201 "" (Ok (default JNull (body (req_init req))));
     auth_net := fun _ _ => Demo.answer 200 "" (Ok Demo.tokens);
     clock := fun _ => 1000 |}.

Definition new_student : JObject :=
  [("name", JStr "Ada"); ("email", JStr "ada@example.org")].

(** A server that is off line, at the time 6000, after the session of
    [Demo.session] has run out. *)
Definition late {T} : Env T :=
  {| net := fun _ _ => Rejected "offline";
     auth_net := fun _ _ => Rejected "offline";
     clock := fun _ => 6000 |}.

End DemoHooks.

(** What a call of a mutation hook that posts to [url] does: it ends with
    [loading] false and with the message of the failure, if there is one,
    as [error]; it does not look at the session itself, so that without a
    valid session it is the gateway that answers, with a logout; with a
    valid session the first network call is the [POST] of the payload to
    [url] with the headers of the session, and every call that the run
    makes is such a [POST] or a call of the refresh endpoint. *)
Definition posts_to {T} (url : string)
    (mutate : Env T -> JObject -> Mutations.MutationState -> World ->
              Result T * Mutations.MutationState * World) : Prop :=
  forall env payload st w,
    let r := fst (fst (mutate env payload st w)) in
    let st' := snd (fst (mutate env payload st w)) in
    let w' := snd (mutate env payload st w) in
    Mutations.loading st' = false /\
    Mutations.error st'
    = match r with Ok _ => None | Err message => Some message end /\
    (isAuthenticated (Date_now env w) (storage w) = false ->
     r = Err "Authentication required" /\ w' = redirectToLogin w) /\
    (isAuthenticated (Date_now env w) (storage w) = true ->
     exists later,
       netlog w'
       = netlog w ++ original url (Mutations.post payload) w :: later) /\
    (exists calls,
       netlog w' = netlog w ++ calls /\
       Forall (fun q =>
                 (req_url q = url /\ method (req_init q) = Some "POST" /\
                  body (req_init q) = Some (JObj payload)) \/
                 (exists refreshToken, q = refresh_request refreshToken))
              calls).

Module DemoModal.

Definition filled : CreateStudentModal.FormData :=
  {| CreateStudentModal.name := "Ada Lovelace";
     CreateStudentModal.email := "ada@example.org";
     CreateStudentModal.phone := "+44 20 7946 0958" |}.

(** The modal after the three fields have been typed and the form has
    been submitted. *)
Definition submitted : CreateStudentModal.Modal :=
  CreateStudentModal.step
    (CreateStudentModal.step
       (CreateStudentModal.step
          (CreateStudentModal.step CreateStudentModal.opened
             (CreateStudentModal.Input CreateStudentModal.FName
                "Ada Lovelace"))
          (CreateStudentModal.Input CreateStudentModal.FEmail
             "ada@example.org"))
       (CreateStudentModal.Input CreateStudentModal.FPhone
          "+44 20 7946 0958"))
    CreateStudentModal.Submit.

End DemoModal.

(** ** The students tab *)

Module StudentsTab.

(** The argument that the tab passes to [useStudents]. [parseInt] may
    give [NaN], which the hook treats like an absent course (both are
    falsy) and which is [None] here as well. *)
Definition filters (searchTerm selectedCourse selectedStatus : string)
    : Students.Filters :=
  {| Students.course_id :=
       if JS.truthy_string selectedCourse then JS.parseInt selectedCourse
       else None;
     Students.status :=
       if JS.truthy_string selectedStatus then Some selectedStatus else None;
     Students.search :=
       if JS.truthy_string searchTerm then Some searchTerm else None |}.

(** [typeof v === 'object']. *)
Definition is_object (v : JValue) : bool :=
  match v with
  | JNull | JArr _ | JObj _ => true
  | _ => false
  end.

(** [v === n] for a number [n] that may be [NaN]. *)
Definition strict_eq_number (v : JValue) (n : option Z) : bool :=
  match v, n with
  | JNum a, Some b => a =? b
  | _, _ => false
  end.

(** [v === s] for a string [s]. *)
Definition strict_eq_string (v : JValue) (s : string) : bool :=
  match v with
  | JStr t => String.eqb t s
  | _ => false
  end.

(** The callback of [some]; [None] is the [TypeError] of reading a
    property of [null]. *)
Definition enrollment_matches (course : option Z) (enrollment : JValue)
    : option bool :=
  if is_object enrollment then
    match enrollment with
    | JNull => None
    | JObj props => Some (strict_eq_number (Obj.get "courseId" props) course)
    | _ => Some (strict_eq_number JUndefined course)
    end
  else Some (strict_eq_number enrollment course).

(** [Array.prototype.some] with a callback that may throw. *)
Fixpoint some (f : JValue -> option bool) (l : list JValue) : option bool :=
  match l with
  | [] => Some false
  | x :: r =>
      match f x with
      | None => None
      | Some true => Some true
      | Some false => some f r
      end
  end.

(** [v.toLowerCase().includes(term.toLowerCase())]; [None] is the
    [TypeError] for a [v] that is not a string. *)
Definition lower_includes (v : JValue) (term : string) : option bool :=
  match v with
  | JStr s => Some (JS.includes (JS.toLowerCase s) (JS.toLowerCase term))
  | _ => None
  end.

Definition matchesSearch (searchTerm : string) (student : JObject)
    : option bool :=
  if negb (JS.truthy_string searchTerm) then Some true
  else
    match lower_includes (Obj.get "name" student) searchTerm with
    | None => None
    | Some true => Some true
    | Some false => lower_includes (Obj.get "email" student) searchTerm
    end.

Definition matchesCourse (selectedCourse : string) (student : JObject)
    : option bool :=
  let studentCourses :=
    Obj.or (Obj.get "courses_enrolled" student)
      (Obj.or (Obj.get "enrolledCourses" student) (JArr [])) in
  if negb (JS.truthy_string selectedCourse) then Some true
  else
    match studentCourses with
    | JArr items =>
        some (enrollment_matches (JS.parseInt selectedCourse)) items
    | v => Some (strict_eq_number v (JS.parseInt selectedCourse))
    end.

Definition matchesStatus (selectedStatus : string) (student : JObject)
    : bool :=
  negb (JS.truthy_string selectedStatus)
  || strict_eq_string (Obj.get "status" student) selectedStatus.

(** The callback of the client-side filter. *)
Definition shown (searchTerm selectedCourse selectedStatus : string)
    (student : JObject) : option bool :=
  match matchesSearch searchTerm student with
  | None => None
  | Some s =>
      match matchesCourse selectedCourse student with
      | None => None
      | Some c => Some (s && c && matchesStatus selectedStatus student)
      end
  end.

(** [Array.prototype.filter] with a callback that may throw. *)
Fixpoint filter_students (f : JObject -> option bool) (l : list JObject)
    : option (list JObject) :=
  match l with
  | [] => Some []
  | x :: r =>
      match f x with
      | None => None
      | Some b =>
          match filter_students f r with
          | None => None
          | Some r' => Some (if b then x :: r' else r')
          end
      end
  end.

(** [apiStudents || propStudents || []]. *)
Definition students (apiStudents propStudents : option (list JObject))
    : list JObject :=
  match apiStudents with
  | Some l => l
  | None => match propStudents with Some l => l | None => [] end
  end.

Definition filteredStudents (searchTerm selectedCourse selectedStatus : string)
    (students : list JObject) : option (list JObject) :=
  if JS.truthy_string searchTerm || JS.truthy_string selectedCourse
     || JS.truthy_string selectedStatus
  then filter_students (shown searchTerm selectedCourse selectedStatus)
         students
  else Some students.

End StudentsTab.

(** ** The conversations tab *)

Module ConversationsTab.

(** [students.find(s => s.id === conversation.studentId)]. *)
Definition find_student (students : list HomePage.Student) (id : Z)
    : option HomePage.Student :=
  List.find (fun s => HomePage.id s =? id) students.

(** [superCoaches.find(sc => sc.id === conversation.superCoachId)]. *)
Definition find_superCoach (superCoaches : list SuperCoach) (id : Z)
    : option SuperCoach :=
  List.find (fun sc => coach_id sc =? id) superCoaches.

(** [v?.toLowerCase().includes(term.toLowerCase())], where an absent [v]
    gives [undefined], which is falsy. *)
Definition lower_includes (v : option string) (term : string) : bool :=
  match v with
  | Some s => JS.includes (JS.toLowerCase s) (JS.toLowerCase term)
  | None => false
  end.

(** [n === parseInt(s)]. *)
Definition is_number (n : Z) (v : option Z) : bool :=
  match v with
  | Some m => n =? m
  | None => false
  end.

(** The callback of the filter. *)
Definition shown (students : list HomePage.Student)
    (superCoaches : list SuperCoach) (searchTerm selectedSuperCoach : string)
    (conversation : Conversation) : bool :=
  let student := find_student students (studentId conversation) in
  let superCoach := find_superCoach superCoaches (superCoachId conversation) in
  let matchesSearch :=
    negb (JS.truthy_string searchTerm)
    || (lower_includes (HomePage.name <$> student) searchTerm
        || lower_includes (HomePage.email <$> student) searchTerm
        || lower_includes (coach_name <$> superCoach) searchTerm) in
  let matchesSuperCoach :=
    negb (JS.truthy_string selectedSuperCoach)
    || is_number (superCoachId conversation)
         (JS.parseInt selectedSuperCoach) in
  matchesSearch && matchesSuperCoach.

Definition filteredConversations (students : list HomePage.Student)
    (superCoaches : list SuperCoach) (searchTerm selectedSuperCoach : string)
    (conversations : list Conversation) : list Conversation :=
  List.filter (shown students superCoaches searchTerm selectedSuperCoach)
    conversations.

(** [getTimeSince]: [now] is [new Date().getTime()] and [time] is
    [new Date(timestamp).getTime()], which is [NaN] for a text that is not
    a date. *)
Definition getTimeSince (now : Z) (time : option Z) : string :=
  let diffInHours := (fun t => (now - t) / (1000 * 60 * 60)) <$> time in
  if JS.lt_number diffInHours (Some 1) then "Just now"
  else if JS.lt_number diffInHours (Some 24) then
    JS.String_of_nan diffInHours +:+ "h ago"
  else JS.String_of_nan ((fun h => h / 24) <$> diffInHours) +:+ "d ago".

End ConversationsTab.

Module DemoLogin.

Definition ada : AuthPage.Coach :=
  {| AuthPage.id := "c1"; AuthPage.name := "Ada";
     AuthPage.email := "ada@example.org"; AuthPage.phone := None;
     AuthPage.auth_user_id := "u1" |}.

Definition granted : AuthPage.LoginResponse :=
  {| AuthPage.access_token := "token-9";
     AuthPage.refresh_token := "refresh-9";
     AuthPage.coach := Some ada;
     AuthPage.expires_in := Some 3600 |}.

(** The login page with a login form filled in, over an empty store. *)
Definition page : AuthForm.Page :=
  {| AuthForm.view :=
       {| AuthForm.isSignUp := false;
          AuthForm.formData :=
            {| AuthForm.name := ""; AuthForm.email := "ada@example.org";
               AuthForm.phone := ""; AuthForm.password := "secret";
               AuthForm.confirmPassword := "" |};
          AuthForm.errors := ∅;
          AuthForm.isLoading := false;
          AuthForm.toast := None |};
     AuthForm.world := {| storage := ∅; netlog := []; reloads := 0 |};
     AuthForm.scheduled := 0 |}.

Definition stringify (c : option AuthPage.Coach) : string :=
  match c with
  | Some _ => "{}"
  | None => "undefined"
  end.

(** The message of the [TypeError] in one browser. *)
Definition typeError : string :=
  "Cannot read properties of undefined (reading 'name')".



End DemoLogin.

(** ** A home page *)

Module DemoHome.

Definition students : list HomePage.Student :=
  [ {| HomePage.id := 1; HomePage.name := "Ada";
       HomePage.email := "ada@example.org"; HomePage.status := "new" |};
    {| HomePage.id := 2; HomePage.name := "Bob";
       HomePage.email := "bob@example.org"; HomePage.status := "stuck" |} ].

(** The counts of a server that knows more students than the page. *)
Definition server : StudentStatus :=
  {| all := 12; new := 3; in_progress := 2; stuck := 5; completed := 2 |}.

End DemoHome.

(** * Properties *)

(** ** The JavaScript primitives on examples *)

Example parseInt_plain : JS.parseInt "1700000000000" = Some 1700000000000.
Proof. reflexivity. Qed.

Example parseInt_prefix : JS.parseInt "  -42px" = Some (-42).
Proof. reflexivity. Qed.

Example parseInt_hex : JS.parseInt "0x1F" = Some 31.
Proof. reflexivity. Qed.

Example parseInt_nan : JS.parseInt "NaN" = None.
Proof. reflexivity. Qed.

Example String_of_number_neg : JS.String_of_number (-305) = "-305".
Proof. reflexivity. Qed.

Example encode_space : JS.encodeURIComponent "a b&c" = "a%20b%26c".
Proof. reflexivity. Qed.

Example trim_both : JS.trim "  ab c " = "ab c".
Proof. reflexivity. Qed.

Example includes_not_found :
  JS.includes "The requested resource was not found." "not found" = true.
Proof. reflexivity. Qed.

Example join_two : JS.join "&" ["a=1"; "b=2"] = "a=1&b=2".
Proof. reflexivity. Qed.

(** ** [parseInt] reads back what [String] prints *)

Lemma parse_digits_step (c : ascii) (r : string) (acc : option Z) (k : Z) :
  JS.digit_value c = Some k -> (k <? 10) = true ->
  JS.parse_digits 10 (String c r) acc
  = JS.parse_digits 10 r (Some (default 0 acc * 10 + k)).
Proof. intros Hc Hk. cbn [JS.parse_digits]. rewrite Hc, Hk. reflexivity. Qed.

Ltac digit_case IH k :=
  cbn [NilEmpty.string_of_uint Pos.of_uint_acc Pos.of_uint];
  rewrite (parse_digits_step _ _ _ k) by reflexivity;
  cbn [default from_option id];
  try (rewrite <- IH; f_equal; f_equal; lia).

Lemma parse_digits_acc (d : Decimal.uint) (p : positive) :
  JS.parse_digits 10 (NilEmpty.string_of_uint d) (Some (Z.pos p))
  = Some (Z.pos (Pos.of_uint_acc d p)).
Proof.
  revert p.
  induction d as [|d IH|d IH|d IH|d IH|d IH|d IH|d IH|d IH|d IH|d IH];
    intros p; [reflexivity|..].
  - digit_case IH 0.
  - digit_case IH 1.
  - digit_case IH 2.
  - digit_case IH 3.
  - digit_case IH 4.
  - digit_case IH 5.
  - digit_case IH 6.
  - digit_case IH 7.
  - digit_case IH 8.
  - digit_case IH 9.
Qed.

Lemma parse_digits_zero (d : Decimal.uint) :
  JS.parse_digits 10 (NilEmpty.string_of_uint d) (Some 0)
  = Some (Z.of_N (Pos.of_uint d)).
Proof.
  induction d as [|d IH|d IH|d IH|d IH|d IH|d IH|d IH|d IH|d IH|d IH];
    [reflexivity|..];
    cbn [NilEmpty.string_of_uint Pos.of_uint].
  - rewrite (parse_digits_step _ _ _ 0) by reflexivity. exact IH.
  - rewrite (parse_digits_step _ _ _ 1) by reflexivity. apply parse_digits_acc.
  - rewrite (parse_digits_step _ _ _ 2) by reflexivity. apply parse_digits_acc.
  - rewrite (parse_digits_step _ _ _ 3) by reflexivity. apply parse_digits_acc.
  - rewrite (parse_digits_step _ _ _ 4) by reflexivity. apply parse_digits_acc.
  - rewrite (parse_digits_step _ _ _ 5) by reflexivity. apply parse_digits_acc.
  - rewrite (parse_digits_step _ _ _ 6) by reflexivity. apply parse_digits_acc.
  - rewrite (parse_digits_step _ _ _ 7) by reflexivity. apply parse_digits_acc.
  - rewrite (parse_digits_step _ _ _ 8) by reflexivity. apply parse_digits_acc.
  - rewrite (parse_digits_step _ _ _ 9) by reflexivity. apply parse_digits_acc.
Qed.

(** A printed numeral that is not empty is read from its first digit on. *)
Lemma parse_digits_none (d : Decimal.uint) :
  d <> Decimal.Nil ->
  JS.parse_digits 10 (NilEmpty.string_of_uint d) None
  = JS.parse_digits 10 (NilEmpty.string_of_uint d) (Some 0).
Proof.
  destruct d; intros Hd; [congruence|..]; reflexivity.
Qed.

Lemma fmap_mul_1 (x : option Z) : Z.mul 1 <$> x = x.
Proof. destruct x as [z|]; [|reflexivity]. cbn. f_equal. lia. Qed.

Lemma parseInt_unsigned (d : Decimal.uint) :
  d <> Decimal.Nil ->
  JS.parseInt (NilEmpty.string_of_uint d)
  = JS.parse_digits 10 (NilEmpty.string_of_uint d) None.
Proof.
  intros Hd.
  destruct d as [|d|d|d|d|d|d|d|d|d|d]; [congruence|..];
    try (cbn; apply fmap_mul_1).
  destruct d; cbn; apply fmap_mul_1.
Qed.

Lemma parseInt_negative (d : Decimal.uint) :
  d <> Decimal.Nil ->
  JS.parseInt (String "-" (NilEmpty.string_of_uint d))
  = Z.mul (-1) <$> JS.parse_digits 10 (NilEmpty.string_of_uint d) None.
Proof.
  intros Hd.
  destruct d as [|d|d|d|d|d|d|d|d|d|d]; [congruence|..];
    try reflexivity.
  destruct d; reflexivity.
Qed.

Lemma string_of_uint_nonnil (d : Decimal.uint) :
  d <> Decimal.Nil -> NilZero.string_of_uint d = NilEmpty.string_of_uint d.
Proof. destruct d; [congruence | reflexivity..]. Qed.

Lemma parseInt_String_of_number (n : Z) :
  JS.parseInt (JS.String_of_number n) = Some n.
Proof.
  unfold JS.String_of_number.
  destruct n as [|p|p]; [reflexivity|..]; cbn [Z.to_int NilZero.string_of_int];
    pose proof (Unsigned.to_uint_nonnil p) as Hn;
    rewrite string_of_uint_nonnil by exact Hn.
  - rewrite parseInt_unsigned, parse_digits_none, parse_digits_zero by exact Hn.
    rewrite DecimalPos.Unsigned.of_to. reflexivity.
  - rewrite parseInt_negative, parse_digits_none, parse_digits_zero by exact Hn.
    rewrite DecimalPos.Unsigned.of_to. reflexivity.
Qed.

(** ** The session store *)

Lemma truthy_string_true (s : string) : JS.truthy_string s = true <-> s <> "".
Proof. destruct s; cbn; split; congruence. Qed.

Lemma truthy_true (v : option string) :
  JS.truthy v = true <-> exists s, v = Some s /\ s <> "".
Proof.
  destruct v as [s|]; cbn.
  - rewrite truthy_string_true. split.
    + intros H. exists s. split; [reflexivity | exact H].
    + intros (s' & [= <-] & H). exact H.
  - split; [discriminate | intros (s & H & _); discriminate].
Qed.

Lemma parseInt_empty : JS.parseInt "" = None.
Proof. reflexivity. Qed.

Lemma isAuthenticated_iff (now : Z) (ls : gmap string string) :
  isAuthenticated now ls = true <->
  exists token expiresAt expiry,
    getAuthToken ls = Some token /\ token <> "" /\
    getItem "expires_at" ls = Some expiresAt /\
    JS.parseInt expiresAt = Some expiry /\
    now < expiry.
Proof.
  unfold isAuthenticated. split.
  - intros H.
    destruct (JS.truthy (getAuthToken ls)) eqn:Ht; [|discriminate H].
    destruct (JS.truthy (getItem "expires_at" ls)) eqn:He; [|discriminate H].
    cbn [negb orb] in H.
    apply truthy_true in Ht as (token & Ht & Hne).
    apply truthy_true in He as (e & He & _).
    rewrite He in H. cbn [default from_option id] in H.
    destruct (JS.parseInt e) as [expiry|] eqn:Hp; [|discriminate H].
    cbn [JS.lt_number] in H. apply Z.ltb_lt in H.
    exists token, e, expiry. auto.
  - intros (token & e & expiry & Ht & Hne & He & Hp & Hlt).
    rewrite Ht, He. cbn [JS.truthy default from_option id].
    assert (JS.truthy_string token = true) as -> by (apply truthy_string_true; exact Hne).
    assert (JS.truthy_string e = true) as ->.
    { destruct e; [rewrite parseInt_empty in Hp; discriminate | reflexivity]. }
    cbn [negb orb]. rewrite Hp. cbn [JS.lt_number]. apply Z.ltb_lt. exact Hlt.
Qed.

(** C1, as the code has it: the session is valid exactly when the access
    token is stored and not empty, the expiry is stored and [parseInt] reads
    a number from it, and the current time is before that number; the
    refresh token is not looked at. In particular a session whose expiry is
    not after the current time is never valid. *)
Theorem session_validity (now : Z) (ls : gmap string string) :
  (isAuthenticated now ls = true <->
   exists token expiresAt expiry,
     getAuthToken ls = Some token /\ token <> "" /\
     getItem "expires_at" ls = Some expiresAt /\
     JS.parseInt expiresAt = Some expiry /\
     now < expiry) /\
  (forall expiresAt expiry,
     getItem "expires_at" ls = Some expiresAt ->
     JS.parseInt expiresAt = Some expiry ->
     expiry <= now ->
     isAuthenticated now ls = false).
Proof.
  split; [apply isAuthenticated_iff|].
  intros e expiry He Hp Hle.
  destruct (isAuthenticated now ls) eqn:H; [|reflexivity].
  apply isAuthenticated_iff in H as (t & e' & x & _ & _ & He' & Hp' & Hlt).
  rewrite He in He'. injection He' as <-.
  rewrite Hp in Hp'. injection Hp' as <-. lia.
Qed.

(** C1 as stated fails: a session with no refresh token, an access token
    and an expiry in the future is valid. *)
Lemma isAuthenticated_ignores_refresh_token :
  let ls : gmap string string :=
    setItem "expires_at" "1000" (setItem "access_token" "abc" ∅) in
  getRefreshToken ls = None /\
  isAuthenticated 0 ls = true.
Proof. split; vm_compute; reflexivity. Qed.

(** Below [10^21] a number is printed with its digits, and read back. *)
Lemma Number_toString_digits (n : Z) :
  Z.abs n < 1000000000000000000000 ->
  JS.Number_toString n = JS.String_of_number n.
Proof.
  intros H. unfold JS.Number_toString.
  apply Z.ltb_lt in H. rewrite H. reflexivity.
Qed.

Lemma parseInt_Number_toString (n : Z) :
  JS.safe_integer n -> JS.parseInt (JS.Number_toString n) = Some n.
Proof.
  unfold JS.safe_integer, JS.MAX_SAFE_INTEGER. intros H.
  rewrite Number_toString_digits by lia. apply parseInt_String_of_number.
Qed.

(** The session that [refreshAuthToken] writes, read back. *)
Lemma refresh_round_trip (now : Z) (data : TokenPayload)
    (ls : gmap string string) :
  getAuthToken (refreshed now data ls) = Some (access_token data) /\
  getRefreshToken (refreshed now data ls) = Some (refresh_token data) /\
  getItem "expires_at" (refreshed now data ls)
  = Some (JS.Number_toString (now + expires_in data * 1000)).
Proof.
  unfold getAuthToken, getRefreshToken, getItem, refreshed, setItem.
  repeat apply conj.
  - rewrite !lookup_insert_ne by discriminate. apply lookup_insert_eq.
  - rewrite lookup_insert_ne by discriminate. apply lookup_insert_eq.
  - apply lookup_insert_eq.
Qed.




(** ** The gateway *)

Lemma clearAuthData_lookup (ls : gmap string string) :
  getItem "access_token" (clearAuthData ls) = None /\
  getItem "refresh_token" (clearAuthData ls) = None /\
  getItem "coach" (clearAuthData ls) = None /\
  getItem "expires_at" (clearAuthData ls) = None.
Proof.
  unfold clearAuthData, removeItem, getItem.
  repeat split;
    repeat (first [ apply lookup_delete_eq
                  | rewrite lookup_delete_ne by discriminate ]).
Qed.

Section GatewayFacts.

Context {T : Type} (env : Env T).

Lemma authenticatedFetch_unauthenticated url options w :
  isAuthenticated (Date_now env w) (storage w) = false ->
  authenticatedFetch env url options w
  = (Err "Authentication required", redirectToLogin w).
Proof.
  intros H. unfold authenticatedFetch, bind, gets, modify, throw.
  rewrite H. reflexivity.
Qed.

Lemma authenticatedFetch_first url options w :
  isAuthenticated (Date_now env w) (storage w) = true ->
  authenticatedFetch env url options w
  = let w1 := log_call (original url options w) w in
    match net env (length (netlog w)) (original url options w) with
    | Rejected msg => (Err msg, w1)
    | Resolved response =>
        if status response =? 401 then
          match refreshAuthToken env w1 with
          | (Ok newToken, w2) =>
              if JS.truthy newToken then
                fetch (net env) url (with_auth_headers options (storage w2)) w2
              else (Err "Authentication failed", w2)
          | (Err e, w2) => (Err e, w2)
          end
        else (Ok response, w1)
    end.
Proof.
  intros H. unfold authenticatedFetch at 1. unfold bind at 1. unfold gets at 1.
  rewrite H. cbn [negb]. unfold bind at 1. unfold gets at 1.
  unfold bind at 1. unfold fetch at 1.
  fold (original url options w).
  destruct (net env _ _) as [response|msg]; [|reflexivity].
  destruct (status response =? 401); [|reflexivity].
  unfold bind at 1.
  destruct (refreshAuthToken env _) as [[newToken|e] w2]; [|reflexivity].
  destruct (JS.truthy newToken); [|reflexivity].
  unfold bind, gets. reflexivity.
Qed.

Lemma makeAuthenticatedAPICall_unfold url options w :
  makeAuthenticatedAPICall env url options w
  = match authenticatedFetch env url options w with
    | (Ok response, w') =>
        if ok response then (json response, w')
        else if status response =? 401 then
          (Err "Authentication failed", redirectToLogin w')
        else (Err (handleAuthError (status response) (text response)), w')
    | (Err e, w') => (Err e, w')
    end.
Proof.
  unfold makeAuthenticatedAPICall, try_catch, bind.
  destruct (authenticatedFetch env url options w) as [[response|e] w'];
    [|reflexivity].
  destruct (ok response); cbn [negb].
  - unfold of_result. destruct (json response); reflexivity.
  - destruct (status response =? 401); reflexivity.
Qed.

Lemma refresh_no_token w :
  JS.truthy (getRefreshToken (storage w)) = false ->
  refreshAuthToken env w = (Ok None, redirectToLogin w).
Proof.
  intros H. unfold refreshAuthToken, bind, gets. rewrite H. reflexivity.
Qed.

Lemma refresh_unfold w rt :
  getRefreshToken (storage w) = Some rt -> rt <> "" ->
  refreshAuthToken env w
  = let w1 := log_call (refresh_request rt) w in
    match auth_net env (length (netlog w)) (refresh_request rt) with
    | Rejected _ => (Ok None, redirectToLogin w1)
    | Resolved response =>
        if ok response then
          match json response with
          | Ok data =>
              (Ok (Some (access_token data)),
               with_storage (refreshed (Date_now env w1) data) w1)
          | Err _ => (Ok None, redirectToLogin w1)
          end
        else (Ok None, redirectToLogin w1)
    end.
Proof.
  intros Hrt Hne. unfold refreshAuthToken, bind at 1, gets at 1.
  rewrite Hrt. cbn [JS.truthy].
  assert (JS.truthy_string rt = true) as -> by (apply truthy_string_true; exact Hne).
  cbn [negb default from_option id].
  unfold try_catch, bind at 1, fetch.
  fold (refresh_request rt). fold (log_call (refresh_request rt) w).
  destruct (auth_net env _ _) as [response|msg]; [|reflexivity].
  destruct (ok response); cbn [negb]; [|reflexivity].
  unfold bind at 1, of_result.
  destruct (json response) as [data|e]; [|reflexivity].
  reflexivity.
Qed.

Lemma calls_to_cons url req log :
  calls_to url (req :: log)
  = ((if String.eqb (req_url req) url then 1 else 0) + calls_to url log)%nat.
Proof.
  unfold calls_to. rewrite filter_cons.
  destruct (decide (req_url req = url)) as [E|E].
  - apply String.eqb_eq in E as ->. reflexivity.
  - apply String.eqb_neq in E as ->. reflexivity.
Qed.

(** C3: when the first answer is a 401 and the refresh succeeds, the
    gateway makes three network calls, the original one, one refresh and
    one retry of the original URL whose [Authorization] header carries the
    new access token (unless the caller supplied that header), and the
    outcome is the outcome of the retry: its body when it is 2xx, its error
    otherwise, with no second refresh even when the retry is a 401. *)
Theorem refresh_success_retries_once (url : string) (options : RequestInit)
    (w : World) (r1 : Response T) (rt : string) (rr : Response TokenPayload)
    (data : TokenPayload) :
  let n := length (netlog w) in
  let first := original url options w in
  let ls' := refreshed (clock env (S (S n))) data (storage w) in
  let retry := {| req_url := url; req_init := with_auth_headers options ls' |} in
  isAuthenticated (clock env n) (storage w) = true ->
  net env n first = Resolved r1 ->
  status r1 = 401 ->
  getRefreshToken (storage w) = Some rt -> rt <> "" ->
  auth_net env (S n) (refresh_request rt) = Resolved rr ->
  ok rr = true -> json rr = Ok data -> access_token data <> "" ->
  exists result w',
    makeAuthenticatedAPICall env url options w = (result, w') /\
    netlog w' = netlog w ++ [first; refresh_request rt; retry] /\
    (url <> refresh_url ->
       calls_to url (drop n (netlog w')) = 2%nat /\
       calls_to refresh_url (drop n (netlog w')) = 1%nat) /\
    (headers options !! "Authorization" = None ->
       headers (req_init retry) !! "Authorization"
       = Some ("Bearer " +:+ access_token data)) /\
    match net env (S (S n)) retry with
    | Rejected msg => result = Err msg /\ storage w' = ls'
    | Resolved r2 =>
        if ok r2 then result = json r2 /\ storage w' = ls'
        else if status r2 =? 401 then
          result = Err "Authentication failed" /\
          storage w' = clearAuthData ls'
        else
          result = Err (handleAuthError (status r2) (text r2)) /\
          storage w' = ls'
    end.
Proof.
  intros n first ls' retry Hauth H1 H401 Hrt Hne Hr Hok Hjson Htok.
  rewrite makeAuthenticatedAPICall_unfold.
  rewrite authenticatedFetch_first by exact Hauth.
  cbn zeta. fold n first. rewrite H1, H401. cbn [Z.eqb Pos.eqb].
  fold (log_call first w).
  rewrite (refresh_unfold _ rt) by assumption.
  cbn zeta. unfold fetch, Date_now, with_storage, log_call.
  cbn [netlog storage reloads].
  rewrite !length_app. cbn [length]. fold n.
  replace (n + 1)%nat with (S n) by lia.
  replace (S n + 1)%nat with (S (S n)) by lia.
  rewrite Hr, Hok, Hjson.
  cbn [JS.truthy].
  assert (JS.truthy_string (access_token data) = true) as ->
    by (apply truthy_string_true; exact Htok).
  cbn [netlog storage reloads].
  rewrite !length_app. cbn [length]. fold n.
  replace (n + 1 + 1)%nat with (S (S n)) by lia.
  fold n. fold ls'. fold retry.
  assert (Hlog : forall (l : list Request) (a b c : Request),
             ((l ++ [a]) ++ [b]) ++ [c] = l ++ [a; b; c])
    by (intros; rewrite <- !app_assoc; reflexivity).
  assert (Hcalls : url <> refresh_url ->
            calls_to url (drop n (netlog w ++ [first; refresh_request rt; retry])) = 2%nat /\
            calls_to refresh_url (drop n (netlog w ++ [first; refresh_request rt; retry])) = 1%nat).
  { intros Hurl. unfold n. rewrite drop_app_length.
    rewrite !calls_to_cons. cbn [req_url first original refresh_request retry].
    rewrite String.eqb_refl.
    assert (String.eqb refresh_url url = false) as -> by (apply String.eqb_neq; congruence).
    assert (String.eqb url refresh_url = false) as -> by (apply String.eqb_neq; congruence).
    rewrite String.eqb_refl. split; reflexivity. }
  assert (Hhdr : headers options !! "Authorization" = None ->
            headers (req_init retry) !! "Authorization"
            = Some ("Bearer " +:+ access_token data)).
  { intros Hnone. cbn [retry req_init with_auth_headers headers].
    rewrite lookup_union_r by exact Hnone.
    unfold getAuthHeaders, getAuthToken, getItem, ls', refreshed, setItem.
    rewrite !lookup_insert_ne by discriminate. rewrite lookup_insert_eq.
    assert (JS.truthy_string (access_token data) = true) as ->
      by (apply truthy_string_true; exact Htok).
    apply lookup_insert_eq. }
  destruct (net env (S (S n)) retry) as [r2|msg].
  - destruct (ok r2).
    + eexists _, _. split; [reflexivity|]. cbn [netlog storage].
      rewrite Hlog. auto.
    + destruct (status r2 =? 401).
      * eexists _, _. split; [reflexivity|]. cbn [netlog storage redirectToLogin].
        rewrite Hlog. auto.
      * eexists _, _. split; [reflexivity|]. cbn [netlog storage].
        rewrite Hlog. auto.
  - eexists _, _. split; [reflexivity|]. cbn [netlog storage].
    rewrite Hlog. auto.
Qed.

(** C4: when the first answer is a 401 and the refresh fails (no refresh
    token, a refresh answer that is not 2xx, or a network error of the
    refresh call), the gateway calls the resource URL exactly once, removes
    the four session keys from the store, reloads the page and fails with
    the message [Authentication failed]. *)
Theorem refresh_failure_clears_session (url : string) (options : RequestInit)
    (w : World) (r1 : Response T) :
  let n := length (netlog w) in
  let first := original url options w in
  isAuthenticated (clock env n) (storage w) = true ->
  net env n first = Resolved r1 ->
  status r1 = 401 ->
  (JS.truthy (getRefreshToken (storage w)) = false \/
   exists rt, getRefreshToken (storage w) = Some rt /\ rt <> "" /\
     ((exists rr, auth_net env (S n) (refresh_request rt) = Resolved rr /\
                  ok rr = false) \/
      (exists msg, auth_net env (S n) (refresh_request rt) = Rejected msg))) ->
  exists w',
    makeAuthenticatedAPICall env url options w
    = (Err "Authentication failed", w') /\
    (exists refresh_calls,
       netlog w' = netlog w ++ first :: refresh_calls /\
       (length refresh_calls <= 1)%nat /\
       Forall (fun r => req_url r = refresh_url) refresh_calls) /\
    (url <> refresh_url -> calls_to url (drop n (netlog w')) = 1%nat) /\
    storage w' = clearAuthData (storage w) /\
    getItem "access_token" (storage w') = None /\
    getItem "refresh_token" (storage w') = None /\
    getItem "coach" (storage w') = None /\
    getItem "expires_at" (storage w') = None /\
    reloads w' = S (reloads w).
Proof.
  intros n first Hauth H1 H401 Hfail.
  rewrite makeAuthenticatedAPICall_unfold.
  rewrite authenticatedFetch_first by exact Hauth.
  cbn zeta. fold n first. rewrite H1, H401. cbn [Z.eqb Pos.eqb].
  fold (log_call first w).
  assert (Hone : url <> refresh_url ->
            calls_to url (drop n (netlog w ++ [first])) = 1%nat).
  { intros _. unfold n. rewrite drop_app_length, calls_to_cons.
    cbn [req_url first original]. rewrite String.eqb_refl. reflexivity. }
  assert (Htwo : forall rt, url <> refresh_url ->
            calls_to url (drop n (netlog w ++ [first; refresh_request rt])) = 1%nat).
  { intros rt Hurl. unfold n. rewrite drop_app_length, !calls_to_cons.
    cbn [req_url first original refresh_request]. rewrite String.eqb_refl.
    assert (String.eqb refresh_url url = false) as ->
      by (apply String.eqb_neq; congruence).
    reflexivity. }
  pose proof (clearAuthData_lookup (storage w)) as (Ha & Hb & Hc & Hd).
  destruct Hfail as [Hnone | (rt & Hrt & Hne & Hbad)].
  - rewrite refresh_no_token by exact Hnone. cbn [JS.truthy].
    eexists. split; [reflexivity|].
    cbn [redirectToLogin log_call netlog storage reloads].
    split; [exists []; split; [reflexivity | split; [cbn; lia | constructor]] |].
    auto 10.
  - rewrite (refresh_unfold _ rt) by assumption.
    cbn zeta. cbn [log_call netlog]. rewrite length_app. cbn [length].
    fold n. replace (n + 1)%nat with (S n) by lia.
    assert (Hshape : exists refresh_calls,
              (netlog w ++ [first]) ++ [refresh_request rt]
              = netlog w ++ first :: refresh_calls /\
              (length refresh_calls <= 1)%nat /\
              Forall (fun r => req_url r = refresh_url) refresh_calls).
    { exists [refresh_request rt]. rewrite <- app_assoc.
      split; [reflexivity | split; [cbn; lia | repeat constructor]]. }
    assert ((netlog w ++ [first]) ++ [refresh_request rt]
            = netlog w ++ [first; refresh_request rt]) as Hlog
      by (rewrite <- app_assoc; reflexivity).
    destruct Hbad as [(rr & Hr & Hok) | (msg & Hr)]; rewrite Hr; [rewrite Hok|];
      cbn [JS.truthy]; (eexists; split; [reflexivity|]);
      cbn [redirectToLogin log_call netlog storage reloads];
      (split; [exact Hshape|]); rewrite Hlog; auto 10.
Qed.

End GatewayFacts.

Lemma refresh_success_witness :
  isAuthenticated (clock Demo.env_expired 0) (storage Demo.world) = true /\
  exists w',
    makeAuthenticatedAPICall Demo.env_expired
      "http://localhost:3100/api/courses" no_options Demo.world
    = (Ok 7, w') /\
    length (netlog w') = 3%nat /\
    getAuthToken (storage w') = Some "token-2".
Proof.
  assert (Hauth : isAuthenticated (clock Demo.env_expired 0)
                    (storage Demo.world) = true)
    by (vm_compute; reflexivity).
  split; [exact Hauth|].
  destruct (refresh_success_retries_once Demo.env_expired
              "http://localhost:3100/api/courses" no_options Demo.world
              {| status := 401; text := "token expired"; json := Err "no body" |}
              "refresh-1"
              {| status := 200; text := ""; json := Ok Demo.tokens |}
              Demo.tokens
              Hauth eq_refl eq_refl)
    as (result & w' & Hcall & Hlog & _ & _ & Hres).
  - vm_compute; reflexivity.
  - discriminate.
  - reflexivity.
  - reflexivity.
  - reflexivity.
  - discriminate.
  - cbn in Hres. destruct Hres as (-> & Hst).
    exists w'. split; [exact Hcall|]. split.
    + rewrite Hlog. reflexivity.
    + rewrite Hst. vm_compute. reflexivity.
Defined.

Lemma refresh_failure_witness :
  isAuthenticated (clock Demo.env_revoked 0) (storage Demo.world) = true /\
  exists w',
    makeAuthenticatedAPICall Demo.env_revoked
      "http://localhost:3100/api/courses" no_options Demo.world
    = (Err "Authentication failed", w') /\
    calls_to "http://localhost:3100/api/courses" (netlog w') = 1%nat /\
    getItem "access_token" (storage w') = None /\
    getItem "refresh_token" (storage w') = None /\
    getItem "coach" (storage w') = None /\
    getItem "expires_at" (storage w') = None.
Proof.
  assert (Hauth : isAuthenticated (clock Demo.env_revoked 0)
                    (storage Demo.world) = true)
    by (vm_compute; reflexivity).
  split; [exact Hauth|].
  destruct (refresh_failure_clears_session Demo.env_revoked
              "http://localhost:3100/api/courses" no_options Demo.world
              {| status := 401; text := "token revoked"; json := Err "no body" |}
              Hauth eq_refl eq_refl)
    as (w' & Hcall & _ & Hone & _ & Ha & Hb & Hc & Hd & _).
  - right. exists "refresh-1". split; [vm_compute; reflexivity|].
    split; [discriminate|]. left.
    exists {| status := 403; text := ""; json := Err "no body" |}.
    split; reflexivity.
  - exists w'. split; [exact Hcall|]. split; [|auto].
    apply Hone. discriminate.
Defined.

(** ** Error messages of the gateway: C6 *)




(** ** The conversations hook: C5 *)

Lemma settle_not_found (st : FetchState (list Conversation)) :
  Conversations.fetchConversations_settle
    (Err "The requested resource was not found.") st
  = {| data := Some mockConversations; loading := false; error := None |}.
Proof. reflexivity. Qed.

(** C5: with a valid session, when the answer that the gateway gets for
    the conversations endpoint is a 404, the hook ends with the built-in
    conversations as data, no error and [loading] false. *)
Theorem conversations_404_fallback (env : Env (list Conversation))
    (st : FetchState (list Conversation)) (w w1 : World)
    (r : Response (list Conversation)) :
  isAuthenticated (Date_now env w) (storage w) = true ->
  authenticatedFetch env (API_BASE_URL +:+ "/api/conversations") no_options w
  = (Ok r, w1) ->
  status r = 404 ->
  fst (Conversations.useConversations env st w)
  = {| data := Some mockConversations; loading := false; error := None |}.
Proof.
  intros Hauth Hf H404.
  unfold Conversations.useConversations. rewrite Hauth.
  unfold Conversations.fetchConversations.
  rewrite makeAuthenticatedAPICall_unfold, Hf.
  unfold ok. rewrite H404.
  change (handleAuthError 404 (text r))
    with "The requested resource was not found.".
  cbn [Z.leb Z.eqb Z.compare Pos.compare Pos.compare_cont Pos.eqb andb fst].
  apply settle_not_found.
Qed.

Lemma conversations_404_witness :
  fst (Conversations.useConversations Demo.env_no_conversations
         initial_state Demo.world)
  = {| data := Some mockConversations; loading := false; error := None |}.
Proof.
  apply (conversations_404_fallback Demo.env_no_conversations initial_state
           Demo.world
           (log_call (original "http://localhost:3100/api/conversations"
                        no_options Demo.world) Demo.world)
           {| status := 404; text := "Not Found"; json := Err "no body" |}).
  - vm_compute; reflexivity.
  - rewrite authenticatedFetch_first by (vm_compute; reflexivity). reflexivity.
  - reflexivity.
Defined.

(** ** Failures leave the data alone: C7 *)

Ltac failure_run Hauth Hcall :=
  rewrite Hauth;
  match goal with
  | |- context [makeAuthenticatedAPICall ?e ?u ?o ?x] =>
      destruct (makeAuthenticatedAPICall e u o x) as [? ?]
  end;
  cbn [fst] in Hcall; rewrite Hcall.

Lemma metrics_failure :
  stale_without_session Metrics.useDashboardMetrics /\
  stale_on_failure (API_BASE_URL +:+ "/api/dashboard/metrics")
    Metrics.useDashboardMetrics.
Proof.
  split.
  - intros env st w H. unfold Metrics.useDashboardMetrics. rewrite H.
    reflexivity.
  - unfold stale_on_failure, Metrics.useDashboardMetrics,
      Metrics.fetchMetrics.
    intros env st w msg Hauth Hcall. failure_run Hauth Hcall. reflexivity.
Qed.

Lemma status_failure :
  stale_without_session Status.useStudentStatus /\
  stale_on_failure (API_BASE_URL +:+ "/api/dashboard/student-status")
    Status.useStudentStatus.
Proof.
  split.
  - intros env st w H. unfold Status.useStudentStatus. rewrite H.
    reflexivity.
  - unfold stale_on_failure, Status.useStudentStatus,
      Status.fetchStudentStatus.
    intros env st w msg Hauth Hcall. failure_run Hauth Hcall. reflexivity.
Qed.

Lemma courses_failure :
  stale_without_session Courses.useCourses /\
  stale_on_failure (API_BASE_URL +:+ "/api/courses") Courses.useCourses.
Proof.
  split.
  - intros env st w H. unfold Courses.useCourses. rewrite H. reflexivity.
  - unfold stale_on_failure, Courses.useCourses, Courses.fetchCourses.
    intros env st w msg Hauth Hcall. failure_run Hauth Hcall. reflexivity.
Qed.

Lemma students_failure toLocaleString filters :
  stale_without_session
    (fun env => Students.useStudents toLocaleString env filters) /\
  stale_on_failure (Students.students_url filters)
    (fun env => Students.useStudents toLocaleString env filters).
Proof.
  split.
  - intros env st w H. unfold Students.useStudents. rewrite H. reflexivity.
  - unfold stale_on_failure, Students.useStudents, Students.fetchStudents.
    intros env st w msg Hauth Hcall. failure_run Hauth Hcall. reflexivity.
Qed.

Lemma detail_failure (studentId : Z) :
  studentId <> 0 ->
  stale_without_session
    (fun env => StudentDetail.useStudentDetail env (Some studentId)) /\
  stale_on_failure
    (API_BASE_URL +:+ "/api/students/" +:+ JS.String_of_number studentId)
    (fun env => StudentDetail.useStudentDetail env (Some studentId)).
Proof.
  intros Hid.
  assert (JS.truthy_number studentId = true) as Ht
    by (unfold JS.truthy_number; apply Z.eqb_neq in Hid; rewrite Hid;
        reflexivity).
  split.
  - intros env st w H. unfold StudentDetail.useStudentDetail.
    rewrite Ht, H. reflexivity.
  - unfold stale_on_failure, StudentDetail.useStudentDetail,
      StudentDetail.fetchStudentDetail.
    intros env st w msg Hauth Hcall. rewrite Ht.
    failure_run Hauth Hcall. reflexivity.
Qed.

Lemma leaderboard_failure filters :
  stale_without_session
    (fun env => Leaderboard.useLeaderboard env filters) /\
  stale_on_failure (Leaderboard.leaderboard_url filters)
    (fun env => Leaderboard.useLeaderboard env filters).
Proof.
  split.
  - intros env st w H. unfold Leaderboard.useLeaderboard. rewrite H.
    reflexivity.
  - unfold stale_on_failure, Leaderboard.useLeaderboard,
      Leaderboard.fetchLeaderboard.
    intros env st w msg Hauth Hcall. failure_run Hauth Hcall. reflexivity.
Qed.

Lemma supercoaches_failure :
  stale_on_other_failure (API_BASE_URL +:+ "/api/supercoaches")
    SuperCoaches.useSuperCoaches.
Proof.
  unfold stale_on_other_failure, SuperCoaches.useSuperCoaches,
    SuperCoaches.fetchSuperCoaches.
  intros env st w msg Hauth Hcall H1 H2. failure_run Hauth Hcall.
  unfold SuperCoaches.fetchSuperCoaches_settle. rewrite H1, H2.
  reflexivity.
Qed.

Lemma conversations_failure :
  stale_on_other_failure (API_BASE_URL +:+ "/api/conversations")
    Conversations.useConversations.
Proof.
  unfold stale_on_other_failure, Conversations.useConversations,
    Conversations.fetchConversations.
  intros env st w msg Hauth Hcall H1 H2. failure_run Hauth Hcall.
  unfold Conversations.fetchConversations_settle. rewrite H1, H2.
  reflexivity.
Qed.

(** C7: in every resource fetch hook, a run that ends in a failure that
    is not answered by a fallback (no valid session, for the six hooks
    that report it; a gateway call that fails with a message, for all
    eight, the message not being one that triggers the fallback of the
    super-coaches and conversations hooks) leaves the hook with that
    message as error, [loading] false and the data it had before. *)
Theorem failure_keeps_data :
  (stale_without_session Metrics.useDashboardMetrics /\
   stale_on_failure (API_BASE_URL +:+ "/api/dashboard/metrics")
     Metrics.useDashboardMetrics) /\
  (stale_without_session Status.useStudentStatus /\
   stale_on_failure (API_BASE_URL +:+ "/api/dashboard/student-status")
     Status.useStudentStatus) /\
  (stale_without_session Courses.useCourses /\
   stale_on_failure (API_BASE_URL +:+ "/api/courses") Courses.useCourses) /\
  (forall toLocaleString filters,
     stale_without_session
       (fun env => Students.useStudents toLocaleString env filters) /\
     stale_on_failure (Students.students_url filters)
       (fun env => Students.useStudents toLocaleString env filters)) /\
  (forall studentId,
     studentId <> 0 ->
     stale_without_session
       (fun env => StudentDetail.useStudentDetail env (Some studentId)) /\
     stale_on_failure
       (API_BASE_URL +:+ "/api/students/"
          +:+ JS.String_of_number studentId)
       (fun env => StudentDetail.useStudentDetail env (Some studentId))) /\
  (forall filters,
     stale_without_session
       (fun env => Leaderboard.useLeaderboard env filters) /\
     stale_on_failure (Leaderboard.leaderboard_url filters)
       (fun env => Leaderboard.useLeaderboard env filters)) /\
  stale_on_other_failure (API_BASE_URL +:+ "/api/supercoaches")
    SuperCoaches.useSuperCoaches /\
  stale_on_other_failure (API_BASE_URL +:+ "/api/conversations")
    Conversations.useConversations.
Proof.
  split; [exact metrics_failure|].
  split; [exact status_failure|].
  split; [exact courses_failure|].
  split; [exact students_failure|].
  split; [exact detail_failure|].
  split; [exact leaderboard_failure|].
  split; [exact supercoaches_failure | exact conversations_failure].
Qed.

Lemma failure_keeps_data_witness :
  let st : FetchState (list JObject) :=
    {| data := Some [Demo.alice]; loading := false; error := None |} in
  fst (Courses.useCourses Demo.env_courses_down st Demo.world)
  = {| data := Some [Demo.alice]; loading := false;
       error := Some "Server error. Please try again later." |}.
Proof.
  cbn zeta.
  destruct failure_keeps_data as (_ & _ & (_ & Hcourses) & _).
  apply (Hcourses Demo.env_courses_down
           {| data := Some [Demo.alice]; loading := false; error := None |}
           Demo.world "Server error. Please try again later.");
    vm_compute; reflexivity.
Defined.

(** ** Overlapping fetches of the students hook: C2 *)

Section StudentsHook.

Import Students.





(** ** The URL of the students hook: C8 *)

(** The scenario of the specification: the filter set [{status: "stuck"}]
    against a server that answers with two records. *)
Example two_stuck_students :
  let '(st, w) := useStudents Demo.locale Demo.env_two_stuck
                    (Some Demo.only_stuck) initial_state Demo.world in
  (length <$> data st) = Some 2%nat /\
  loading st = false /\
  error st = None /\
  (req_url <$> netlog w)
  = ["http://localhost:3100/api/students?status=stuck"] /\
  (headers ∘ req_init <$> netlog w)
  = [ {[ "Content-Type" := "application/json";
         "Authorization" := "Bearer token-1" ]} ].
Proof. vm_compute. repeat split. Qed.

Example transformStudent_fields :
  transformStudent Demo.locale
    [("id", JNum 6); ("created_at", JStr "2024-02-10T09:30:00Z");
     ("courses_enrolled", JNum 1)]
  = [ ("id", JNum 6); ("created_at", JStr "2024-02-10T09:30:00Z");
      ("courses_enrolled", JNum 1); ("enrolledCourses", JArr []);
      ("progress", JArr []); ("joinedAt", JStr "2024-02-10T09:30:00Z");
      ("lastActivity", JStr "No activity") ].
Proof. reflexivity. Qed.

(** C8 as stated fails: the filter [course_id: 0] is defined and does not
    appear in the URL. *)
Lemma students_url_zero_course :
  let filters := Some {| course_id := Some 0; status := Some "stuck";
                         search := None |} in
  students_url filters = "http://localhost:3100/api/students?status=stuck" /\
  JS.includes (students_url filters) "course_id" = false.
Proof. split; vm_compute; reflexivity. Qed.

(** C8, as the code has it: the query parameters are exactly the filters
    that are truthy (a course id other than zero, a status and a search
    text other than the empty string), the two texts URI-encoded, at most
    three of them; the URL is the students endpoint, followed by [?] and the
    parameters joined with [&] when there is one; the filter set
    [{status: "stuck"}] gives [...students?status=stuck]. *)
Theorem students_query_string (filters : option Filters) :
  (forall p,
     p ∈ students_queryParams filters <->
     (exists id, opt_course_id filters = Some id /\ id <> 0 /\
                 p = "course_id=" +:+ JS.String_of_number id) \/
     (exists s, opt_status filters = Some s /\ s <> "" /\
                p = "status=" +:+ JS.encodeURIComponent s) \/
     (exists s, opt_search filters = Some s /\ s <> "" /\
                p = "search=" +:+ JS.encodeURIComponent s)) /\
  students_url filters
  = (if decide (students_queryParams filters = []) then
       "http://localhost:3100/api/students"
     else "http://localhost:3100/api/students?"
            +:+ JS.join "&" (students_queryParams filters)) /\
  (length (students_queryParams filters) <= 3)%nat /\
  students_url (Some {| course_id := None; status := Some "stuck";
                        search := None |})
  = "http://localhost:3100/api/students?status=stuck".
Proof.
  split; [|split; [|split]].
  - intros p. unfold students_queryParams.
    destruct (opt_course_id filters) as [id|];
      destruct (opt_status filters) as [s1|];
      destruct (opt_search filters) as [s2|];
      try (unfold JS.truthy_number; destruct (Z.eqb_spec id 0); cbn [negb]);
      try (destruct s1 as [|c1 s1]; cbn [JS.truthy_string]);
      try (destruct s2 as [|c2 s2]; cbn [JS.truthy_string]);
      cbn [app];
      rewrite ?elem_of_cons, ?elem_of_nil;
      naive_solver.
  - unfold students_url.
    destruct (students_queryParams filters) as [|p l]; reflexivity.
  - unfold students_queryParams.
    destruct (opt_course_id filters) as [id|];
      destruct (opt_status filters) as [s1|];
      destruct (opt_search filters) as [s2|];
      repeat match goal with
             | |- context [if ?b then _ else _] => destruct b
             end; cbn; lia.
  - vm_compute. reflexivity.
Qed.

End StudentsHook.

(** ** The create-student modal: C10 *)

Section Modal.

Import CreateStudentModal.

Example validate_spec_scenario :
  validateForm {| name := ""; email := "a@b.com"; phone := "5551234567" |}
  = ({[ "name" := "Name is required" ]}, false).
Proof. vm_compute. reflexivity. Qed.

Example validate_accepts :
  snd (validateForm {| name := "Ada Lovelace"; email := "ada@example.org";
                       phone := "+1 (555) 123-4567" |}) = true.
Proof. vm_compute. reflexivity. Qed.

Lemma handleSubmit_begin_invalid (m : Modal) :
  snd (validateForm (formData (ui m))) = false ->
  handleSubmit_begin m
  = {| ui := {| formData := formData (ui m);
                isLoading := isLoading (ui m);
                showSuccess := showSuccess (ui m);
                error := None;
                fieldErrors := fst (validateForm (formData (ui m))) |};
       sent := sent m; inflight := inflight m; timers := timers m;
       onClose_calls := onClose_calls m;
       onSuccess_calls := onSuccess_calls m |}.
Proof.
  intros H. unfold handleSubmit_begin.
  destruct (validateForm (formData (ui m))) as [errors isValid].
  cbn [fst snd] in *. subst isValid. reflexivity.
Qed.

Lemma consistent_opened : consistent opened.
Proof.
  unfold consistent, valid. cbn. repeat apply conj.
  - intros e H. discriminate H.
  - lia.
  - intros H. discriminate H.
Qed.

Lemma consistent_step (m : Modal) (e : Event) :
  consistent m -> enabled m e -> consistent (step m e).
Proof.
  intros (Herr & Hle & Hfly) Hen. unfold consistent, valid in *.
  destruct e as [f value| |r| |]; cbn [step enabled] in *.
  - (* Input *)
    assert (inflight m <> 1%nat) as Hno
      by (intros H; destruct (Hfly H) as (Hl & _); congruence).
    cbn [with_ui handleInputChange ui inflight error formData isLoading].
    repeat apply conj.
    + intros e He. destruct (error (ui m)) as [e0|] eqn:E; [|discriminate He].
      destruct (Herr e0 eq_refl) as (Hne & _).
      cbn [JS.truthy] in He.
      apply truthy_string_true in Hne. rewrite Hne in He. discriminate He.
    + exact Hle.
    + intros H. contradiction.
  - (* Submit *)
    unfold handleSubmit_begin.
    destruct (validateForm (formData (ui m))) as [errors isValid] eqn:Ev.
    destruct isValid; cbn [negb].
    + destruct (isLoading (ui m)) eqn:El.
      * cbn [with_ui ui inflight error formData isLoading].
        repeat apply conj.
        -- intros e He. discriminate He.
        -- exact Hle.
        -- intros H. destruct (Hfly H) as (_ & _ & Hv).
           repeat apply conj; [reflexivity | reflexivity | rewrite Ev; reflexivity].
      * cbn [ui inflight error formData isLoading].
        assert (inflight m = 0%nat) as H0.
        { destruct (inflight m) as [|[|k]] eqn:E; [reflexivity| |lia].
          destruct (Hfly eq_refl) as (Hl & _). congruence. }
        repeat apply conj.
        -- intros e He. discriminate He.
        -- lia.
        -- intros _. rewrite Ev. repeat apply conj; reflexivity.
    + cbn [with_ui ui inflight error formData isLoading].
      repeat apply conj.
      * intros e He. discriminate He.
      * exact Hle.
      * intros H. destruct (Hfly H) as (_ & _ & Hv).
        cbn [snd] in Hv. discriminate Hv.
  - (* Reply *)
    destruct Hen as (Hpos & Hmsg).
    assert (inflight m = 1%nat) as H1 by lia.
    destruct (Hfly H1) as (Hl & Hnone & Hv).
    unfold handleSubmit_settle. rewrite H1.
    destruct r as [response|msg].
    + destruct (ok response); cbn [negb].
      * cbn [ui inflight error formData isLoading pred].
        repeat apply conj.
        -- intros e He. rewrite Hnone in He. discriminate He.
        -- lia.
        -- intros H. discriminate H.
      * cbn [ui inflight error formData isLoading pred].
        repeat apply conj.
        -- intros e [= <-]. split; [|exact Hv].
           destruct (json response) as [errorData|?]; [|discriminate].
           destruct (detail errorData) as [[|c d]|]; cbn; discriminate.
        -- lia.
        -- intros H. discriminate H.
    + cbn [ui inflight error formData isLoading pred].
      repeat apply conj.
      * intros e [= <-]. split; [exact Hmsg | exact Hv].
      * lia.
      * intros H. discriminate H.
  - (* Close *)
    unfold handleClose. destruct (isLoading (ui m)) eqn:El.
    + repeat apply conj; [exact Herr | exact Hle |].
      intros H. destruct (Hfly H) as (_ & Hn & Hv). auto.
    + cbn [ui inflight error formData isLoading].
      repeat apply conj.
      * intros e He. discriminate He.
      * exact Hle.
      * intros H. destruct (Hfly H) as (Hl & _). congruence.
  - (* Timeout *)
    unfold success_timeout. cbn [ui inflight error formData isLoading].
    repeat apply conj; assumption.
Qed.

Lemma reachable_consistent (m : Modal) : reachable m -> consistent m.
Proof.
  induction 1 as [|m e _ IH Hen].
  - exact consistent_opened.
  - exact (consistent_step m e IH Hen).
Qed.

(** C10: in every state that the open modal can reach, a submission whose
    form fails validation sends nothing and changes nothing but the
    per-field messages; and a submission that sends a request has passed
    validation. *)
Theorem invalid_submit_sends_nothing (m : Modal) :
  reachable m ->
  snd (validateForm (formData (ui m))) = false ->
  step m Submit
  = {| ui := {| formData := formData (ui m);
                isLoading := isLoading (ui m);
                showSuccess := showSuccess (ui m);
                error := error (ui m);
                fieldErrors := fst (validateForm (formData (ui m))) |};
       sent := sent m; inflight := inflight m; timers := timers m;
       onClose_calls := onClose_calls m;
       onSuccess_calls := onSuccess_calls m |} /\
  sent (step m Submit) = sent m /\
  (forall m0 : Modal,
     sent (step m0 Submit) <> sent m0 ->
     snd (validateForm (formData (ui m0))) = true).
Proof.
  intros Hr Hinv.
  assert (error (ui m) = None) as Hnone.
  { destruct (reachable_consistent m Hr) as (Herr & _).
    destruct (error (ui m)) as [e|] eqn:E; [|reflexivity].
    destruct (Herr e eq_refl) as (_ & Hv). unfold valid in Hv. congruence. }
  cbn [step]. rewrite handleSubmit_begin_invalid by exact Hinv.
  cbn [sent]. rewrite Hnone. repeat apply conj; try reflexivity.
  intros m0 Hsent.
  destruct (snd (validateForm (formData (ui m0)))) eqn:E; [reflexivity|].
  rewrite handleSubmit_begin_invalid in Hsent by exact E.
  cbn [sent] in Hsent. congruence.
Qed.

Lemma invalid_submit_witness :
  let m := step opened (Input FEmail "a@b.com") in
  reachable m /\
  snd (validateForm (formData (ui m))) = false /\
  sent (step m Submit) = sent m /\
  error (ui (step m Submit)) = error (ui m).
Proof.
  cbn zeta.
  assert (Hr : reachable (step opened (Input FEmail "a@b.com"))).
  { apply reach_step; [apply reach_opened | reflexivity]. }
  assert (Hv : snd (validateForm (formData (ui (step opened (Input FEmail "a@b.com"))))) = false)
    by (vm_compute; reflexivity).
  split; [exact Hr|]. split; [exact Hv|].
  destruct (invalid_submit_sends_nothing _ Hr Hv) as (Hstep & Hs & _).
  split; [exact Hs | rewrite Hstep; reflexivity].
Defined.

(** Outside the reachable states the handler does reset the general
    error before it validates. *)
Lemma handleSubmit_resets_error :
  let m := with_ui (fun st =>
             {| formData := formData st; isLoading := false;
                showSuccess := false; error := Some "Student already exists";
                fieldErrors := fieldErrors st |}) opened in
  snd (validateForm (formData (ui m))) = false /\
  error (ui (handleSubmit_begin m)) = None.
Proof. split; vm_compute; reflexivity. Qed.

End Modal.
(** * Further properties *)

(** ** The matcher decides the denotation of a regular expression *)

Section RegexFacts.

Import Regex RegexSem.

Lemma str_app_cons (c : ascii) (s t : string) :
  String c s +:+ t = String c (s +:+ t).
Proof. reflexivity. Qed.

Lemma str_app_eq_nil (a b : string) : a +:+ b = "" -> a = "" /\ b = "".
Proof.
  destruct a; [intros H; split; [reflexivity | exact H]|].
  rewrite str_app_cons. discriminate.
Qed.

Lemma nullable_matches (r : regex) : nullable r = true <-> matches r "".
Proof.
  induction r as [| |p|r1 IH1 r2 IH2|r1 IH1 r2 IH2|r IH]; cbn.
  - split; [discriminate | intros H; inversion H].
  - split; [constructor | reflexivity].
  - split; [discriminate | intros H; inversion H].
  - rewrite andb_true_iff, IH1, IH2. split.
    + intros [H1 H2]. change "" with ("" +:+ ""). now constructor.
    + intros H. inversion H; subst.
      match goal with E : _ +:+ _ = "" |- _ =>
        apply str_app_eq_nil in E as [-> ->] end.
      auto.
  - rewrite orb_true_iff, IH1, IH2. split.
    + intros [H|H]; [now apply m_alt_l | now apply m_alt_r].
    + intros H. inversion H; subst; auto.
  - split; [constructor | reflexivity].
Qed.

(** A non-empty word of a star starts with a non-empty word of the body. *)
Lemma star_cons_inv_gen (r' : regex) (s : string) :
  matches r' s ->
  forall body a t, r' = Star body -> s = String a t ->
  exists t1 t2,
    t = t1 +:+ t2 /\ matches body (String a t1) /\ matches (Star body) t2.
Proof.
  induction 1 as [| | | | | |r0 s1 s2 H1 _ H2 IH2]; intros body a t E Hs;
    try discriminate.
  injection E as ->.
  destruct s1 as [|c1 s1].
  - change (s2 = String a t) in Hs. exact (IH2 body a t eq_refl Hs).
  - rewrite str_app_cons in Hs. injection Hs as -> <-.
    exists s1, s2. auto.
Qed.

Lemma star_cons_inv (r : regex) (c : ascii) (t : string) :
  matches (Star r) (String c t) ->
  exists t1 t2, t = t1 +:+ t2 /\ matches r (String c t1) /\ matches (Star r) t2.
Proof. intros H. exact (star_cons_inv_gen _ _ H r c t eq_refl eq_refl). Qed.

Lemma deriv_matches (r : regex) (c : ascii) (s : string) :
  matches (deriv c r) s <-> matches r (String c s).
Proof.
  revert s.
  induction r as [| |p|r1 IH1 r2 IH2|r1 IH1 r2 IH2|r IH]; intros s; cbn.
  - split; intros H; inversion H.
  - split; intros H; inversion H.
  - destruct (p c) eqn:Hp; split; intros H.
    + inversion H; subst. now constructor.
    + inversion H; subst. constructor.
    + inversion H.
    + inversion H; subst. congruence.
  - assert (Hseq : matches (Seq (deriv c r1) r2) s ->
                   matches (Seq r1 r2) (String c s)).
    { intros H. inversion H as [| |? ? s1 s2 H1 H2| | | |]; subst.
      apply IH1 in H1. change (String c (s1 +:+ s2)) with (String c s1 +:+ s2).
      now constructor. }
    assert (Hinv : matches (Seq r1 r2) (String c s) ->
                   matches (Seq (deriv c r1) r2) s \/
                   (matches r1 "" /\ matches r2 (String c s))).
    { intros H. remember (String c s) as w eqn:Ew.
      inversion H as [| |? ? s1 s2 H1 H2| | | |]; subst.
      destruct s1 as [|c1 s1].
      - right. split; [exact H1|].
        match goal with E : _ = String c s |- _ =>
          change (s2 = String c s) in E; subst s2 end.
        exact H2.
      - match goal with E : _ = String c s |- _ =>
          rewrite str_app_cons in E; injection E as -> <- end.
        left. constructor; [now apply IH1 | exact H2]. }
    destruct (nullable r1) eqn:Hn; split.
    + intros H. inversion H; subst; [now apply Hseq|].
      change (String c s) with ("" +:+ String c s).
      constructor; [now apply nullable_matches | now apply IH2].
    + intros H. destruct (Hinv H) as [H'|[_ H']].
      * now apply m_alt_l.
      * apply m_alt_r. now apply IH2.
    + exact Hseq.
    + intros H. destruct (Hinv H) as [H'|[H' _]]; [exact H'|].
      apply nullable_matches in H'. congruence.
  - split; intros H; inversion H; subst.
    + apply m_alt_l. now apply IH1.
    + apply m_alt_r. now apply IH2.
    + apply m_alt_l. now apply IH1.
    + apply m_alt_r. now apply IH2.
  - split.
    + intros H. inversion H as [| |? ? s1 s2 H1 H2| | | |]; subst.
      apply IH in H1. change (String c (s1 +:+ s2)) with (String c s1 +:+ s2).
      now constructor.
    + intros H. destruct (star_cons_inv r c s H) as (t1 & t2 & -> & H1 & H2).
      constructor; [now apply IH | exact H2].
Qed.

(** The matcher decides the denotation. *)
Lemma test_matches (r : regex) (s : string) : test r s = true <-> matches r s.
Proof.
  revert r. induction s as [|c s IH]; intros r; cbn.
  - apply nullable_matches.
  - rewrite IH. apply deriv_matches.
Qed.

Lemma all_chars_app (p : ascii -> bool) (a b : string) :
  all_chars p (a +:+ b) = all_chars p a && all_chars p b.
Proof.
  induction a as [|c a IH]; [reflexivity|].
  rewrite str_app_cons. cbn [all_chars]. rewrite IH. apply andb_assoc.
Qed.

Lemma matches_seq (r1 r2 : regex) (s : string) :
  matches (Seq r1 r2) s <->
  exists s1 s2, s = s1 +:+ s2 /\ matches r1 s1 /\ matches r2 s2.
Proof.
  split.
  - intros H. inversion H; subst. eauto.
  - intros (s1 & s2 & -> & H1 & H2). now constructor.
Qed.

Lemma matches_class (p : ascii -> bool) (s : string) :
  matches (Class p) s <-> exists c, s = String c "" /\ p c = true.
Proof.
  split.
  - intros H. inversion H; subst. eauto.
  - intros (c & -> & H). now constructor.
Qed.

Lemma matches_char (c : ascii) (s : string) :
  matches (char c) s <-> s = String c "".
Proof.
  unfold char. rewrite matches_class. split.
  - intros (c' & -> & H). apply Ascii.eqb_eq in H. now subst.
  - intros ->. exists c. split; [reflexivity | apply Ascii.eqb_refl].
Qed.

Lemma matches_opt (r : regex) (s : string) :
  matches (Opt r) s <-> s = "" \/ matches r s.
Proof.
  unfold Opt. split.
  - intros H. inversion H as [| | |? ? ? H1|? ? ? H1| |]; subst.
    + inversion H1. now left.
    + now right.
  - intros [->|H]; [apply m_alt_l; constructor | now apply m_alt_r].
Qed.

Lemma matches_star_class_gen (r : regex) (s : string) :
  matches r s -> forall p, r = Star (Class p) -> all_chars p s = true.
Proof.
  induction 1 as [| | | | | |r0 s1 s2 H1 _ H2 IH2]; intros q E;
    try discriminate; [reflexivity|].
  injection E as ->. rewrite all_chars_app, (IH2 q eq_refl), andb_true_r.
  inversion H1; subst. cbn. now rewrite andb_true_r.
Qed.

Lemma matches_star_class (p : ascii -> bool) (s : string) :
  matches (Star (Class p)) s <-> all_chars p s = true.
Proof.
  split.
  - intros H. exact (matches_star_class_gen _ _ H p eq_refl).
  - induction s as [|c s IH]; [constructor|].
    cbn [all_chars]. intros H. apply andb_true_iff in H as [Hc Hs].
    change (String c s) with (String c "" +:+ s).
    constructor; [now constructor | now apply IH].
Qed.

Lemma matches_plus_class (p : ascii -> bool) (s : string) :
  matches (Plus (Class p)) s <-> s <> "" /\ all_chars p s = true.
Proof.
  unfold Plus. rewrite matches_seq. split.
  - intros (s1 & s2 & -> & H1 & H2).
    apply matches_class in H1 as (c & -> & Hc).
    apply matches_star_class in H2.
    rewrite str_app_cons. change ("" +:+ s2) with s2.
    cbn [all_chars]. rewrite Hc, H2.
    split; [discriminate | reflexivity].
  - intros [Hne H]. destruct s as [|c s]; [congruence|].
    cbn [all_chars] in H. apply andb_true_iff in H as [Hc Hs].
    exists (String c ""), s. split; [reflexivity|].
    split; [now constructor | now apply matches_star_class].
Qed.

Lemma matches_atleast_class (n : nat) (p : ascii -> bool) (s : string) :
  matches (AtLeast n (Class p)) s <->
  (n <= String.length s)%nat /\ all_chars p s = true.
Proof.
  revert s. induction n as [|n IH]; intros s; cbn [AtLeast].
  - rewrite matches_star_class. split; [intros H; split; [lia | exact H]|].
    now intros [_ H].
  - rewrite matches_seq. split.
    + intros (s1 & s2 & -> & H1 & H2).
      apply matches_class in H1 as (c & -> & Hc). apply IH in H2 as [Hl Ha].
      rewrite str_app_cons. cbn [all_chars String.length].
      change ("" +:+ s2) with s2. rewrite Hc, Ha. split; [lia | reflexivity].
    + intros [Hl H]. destruct s as [|c s]; [cbn in Hl; lia|].
      cbn [all_chars String.length] in *.
      apply andb_true_iff in H as [Hc Hs].
      exists (String c ""), s. split; [reflexivity|].
      split; [now constructor | apply IH; split; [lia | exact Hs]].
Qed.

Lemma matches_atmost_class (n : nat) (p : ascii -> bool) (s : string) :
  matches (AtMost n (Class p)) s <->
  (String.length s <= n)%nat /\ all_chars p s = true.
Proof.
  revert s. induction n as [|n IH]; intros s; cbn [AtMost].
  - split.
    + intros H. inversion H; subst. split; [cbn; lia | reflexivity].
    + intros [Hl _]. destruct s; [constructor | cbn in Hl; lia].
  - rewrite matches_opt, matches_seq. split.
    + intros [->|(s1 & s2 & -> & H1 & H2)]; [split; [cbn; lia | reflexivity]|].
      apply matches_class in H1 as (c & -> & Hc). apply IH in H2 as [Hl Ha].
      rewrite str_app_cons. cbn [all_chars String.length].
      change ("" +:+ s2) with s2. rewrite Hc, Ha. split; [lia | reflexivity].
    + intros [Hl H]. destruct s as [|c s]; [now left|]. right.
      cbn [all_chars String.length] in *.
      apply andb_true_iff in H as [Hc Hs].
      exists (String c ""), s. split; [reflexivity|].
      split; [now constructor | apply IH; split; [lia | exact Hs]].
Qed.

End RegexFacts.

(** ** White space and [trim] *)

Section TrimFacts.

Import RegexSem.

Lemma trimStart_all_white (s : string) :
  all_chars JS.is_white (JS.trimStart s) = all_chars JS.is_white s.
Proof.
  induction s as [|c s IH]; [reflexivity|].
  cbn [JS.trimStart]. destruct (JS.is_white c) eqn:Hc.
  - rewrite IH. cbn [all_chars]. now rewrite Hc.
  - reflexivity.
Qed.

Lemma trimStart_empty (s : string) :
  JS.trimStart s = "" <-> all_chars JS.is_white s = true.
Proof.
  induction s as [|c s IH]; [split; reflexivity|].
  cbn [JS.trimStart all_chars]. destruct (JS.is_white c); cbn [andb].
  - exact IH.
  - split; discriminate.
Qed.

Lemma rev_string_all (p : ascii -> bool) (s acc : string) :
  all_chars p (JS.rev_string s acc) = all_chars p s && all_chars p acc.
Proof.
  revert acc. induction s as [|c s IH]; intros acc; [reflexivity|].
  cbn [JS.rev_string]. rewrite IH. cbn [all_chars].
  destruct (p c), (all_chars p s), (all_chars p acc); reflexivity.
Qed.

Lemma rev_string_empty (s acc : string) :
  JS.rev_string s acc = "" <-> s = "" /\ acc = "".
Proof.
  revert acc. induction s as [|c s IH]; intros acc; cbn [JS.rev_string].
  - split; [auto | now intros [_ ->]].
  - rewrite IH. split; [intros [_ H]; discriminate | intros [H _]; discriminate].
Qed.

(** [trim] gives the empty string exactly on the strings of white space. *)
Lemma trim_empty (s : string) :
  JS.trim s = "" <-> all_chars JS.is_white s = true.
Proof.
  unfold JS.trim, JS.trimEnd. rewrite rev_string_empty.
  rewrite trimStart_empty, rev_string_all, trimStart_all_white.
  cbn [all_chars]. rewrite andb_true_r. split; [now intros [H _] | auto].
Qed.

Lemma truthy_trim (s : string) :
  JS.truthy_string (JS.trim s) = negb (all_chars JS.is_white s).
Proof.
  destruct (all_chars JS.is_white s) eqn:H.
  - apply trim_empty in H. now rewrite H.
  - destruct (JS.trim s) eqn:E; [|reflexivity].
    apply trim_empty in E. congruence.
Qed.

Lemma remove_white_empty (s : string) :
  CreateStudentModal.remove_white s = "" <-> all_chars JS.is_white s = true.
Proof.
  induction s as [|c s IH]; [split; reflexivity|].
  cbn [CreateStudentModal.remove_white all_chars].
  destruct (JS.is_white c); cbn [andb]; [exact IH | split; discriminate].
Qed.

Lemma strip_phone_white (s : string) :
  all_chars JS.is_white s = true -> AuthForm.strip_phone s = "".
Proof.
  induction s as [|c s IH]; [reflexivity|].
  cbn [AuthForm.strip_phone all_chars]. intros H.
  apply andb_true_iff in H as [-> Hs]. cbn [orb]. now apply IH.
Qed.

End TrimFacts.

(** ** What the validators accept *)

Section Validators.

Import Regex RegexSem Shapes.

Lemma email_char_not_white (c : ascii) :
  AuthForm.email_char c = true -> JS.is_white c = false.
Proof.
  unfold AuthForm.email_char. destruct (JS.is_white c); [discriminate | reflexivity].
Qed.

Lemma email_shape_has_ink (s : string) :
  email_shape s -> all_chars JS.is_white s = false.
Proof.
  intros (l & d & t & -> & Hl & _ & _ & Hal & _).
  destruct l as [|c l]; [congruence|].
  cbn [all_chars] in Hal. apply andb_true_iff in Hal as [Hc _].
  rewrite str_app_cons. cbn [all_chars].
  now rewrite (email_char_not_white c Hc).
Qed.

(** The email pattern, which the login page and the create-student modal
    share, accepts exactly the strings of the shape [local@domain.tld]. *)
Lemma validateEmail_shape (s : string) :
  AuthForm.validateEmail s = true <-> email_shape s.
Proof.
  unfold AuthForm.validateEmail, AuthForm.emailRegex, email_shape.
  rewrite test_matches, matches_seq. split.
  - intros (l & r1 & -> & Hl & H1).
    apply matches_plus_class in Hl as [Hl Hal].
    apply matches_seq in H1 as (a & r2 & -> & Ha & H2).
    apply matches_char in Ha as ->.
    apply matches_seq in H2 as (d & r3 & -> & Hd & H3).
    apply matches_plus_class in Hd as [Hd Had].
    apply matches_seq in H3 as (b & t & -> & Hb & Ht).
    apply matches_char in Hb as ->.
    apply matches_plus_class in Ht as [Ht Hat].
    exists l, d, t. repeat split; assumption.
  - intros (l & d & t & -> & Hl & Hd & Ht & Hal & Had & Hat).
    exists l, ("@" +:+ d +:+ "." +:+ t). split; [reflexivity|].
    split; [now apply matches_plus_class|].
    apply matches_seq. exists "@", (d +:+ "." +:+ t). split; [reflexivity|].
    split; [now apply matches_char|].
    apply matches_seq. exists d, ("." +:+ t). split; [reflexivity|].
    split; [now apply matches_plus_class|].
    apply matches_seq. exists ".", t. split; [reflexivity|].
    split; [now apply matches_char | now apply matches_plus_class].
Qed.

Lemma modal_phone_shape_iff (s : string) :
  Regex.test CreateStudentModal.phoneRegex s = true <-> modal_phone_shape s.
Proof.
  unfold CreateStudentModal.phoneRegex, modal_phone_shape.
  rewrite test_matches, matches_seq. split.
  - intros (a & body & -> & Ha & Hb).
    apply (matches_atleast_class 10 phone_symbol) in Hb as [Hl Hall].
    apply matches_opt in Ha as [->|Ha].
    + exists body. auto.
    + apply matches_char in Ha as ->. exists body. auto.
  - intros (body & Hs & Hl & Hall).
    assert (matches (AtLeast 10 (Class phone_symbol)) body)
      by (apply matches_atleast_class; auto).
    destruct Hs as [->| ->].
    + exists "", body. split; [reflexivity|].
      split; [apply matches_opt; now left | assumption].
    + exists "+", body. split; [reflexivity|].
      split; [apply matches_opt; right; now apply matches_char | assumption].
Qed.

Lemma validatePhone_shape (phone : string) :
  AuthForm.validatePhone phone = true <->
  auth_phone_shape (AuthForm.strip_phone phone).
Proof.
  unfold AuthForm.validatePhone, AuthForm.phoneRegex, auth_phone_shape.
  generalize (AuthForm.strip_phone phone) as s. intros s.
  rewrite test_matches, matches_seq. split.
  - intros (a & r & -> & Ha & Hr).
    apply matches_seq in Hr as (x & ds & -> & Hx & Hds).
    apply matches_class in Hx as (d & -> & Hd).
    apply matches_atmost_class in Hds as [Hl Hall].
    exists d, ds. apply matches_opt in Ha as [->|Ha].
    + auto.
    + apply matches_char in Ha as ->. auto.
  - intros (d & ds & Hs & Hd & Hall & Hl).
    assert (matches (Seq (Class AuthForm.nonzero_digit)
                       (AtMost 15 (Class JS.is_digit))) (String d ds)).
    { apply matches_seq. exists (String d ""), ds. split; [reflexivity|].
      split; [now constructor | apply matches_atmost_class; auto]. }
    destruct Hs as [->| ->].
    + exists "", (String d ds). split; [reflexivity|].
      split; [apply matches_opt; now left | assumption].
    + exists "+", (String d ds). split; [reflexivity|].
      split; [apply matches_opt; right; now apply matches_char | assumption].
Qed.

End Validators.

(** ** The two forms *)

Section Forms.

Import RegexSem Shapes.

Lemma trim_length_2 (s : string) :
  JS.truthy_string (JS.trim s) = true /\
  (String.length (JS.trim s) <? 2)%nat = false
  <-> (2 <= String.length (JS.trim s))%nat.
Proof.
  rewrite Nat.ltb_ge. split; [now intros [_ H]|].
  intros H. split; [|exact H].
  destruct (JS.trim s); [cbn in H; lia | reflexivity].
Qed.

Lemma modal_email_ok (s : string) :
  JS.truthy_string (JS.trim s) = true /\
  Regex.test CreateStudentModal.emailRegex s = true
  <-> email_shape s.
Proof.
  change (Regex.test CreateStudentModal.emailRegex s)
    with (AuthForm.validateEmail s).
  rewrite validateEmail_shape, truthy_trim. split; [now intros [_ H]|].
  intros H. split; [|exact H].
  now rewrite (email_shape_has_ink s H).
Qed.

Lemma modal_phone_ok (s : string) :
  JS.truthy_string (JS.trim s) = true /\
  Regex.test CreateStudentModal.phoneRegex
    (CreateStudentModal.remove_white s) = true
  <-> modal_phone_shape (CreateStudentModal.remove_white s).
Proof.
  rewrite modal_phone_shape_iff, truthy_trim. split; [now intros [_ H]|].
  intros H. split; [|exact H].
  destruct (all_chars JS.is_white s) eqn:Hw; [|reflexivity].
  apply remove_white_empty in Hw. rewrite Hw in H.
  destruct H as (body & [E|E] & Hl & _).
  - subst body. cbn in Hl. lia.
  - destruct body; discriminate E.
Qed.

Lemma auth_phone_ok (s : string) :
  JS.truthy_string (JS.trim s) = true /\ AuthForm.validatePhone s = true
  <-> auth_phone_shape (AuthForm.strip_phone s).
Proof.
  rewrite validatePhone_shape, truthy_trim. split; [now intros [_ H]|].
  intros H. split; [|exact H].
  destruct (all_chars JS.is_white s) eqn:Hw; [|reflexivity].
  apply strip_phone_white in Hw. rewrite Hw in H.
  destruct H as (d & ds & [E|E] & _); discriminate E.
Qed.

(** X11: on a form typed in ASCII characters, the create-student modal
    accepts exactly when the trimmed name has at least two characters, the
    email as typed has the shape [local@domain.tld] and the phone number,
    white space removed, is an optional [+] followed by at least ten
    digits, hyphens or parentheses; and it reports no field error exactly
    when it accepts the form. *)
Theorem modal_validateForm_accepts (f : CreateStudentModal.FormData) :
  JS.ascii_only (CreateStudentModal.name f) = true ->
  JS.ascii_only (CreateStudentModal.email f) = true ->
  JS.ascii_only (CreateStudentModal.phone f) = true ->
  (snd (CreateStudentModal.validateForm f) = true <->
   (2 <= String.length (JS.trim (CreateStudentModal.name f)))%nat /\
   email_shape (CreateStudentModal.email f) /\
   modal_phone_shape
     (CreateStudentModal.remove_white (CreateStudentModal.phone f))) /\
  (fst (CreateStudentModal.validateForm f) = ∅ <->
   snd (CreateStudentModal.validateForm f) = true).
Proof.
  intros _ _ _.
  rewrite <- trim_length_2, <- modal_email_ok, <- modal_phone_ok.
  unfold CreateStudentModal.validateForm.
  destruct (JS.truthy_string (JS.trim (CreateStudentModal.name f)));
    destruct (String.length (JS.trim (CreateStudentModal.name f)) <? 2)%nat;
    destruct (JS.truthy_string (JS.trim (CreateStudentModal.email f)));
    destruct (Regex.test CreateStudentModal.emailRegex
                (CreateStudentModal.email f));
    destruct (JS.truthy_string (JS.trim (CreateStudentModal.phone f)));
    destruct (Regex.test CreateStudentModal.phoneRegex
                (CreateStudentModal.remove_white (CreateStudentModal.phone f)));
    cbn [negb fst snd];
    (split; [intuition congruence|]);
    (split; [intros H; try reflexivity;
             exfalso; revert H; apply insert_non_empty
            | intros H; try reflexivity; discriminate H]).
Qed.

Lemma block_empty (a b : bool) (k x y : string) (m : gmap string string) :
  (if a then <[k:=x]> m else if b then <[k:=y]> m else m) = ∅
  <-> a = false /\ b = false /\ m = ∅.
Proof.
  destruct a, b; split; try (intros (? & ? & ?); discriminate);
    try (intros H; exfalso; revert H; apply insert_non_empty).
  - intros H. auto.
  - now intros (_ & _ & H).
Qed.

Lemma newErrors_empty (signUp : bool) (f : AuthForm.FormData) :
  AuthForm.newErrors signUp f = ∅ <->
  JS.truthy_string (JS.trim (AuthForm.email f))
  && AuthForm.validateEmail (AuthForm.email f)
  && JS.truthy_string (AuthForm.password f)
  && (negb signUp
      || AuthForm.validatePassword (AuthForm.password f)
         && (JS.truthy_string (JS.trim (AuthForm.name f))
             && negb (String.length (JS.trim (AuthForm.name f)) <? 2)%nat)
         && (JS.truthy_string (JS.trim (AuthForm.phone f))
             && AuthForm.validatePhone (AuthForm.phone f))
         && (JS.truthy_string (AuthForm.confirmPassword f)
             && String.eqb (AuthForm.password f) (AuthForm.confirmPassword f)))
  = true.
Proof.
  unfold AuthForm.newErrors.
  destruct signUp; cbn zeta; rewrite !block_empty;
    rewrite ?andb_true_l, ?andb_false_l, !negb_false_iff;
    cbn [negb orb]; rewrite ?orb_true_r, ?andb_true_r, !andb_true_iff,
      ?negb_true_iff;
    intuition.
Qed.

(** X12: on a form typed in ASCII characters, the login page accepts a
    login form exactly when the email has the shape [local@domain.tld] and
    the password is not empty; a sign-up form must in addition have a
    password of at least six characters, a trimmed name of at least two, a
    phone number that is, once spaces, hyphens and parentheses are
    removed, an optional [+], a digit from 1 to 9 and at most fifteen more
    digits, and a confirmation equal to the password. *)
Theorem auth_validateForm_accepts (st : AuthForm.State) :
  AuthForm.ascii_form (AuthForm.formData st) = true ->
  AuthForm.validateForm st = true <->
  email_shape (AuthForm.email (AuthForm.formData st)) /\
  AuthForm.password (AuthForm.formData st) <> "" /\
  (AuthForm.isSignUp st = true ->
   (6 <= String.length (AuthForm.password (AuthForm.formData st)))%nat /\
   (2 <= String.length (JS.trim (AuthForm.name (AuthForm.formData st))))%nat /\
   auth_phone_shape
     (AuthForm.strip_phone (AuthForm.phone (AuthForm.formData st))) /\
   AuthForm.confirmPassword (AuthForm.formData st)
   = AuthForm.password (AuthForm.formData st)).
Proof.
  intros _.
  unfold AuthForm.validateForm. rewrite bool_decide_eq_true, newErrors_empty.
  generalize (AuthForm.formData st) as f. intros f.
  rewrite <- trim_length_2, <- modal_email_ok, <- auth_phone_ok.
  change (Regex.test CreateStudentModal.emailRegex (AuthForm.email f))
    with (AuthForm.validateEmail (AuthForm.email f)).
  rewrite <- truthy_string_true. unfold AuthForm.validatePassword.
  rewrite !andb_true_iff, orb_true_iff, !andb_true_iff, negb_true_iff,
    Nat.leb_le.
  assert (Hconf : JS.truthy_string (AuthForm.password f) = true ->
            (JS.truthy_string (AuthForm.confirmPassword f) = true /\
             String.eqb (AuthForm.password f) (AuthForm.confirmPassword f)
             = true)
            <-> AuthForm.confirmPassword f = AuthForm.password f).
  { intros Hp. rewrite String.eqb_eq. split; [now intros [_ ->]|].
    intros ->. auto. }
  destruct (AuthForm.isSignUp st); cbn [negb]; split.
  - intros [[[He1 He2] Hp] [H|H]]; [discriminate H|].
    destruct H as [[[H6 Hn] Hph] Hc].
    apply Hconf in Hc; [|exact Hp].
    rewrite negb_true_iff in Hn. auto 10.
  - intros (He & Hp & H). destruct (H eq_refl) as (H6 & Hn & Hph & Hc).
    apply Hconf in Hc; [|exact Hp]. rewrite negb_true_iff.
    split; [tauto|]. right. tauto.
  - intros [[He Hp] _]. split; [exact He|]. split; [exact Hp|].
    intros H. discriminate H.
  - intros (He & Hp & _). split; [tauto|]. now left.
Qed.

End Forms.

Lemma modal_validateForm_witness :
  Shapes.email_shape "ada@example.org" /\
  Shapes.modal_phone_shape "+442079460958".
Proof.
  destruct (modal_validateForm_accepts DemoModal.filled) as [[H _] _];
    try reflexivity.
  destruct H as (_ & He & Hp); [vm_compute; reflexivity|].
  split; [exact He | exact Hp].
Defined.

Lemma auth_validateForm_witness :
  Shapes.email_shape "ada@example.org".
Proof.
  destruct (auth_validateForm_accepts (AuthForm.view DemoLogin.page))
    as [H _]; try reflexivity.
  destruct H as (He & _); [vm_compute; reflexivity | exact He].
Defined.

(** ** The footprint of the gateway *)

Lemma clearAuthData_frame (ls : gmap string string) (k : string) :
  k ∉ session_keys -> clearAuthData ls !! k = ls !! k.
Proof.
  unfold session_keys. intros Hk.
  unfold clearAuthData, removeItem.
  rewrite !lookup_delete_ne; [reflexivity|..]; intros <-; apply Hk;
    set_solver.
Qed.

Lemma refreshed_frame (now : Z) (data : TokenPayload)
    (ls : gmap string string) (k : string) :
  k ∉ session_keys -> refreshed now data ls !! k = ls !! k.
Proof.
  unfold session_keys. intros Hk.
  unfold refreshed, setItem.
  rewrite !lookup_insert_ne; [reflexivity|..]; intros <-; apply Hk;
    set_solver.
Qed.

Lemma refreshed_coach (now : Z) (data : TokenPayload)
    (ls : gmap string string) :
  getItem "coach" (refreshed now data ls) = getItem "coach" ls.
Proof.
  unfold refreshed, setItem, getItem.
  rewrite !lookup_insert_ne by discriminate. reflexivity.
Qed.

Lemma clearAuthData_not_authenticated (now : Z) (ls : gmap string string) :
  isAuthenticated now (clearAuthData ls) = false.
Proof.
  unfold isAuthenticated.
  destruct (clearAuthData_lookup ls) as (Ha & _).
  unfold getAuthToken. rewrite Ha. reflexivity.
Qed.

Lemma isAuthenticated_token (now : Z) (ls : gmap string string) :
  isAuthenticated now ls = true ->
  exists token, getAuthToken ls = Some token /\ token <> "".
Proof.
  intros H. apply isAuthenticated_iff in H as (t & _ & _ & Ht & Hne & _).
  eauto.
Qed.

Lemma original_gateway_call url options w :
  gateway_call url options (original url options w).
Proof.
  left. cbn. repeat split. apply map_union_subseteq_l.
Qed.

Section GatewayFootprint.

Context {T : Type} (env : Env T).

(** The ways in which a call of the gateway can end. *)
Lemma gateway_cases (url : string) (options : RequestInit) (w : World) :
  let n := length (netlog w) in
  let first := original url options w in
  let w1 := log_call first w in
  let run := makeAuthenticatedAPICall env url options w in
  (isAuthenticated (Date_now env w) (storage w) = false /\
   run = (Err "Authentication required", redirectToLogin w)) \/
  (isAuthenticated (Date_now env w) (storage w) = true /\
   ((exists msg, net env n first = Rejected msg /\ run = (Err msg, w1)) \/
    (exists r1, net env n first = Resolved r1 /\ status r1 <> 401 /\
       run = (if ok r1 then json r1
              else Err (handleAuthError (status r1) (text r1)), w1)) \/
    (exists r1, net env n first = Resolved r1 /\ status r1 = 401 /\
       ((JS.truthy (getRefreshToken (storage w)) = false /\
         run = (Err "Authentication failed", redirectToLogin w1)) \/
        (exists rt, getRefreshToken (storage w) = Some rt /\ rt <> "" /\
          let rq := refresh_request rt in
          let w2 := log_call rq w1 in
          ((match auth_net env (S n) rq with
            | Rejected _ => True
            | Resolved rr =>
                ok rr = false \/ exists e, json rr = Err e
            end /\
            run = (Err "Authentication failed", redirectToLogin w2)) \/
           (exists rr data,
              auth_net env (S n) rq = Resolved rr /\ ok rr = true /\
              json rr = Ok data /\
              let w3 := with_storage (refreshed (Date_now env w2) data) w2 in
              let retry := original url options w3 in
              let w4 := log_call retry w3 in
              ((access_token data = "" /\
                run = (Err "Authentication failed", w3)) \/
               (access_token data <> "" /\
                ((exists msg, net env (S (S n)) retry = Rejected msg /\
                    run = (Err msg, w4)) \/
                 (exists r2, net env (S (S n)) retry = Resolved r2 /\
                    run = (if ok r2 then (json r2, w4)
                           else if status r2 =? 401 then
                             (Err "Authentication failed", redirectToLogin w4)
                           else (Err (handleAuthError (status r2) (text r2)),
                                 w4))))))))))))).
Proof.
  intros n first w1 run. unfold run.
  rewrite makeAuthenticatedAPICall_unfold.
  destruct (isAuthenticated (Date_now env w) (storage w)) eqn:Hauth.
  2:{ left. split; [reflexivity|].
      rewrite authenticatedFetch_unauthenticated by exact Hauth. reflexivity. }
  right. split; [reflexivity|].
  rewrite authenticatedFetch_first by exact Hauth. cbn zeta.
  fold n first w1.
  destruct (net env n first) as [r1|msg] eqn:H1.
  2:{ left. exists msg. split; reflexivity. }
  right.
  destruct (status r1 =? 401) eqn:H401.
  2:{ left. exists r1. apply Z.eqb_neq in H401.
      split; [reflexivity|]. split; [exact H401|].
      destruct (ok r1); [destruct (json r1); reflexivity|].
      apply Z.eqb_neq in H401. rewrite H401. reflexivity. }
  right. apply Z.eqb_eq in H401. exists r1.
  split; [reflexivity|]. split; [exact H401|].
  change (storage w) with (storage w1) at 1 2.
  destruct (JS.truthy (getRefreshToken (storage w1))) eqn:Ht.
  2:{ left. split; [reflexivity|].
      rewrite refresh_no_token by exact Ht. reflexivity. }
  right. apply truthy_true in Ht as (rt & Hrt & Hne).
  exists rt. split; [exact Hrt|]. split; [exact Hne|].
  cbn zeta.
  rewrite (refresh_unfold env w1 rt Hrt Hne). cbn zeta.
  assert (Hlen1 : length (netlog w1) = S n).
  { unfold w1, n. cbn [log_call netlog]. rewrite length_app. cbn. lia. }
  rewrite Hlen1.
  destruct (auth_net env (S n) (refresh_request rt)) as [rr|msg] eqn:H2.
  2:{ left. split; [exact I | reflexivity]. }
  destruct (ok rr) eqn:Hok.
  2:{ left. split; [now left | reflexivity]. }
  destruct (json rr) as [data|e] eqn:Hj.
  2:{ left. split; [right; now exists e | reflexivity]. }
  right. exists rr, data.
  split; [reflexivity|]. split; [exact Hok|]. split; [exact Hj|].
  cbn zeta. cbn [JS.truthy].
  destruct (access_token data) as [|c t] eqn:Hat.
  { left. split; reflexivity. }
  right. split; [discriminate|].
  cbn [JS.truthy_string]. unfold fetch.
  set (w2 := log_call (refresh_request rt) w1).
  set (w3 := with_storage (refreshed (Date_now env w2) data) w2).
  fold (original url options w3).
  assert (Hlen3 : length (netlog w3) = S (S n)).
  { unfold w3, w2. cbn [with_storage log_call netlog].
    rewrite length_app, Hlen1. cbn. lia. }
  rewrite Hlen3.
  destruct (net env (S (S n)) (original url options w3)) as [r2|msg2] eqn:H3.
  2:{ left. exists msg2. split; reflexivity. }
  right. exists r2. split; [reflexivity|].
  destruct (ok r2); [destruct (json r2); reflexivity|].
  destruct (status r2 =? 401); reflexivity.
Qed.

End GatewayFootprint.

Lemma auth_header (options : RequestInit) (ls : gmap string string)
    (token : string) :
  getAuthToken ls = Some token -> token <> "" ->
  headers (with_auth_headers options ls) !! "Authorization"
  = Some (default ("Bearer " +:+ token) (headers options !! "Authorization")).
Proof.
  intros Ht Hne. cbn [with_auth_headers headers].
  rewrite lookup_union. unfold getAuthHeaders. rewrite Ht.
  apply truthy_string_true in Hne. rewrite Hne.
  rewrite lookup_insert_eq.
  destruct (headers options !! "Authorization"); reflexivity.
Qed.

Lemma content_type_header (options : RequestInit) (ls : gmap string string) :
  headers (with_auth_headers options ls) !! "Content-Type"
  = Some (default "application/json" (headers options !! "Content-Type")).
Proof.
  cbn [with_auth_headers headers]. rewrite lookup_union.
  assert (getAuthHeaders ls !! "Content-Type" = Some "application/json") as ->.
  { unfold getAuthHeaders. destruct (getAuthToken ls) as [t|]; [|reflexivity].
    destruct (JS.truthy_string t); [|reflexivity].
    rewrite lookup_insert_ne by discriminate. reflexivity. }
  destruct (headers options !! "Content-Type"); reflexivity.
Qed.

Ltac calls_ok :=
  split; [rewrite <- ?app_assoc, ?app_nil_r; reflexivity|];
  split; [cbn; lia|];
  repeat (apply List.Forall_cons; [solve [auto]|]); apply List.Forall_nil.

Section GatewayProperties.

Context {T : Type} (env : Env T).

(** X1: without a valid session the gateway makes no network call: it
    removes the four session keys (and nothing else) from the store,
    reloads the page once and fails with "Authentication required"; the
    store it leaves holds no valid session at any time. *)
Theorem gateway_requires_session (url : string) (options : RequestInit)
    (w : World) :
  isAuthenticated (Date_now env w) (storage w) = false ->
  exists w',
    makeAuthenticatedAPICall env url options w
    = (Err "Authentication required", w') /\
    netlog w' = netlog w /\
    reloads w' = S (reloads w) /\
    (forall k, k ∈ session_keys -> getItem k (storage w') = None) /\
    (forall k, k ∉ session_keys -> storage w' !! k = storage w !! k) /\
    (forall now, isAuthenticated now (storage w') = false).
Proof.
  intros Hauth. exists (redirectToLogin w).
  rewrite makeAuthenticatedAPICall_unfold,
    authenticatedFetch_unauthenticated by exact Hauth.
  split; [reflexivity|]. cbn [redirectToLogin netlog reloads storage].
  split; [reflexivity|]. split; [reflexivity|].
  split; [|split].
  - intros k Hk. destruct (clearAuthData_lookup (storage w)) as (A & B & C & D).
    unfold session_keys in Hk.
    repeat (apply elem_of_cons in Hk as [->|Hk]; [assumption|]).
    inversion Hk.
  - intros k Hk. now apply clearAuthData_frame.
  - intros now. apply clearAuthData_not_authenticated.
Qed.

(** X2: with a valid session, when the first answer is not a 401 (or the
    call is rejected by the network), the gateway makes exactly that one
    call and leaves the store and the page alone. The call carries the
    caller's [Authorization] header if there is one and [Bearer <token>]
    otherwise, and [Content-Type: application/json] unless the caller set
    that header. The outcome is the body of a 2xx answer, the mapped
    message of another answer, or the message of the network error. *)
Theorem gateway_single_call (url : string) (options : RequestInit)
    (w : World) :
  let n := length (netlog w) in
  let first := original url options w in
  isAuthenticated (Date_now env w) (storage w) = true ->
  match net env n first with
  | Resolved r => status r <> 401
  | Rejected _ => True
  end ->
  exists token,
    getAuthToken (storage w) = Some token /\ token <> "" /\
    headers (req_init first) !! "Authorization"
    = Some (default ("Bearer " +:+ token)
              (headers options !! "Authorization")) /\
    headers (req_init first) !! "Content-Type"
    = Some (default "application/json" (headers options !! "Content-Type")) /\
    method (req_init first) = method options /\
    body (req_init first) = body options /\
    makeAuthenticatedAPICall env url options w
    = (match net env n first with
       | Rejected msg => Err msg
       | Resolved r =>
           if ok r then json r
           else Err (handleAuthError (status r) (text r))
       end,
       {| storage := storage w; netlog := netlog w ++ [first];
          reloads := reloads w |}).
Proof.
  intros n first Hauth Hnot.
  destruct (isAuthenticated_token _ _ Hauth) as (token & Ht & Hne).
  exists token. split; [exact Ht|]. split; [exact Hne|].
  split; [now apply auth_header|]. split; [apply content_type_header|].
  split; [reflexivity|]. split; [reflexivity|].
  destruct (gateway_cases env url options w) as [[H _]|[_ H]];
    [congruence|]. cbn zeta in H. fold n first in H.
  destruct H as [(msg & H1 & Hrun)|[(r1 & H1 & Hs & Hrun)|(r1 & H1 & Hs & _)]].
  - rewrite Hrun, H1. reflexivity.
  - rewrite Hrun, H1. reflexivity.
  - fold n first in Hnot. rewrite H1 in Hnot. contradiction.
Qed.

Lemma gateway_calls (url : string) (options : RequestInit) (w : World) :
  exists calls,
    netlog (snd (makeAuthenticatedAPICall env url options w))
    = netlog w ++ calls /\
    (length calls <= 3)%nat /\
    Forall (gateway_call url options) calls.
Proof.
  pose proof (original_gateway_call url options) as Horig.
  assert (Hrefresh : forall rt, gateway_call url options (refresh_request rt))
    by (intros rt; right; now exists rt).
  destruct (gateway_cases env url options w) as [[_ H]|[_ H]];
    cbn zeta in H.
  { rewrite H. exists []. cbn [snd redirectToLogin netlog]. calls_ok. }
  destruct H as [(msg & _ & H)|[(r1 & _ & _ & H)|(r1 & _ & _ & H)]].
  { rewrite H. exists [original url options w]. calls_ok. }
  { rewrite H. exists [original url options w]. calls_ok. }
  destruct H as [[_ H]|(rt & _ & _ & H)].
  { rewrite H. exists [original url options w]. calls_ok. }
  cbn zeta in H. destruct H as [[_ H]|(rr & data & _ & _ & _ & H)].
  { rewrite H. exists [original url options w; refresh_request rt].
    cbn [snd redirectToLogin log_call netlog]. calls_ok. }
  cbn zeta in H.
  set (w2 := log_call (refresh_request rt) (log_call (original url options w) w))
    in *.
  set (w3 := with_storage (refreshed (Date_now env w2) data) w2) in *.
  destruct H as [[_ H]|[_ [(msg & _ & H)|(r2 & _ & H)]]].
  { rewrite H. exists [original url options w; refresh_request rt].
    unfold w3, w2. cbn [snd with_storage log_call netlog]. calls_ok. }
  { rewrite H. exists [original url options w; refresh_request rt;
                       original url options w3].
    unfold w3 at 2, w2. cbn [snd with_storage log_call netlog]. calls_ok. }
  rewrite H. exists [original url options w; refresh_request rt;
                     original url options w3].
  destruct (ok r2); [|destruct (status r2 =? 401)];
    unfold w3 at 2, w2;
    cbn [snd redirectToLogin with_storage log_call netlog]; calls_ok.
Qed.

(** X3: whatever the server answers, one call of the gateway makes at
    most three network calls, each of them either a call of the resource
    with the caller's method, body and headers or a call of the refresh
    endpoint; it reloads the page at most once; and in the store it
    touches the four session keys only, the coach record being removed or
    left as it was. *)
Theorem gateway_footprint (url : string) (options : RequestInit) (w : World) :
  let w' := snd (makeAuthenticatedAPICall env url options w) in
  (exists calls,
     netlog w' = netlog w ++ calls /\ (length calls <= 3)%nat /\
     Forall (gateway_call url options) calls) /\
  (reloads w' = reloads w \/ reloads w' = S (reloads w)) /\
  (forall k, k ∉ session_keys -> storage w' !! k = storage w !! k) /\
  (getItem "coach" (storage w') = None \/
   getItem "coach" (storage w') = getItem "coach" (storage w)).
Proof.
  intros w'. unfold w'. clear w'.
  split; [apply gateway_calls|].
  pose proof (fun ls => proj1 (proj2 (proj2 (clearAuthData_lookup ls))))
    as Hcoach.
  assert (Hout : forall w0 : World,
            storage w0 = storage w -> reloads w0 = reloads w ->
            (reloads (redirectToLogin w0) = reloads w \/
             reloads (redirectToLogin w0) = S (reloads w)) /\
            (forall k, k ∉ session_keys ->
                       storage (redirectToLogin w0) !! k = storage w !! k) /\
            (getItem "coach" (storage (redirectToLogin w0)) = None \/
             getItem "coach" (storage (redirectToLogin w0))
             = getItem "coach" (storage w))).
  { intros w0 Hs Hr. cbn [redirectToLogin reloads storage]. rewrite Hs, Hr.
    split; [now right|]. split; [intros; now apply clearAuthData_frame|].
    left. apply Hcoach. }
  assert (Hsame : forall w0 : World,
            storage w0 = storage w -> reloads w0 = reloads w ->
            (reloads w0 = reloads w \/ reloads w0 = S (reloads w)) /\
            (forall k, k ∉ session_keys -> storage w0 !! k = storage w !! k) /\
            (getItem "coach" (storage w0) = None \/
             getItem "coach" (storage w0) = getItem "coach" (storage w))).
  { intros w0 Hs Hr. rewrite Hs. auto. }
  destruct (gateway_cases env url options w) as [[_ H]|[_ H]];
    cbn zeta in H.
  { rewrite H. now apply Hout. }
  destruct H as [(msg & _ & H)|[(r1 & _ & _ & H)|(r1 & _ & _ & H)]].
  { rewrite H. now apply Hsame. }
  { rewrite H. now apply Hsame. }
  destruct H as [[_ H]|(rt & _ & _ & H)].
  { rewrite H. now apply Hout. }
  cbn zeta in H. destruct H as [[_ H]|(rr & data & _ & _ & _ & H)].
  { rewrite H. now apply Hout. }
  cbn zeta in H.
  set (w2 := log_call (refresh_request rt) (log_call (original url options w) w))
    in *.
  set (w3 := with_storage (refreshed (Date_now env w2) data) w2) in *.
  assert (Hnew : forall w0 : World,
            storage w0 = storage w3 -> reloads w0 = reloads w ->
            (reloads w0 = reloads w \/ reloads w0 = S (reloads w)) /\
            (forall k, k ∉ session_keys -> storage w0 !! k = storage w !! k) /\
            (getItem "coach" (storage w0) = None \/
             getItem "coach" (storage w0) = getItem "coach" (storage w))).
  { intros w0 Hs Hr. rewrite Hs.
    split; [now left|]. split; [intros; now apply refreshed_frame|].
    right. apply refreshed_coach. }
  destruct H as [[_ H]|[_ [(msg & _ & H)|(r2 & _ & H)]]].
  { rewrite H. now apply Hnew. }
  { rewrite H. now apply Hnew. }
  rewrite H. destruct (ok r2); [|destruct (status r2 =? 401)]; cbn [snd].
  - now apply Hnew.
  - cbn [redirectToLogin log_call reloads storage].
    split; [now right|].
    split; [intros; rewrite clearAuthData_frame by assumption;
            now apply refreshed_frame|].
    left. apply Hcoach.
  - now apply Hnew.
Qed.

End GatewayProperties.

Section GatewayOutcomes.

Context {T : Type} (env : Env T).

(** X4: the gateway reloads the page only together with a logout: when
    the number of reloads has changed, the call has failed with one of the
    two authentication messages, the four session keys are gone and the
    store holds no valid session at any time. *)
Theorem gateway_reload_clears_session (url : string) (options : RequestInit)
    (w : World) :
  let run := makeAuthenticatedAPICall env url options w in
  reloads (snd run) <> reloads w ->
  (fst run = Err "Authentication required" \/
   fst run = Err "Authentication failed") /\
  (forall k, k ∈ session_keys -> getItem k (storage (snd run)) = None) /\
  (forall now, isAuthenticated now (storage (snd run)) = false).
Proof.
  intros run Hre.
  assert (Hclear : forall ls,
            (forall k, k ∈ session_keys -> getItem k (clearAuthData ls) = None)
            /\ (forall now, isAuthenticated now (clearAuthData ls) = false)).
  { intros ls. split; [|intros; apply clearAuthData_not_authenticated].
    intros k Hk. destruct (clearAuthData_lookup ls) as (A & B & C & D).
    unfold session_keys in Hk.
    repeat (apply elem_of_cons in Hk as [->|Hk]; [assumption|]).
    inversion Hk. }
  destruct (gateway_cases env url options w) as [[_ H]|[_ H]];
    cbn zeta in H; fold run in H.
  { rewrite H in *. cbn [fst snd redirectToLogin storage].
    split; [now left | apply Hclear]. }
  destruct H as [(msg & _ & H)|[(r1 & _ & _ & H)|(r1 & _ & _ & H)]].
  { rewrite H in Hre. cbn in Hre. congruence. }
  { rewrite H in Hre. cbn in Hre. congruence. }
  destruct H as [[_ H]|(rt & _ & _ & H)].
  { rewrite H in *. cbn [fst snd redirectToLogin storage].
    split; [now right | apply Hclear]. }
  cbn zeta in H. destruct H as [[_ H]|(rr & data & _ & _ & _ & H)].
  { rewrite H in *. cbn [fst snd redirectToLogin storage].
    split; [now right | apply Hclear]. }
  cbn zeta in H.
  destruct H as [[_ H]|[_ [(msg & _ & H)|(r2 & _ & H)]]].
  { rewrite H in Hre. cbn in Hre. congruence. }
  { rewrite H in Hre. cbn in Hre. congruence. }
  rewrite H in *. clear H.
  destruct (ok r2); [cbn in Hre; congruence|].
  destruct (status r2 =? 401); [|cbn in Hre; congruence].
  cbn [fst snd redirectToLogin storage].
  split; [now right | apply Hclear].
Qed.

(** X5: the gateway invents no data. When a call succeeds with the value
    [v], the session was valid when the call began, the page has not been
    reloaded and the coach record is untouched; the last call of the log
    went to the resource, carried the access token that the store holds
    at the end (unless the caller set the header itself) and was answered
    with a 2xx response whose body is [v]. *)
Theorem gateway_success_is_server_data (url : string)
    (options : RequestInit) (w w' : World) (v : T) :
  makeAuthenticatedAPICall env url options w = (Ok v, w') ->
  isAuthenticated (Date_now env w) (storage w) = true /\
  reloads w' = reloads w /\
  getItem "coach" (storage w') = getItem "coach" (storage w) /\
  exists earlier q r token,
    netlog w' = earlier ++ [q] /\
    req_url q = url /\
    net env (length earlier) q = Resolved r /\
    ok r = true /\ json r = Ok v /\
    getAuthToken (storage w') = Some token /\ token <> "" /\
    headers (req_init q) !! "Authorization"
    = Some (default ("Bearer " +:+ token)
              (headers options !! "Authorization")).
Proof.
  intros Hrun.
  destruct (gateway_cases env url options w) as [[_ H]|[Hauth H]];
    cbn zeta in H; [congruence|].
  split; [exact Hauth|].
  destruct H as [(msg & _ & H)|[(r1 & H1 & _ & H)|(r1 & _ & _ & H)]];
    [congruence| |].
  { rewrite Hrun in H. destruct (ok r1) eqn:Hok; [|congruence].
    injection H as Hj ->; symmetry in Hj. cbn [log_call reloads storage netlog].
    split; [reflexivity|]. split; [reflexivity|].
    destruct (isAuthenticated_token _ _ Hauth) as (token & Ht & Hne).
    exists (netlog w), (original url options w), r1, token.
    repeat apply conj; try assumption; try reflexivity; try congruence.
    now apply auth_header. }
  destruct H as [[_ H]|(rt & _ & _ & H)]; [congruence|].
  cbn zeta in H. destruct H as [[_ H]|(rr & data & _ & _ & _ & H)];
    [congruence|].
  cbn zeta in H.
  set (w2 := log_call (refresh_request rt)
               (log_call (original url options w) w)) in *.
  set (w3 := with_storage (refreshed (Date_now env w2) data) w2) in *.
  destruct H as [[_ H]|[Hne [(msg & _ & H)|(r2 & H2 & H)]]];
    [congruence|congruence|].
  rewrite Hrun in H. destruct (ok r2) eqn:Hok;
    [|destruct (status r2 =? 401); congruence].
  injection H as Hj ->; symmetry in Hj.
  assert (Hlen : length (netlog w3) = S (S (length (netlog w)))).
  { unfold w3, w2. cbn [with_storage log_call netlog].
    rewrite !length_app. cbn. lia. }
  destruct (refresh_round_trip (Date_now env w2) data (storage w))
    as (Ht & _).
  split; [reflexivity|]. split; [apply refreshed_coach|].
  exists (netlog w3), (original url options w3), r2, (access_token data).
  rewrite Hlen.
  repeat apply conj; try assumption; try reflexivity.
  apply auth_header; assumption.
Qed.

(** X6: a refresh endpoint that answers 2xx with a body that is not JSON
    counts as a failed refresh: after the 401 and the refresh call, the
    session is removed, the page is reloaded and the call fails with
    "Authentication failed", without a retry. *)
Theorem refresh_bad_json_clears_session (url : string)
    (options : RequestInit) (w : World) (r1 : Response T) (rt : string)
    (rr : Response TokenPayload) (e : string) :
  let n := length (netlog w) in
  let first := original url options w in
  isAuthenticated (Date_now env w) (storage w) = true ->
  net env n first = Resolved r1 ->
  status r1 = 401 ->
  getRefreshToken (storage w) = Some rt -> rt <> "" ->
  auth_net env (S n) (refresh_request rt) = Resolved rr ->
  ok rr = true ->
  json rr = Err e ->
  makeAuthenticatedAPICall env url options w
  = (Err "Authentication failed",
     {| storage := clearAuthData (storage w);
        netlog := netlog w ++ [first; refresh_request rt];
        reloads := S (reloads w) |}).
Proof.
  intros n first Hauth H1 H401 Hrt Hne H2 Hok Hj.
  destruct (gateway_cases env url options w) as [[H _]|[_ H]];
    [congruence|]. cbn zeta in H. fold n first in H.
  destruct H as [(msg & H & _)|[(r & H & Hs & _)|(r & H & _ & Hc)]];
    [congruence|congruence|].
  destruct Hc as [[Hc _]|(rt' & Hrt' & _ & Hc)].
  { rewrite Hrt in Hc. apply truthy_string_true in Hne. cbn in Hc. congruence. }
  assert (rt' = rt) as -> by congruence.
  cbn zeta in Hc. destruct Hc as [[_ Hc]|(rr' & data & H2' & _ & Hj' & _)].
  - rewrite Hc. unfold redirectToLogin. cbn [log_call storage netlog reloads].
    rewrite <- app_assoc. reflexivity.
  - congruence.
Qed.

(** X7: a refresh endpoint that answers 2xx with an empty access token
    makes the call fail with "Authentication failed" after two network
    calls, but the logout does not happen: the page is not reloaded, the
    answer of the refresh is stored and the coach record stays, while the
    stored session is not valid at any time. *)
Theorem refresh_empty_token_keeps_store (url : string)
    (options : RequestInit) (w : World) (r1 : Response T) (rt : string)
    (rr : Response TokenPayload) (data : TokenPayload) :
  let n := length (netlog w) in
  let first := original url options w in
  isAuthenticated (Date_now env w) (storage w) = true ->
  net env n first = Resolved r1 ->
  status r1 = 401 ->
  getRefreshToken (storage w) = Some rt -> rt <> "" ->
  auth_net env (S n) (refresh_request rt) = Resolved rr ->
  ok rr = true ->
  json rr = Ok data ->
  access_token data = "" ->
  exists w',
    makeAuthenticatedAPICall env url options w
    = (Err "Authentication failed", w') /\
    netlog w' = netlog w ++ [first; refresh_request rt] /\
    reloads w' = reloads w /\
    storage w' = refreshed (clock env (S (S n))) data (storage w) /\
    getRefreshToken (storage w') = Some (refresh_token data) /\
    getItem "coach" (storage w') = getItem "coach" (storage w) /\
    (forall now, isAuthenticated now (storage w') = false).
Proof.
  intros n first Hauth H1 H401 Hrt Hne H2 Hok Hj Hat.
  destruct (gateway_cases env url options w) as [[H _]|[_ H]];
    [congruence|]. cbn zeta in H. fold n first in H.
  destruct H as [(msg & H & _)|[(r & H & Hs & _)|(r & H & _ & Hc)]];
    [congruence|congruence|].
  destruct Hc as [[Hc _]|(rt' & Hrt' & _ & Hc)].
  { rewrite Hrt in Hc. apply truthy_string_true in Hne. cbn in Hc. congruence. }
  assert (rt' = rt) as -> by congruence.
  cbn zeta in Hc. destruct Hc as [[Hc _]|(rr' & data' & H2' & _ & Hj' & Hc)].
  { rewrite H2 in Hc. destruct Hc as [Hc|[e' Hc]]; congruence. }
  assert (rr' = rr) as -> by congruence.
  assert (data' = data) as -> by congruence.
  cbn zeta in Hc. destruct Hc as [[_ Hc]|[Hc _]]; [|congruence].
  eexists. split; [exact Hc|].
  cbn [with_storage log_call storage netlog reloads].
  split; [rewrite <- app_assoc; reflexivity|]. split; [reflexivity|].
  assert (Hnow : Date_now env (log_call (refresh_request rt) (log_call first w))
                 = clock env (S (S n))).
  { unfold Date_now. cbn [log_call netlog]. rewrite !length_app. cbn.
    f_equal. unfold n. lia. }
  rewrite Hnow.
  split; [reflexivity|].
  destruct (refresh_round_trip (clock env (S (S n))) data (storage w))
    as (Ha & Hr & _).
  split; [exact Hr|]. split; [apply refreshed_coach|].
  intros now. unfold isAuthenticated. rewrite Ha, Hat. reflexivity.
Qed.

End GatewayOutcomes.

(** ** The life of a session *)

(** X8: a session runs out once: if the check accepts a store at some
    time, it accepts the same store at every earlier time, and a store it
    rejects stays rejected later. *)
Theorem session_expires_once (now later : Z) (ls : gmap string string) :
  now <= later ->
  (isAuthenticated later ls = true -> isAuthenticated now ls = true) /\
  (isAuthenticated now ls = false -> isAuthenticated later ls = false).
Proof.
  intros Hle.
  assert (H : isAuthenticated later ls = true -> isAuthenticated now ls = true).
  { rewrite !isAuthenticated_iff.
    intros (t & e & x & Ht & Hne & He & Hp & Hlt).
    exists t, e, x. repeat (split; [assumption|]). lia. }
  split; [exact H|].
  intros Hn. destruct (isAuthenticated later ls); [|reflexivity].
  rewrite H in Hn by reflexivity. discriminate.
Qed.

(** The session keys after a granted login. *)
Lemma granted_store (stringify : option AuthPage.Coach -> string)
    (typeError : string) (now : Z) (loginData : AuthPage.LoginResponse)
    (ls : gmap string string) :
  let ls' :=
    AuthPage.stored
      (AuthPage.handleLogin stringify typeError now
         (AuthPage.Granted loginData) ls) in
  getAuthToken ls' = Some (AuthPage.access_token loginData) /\
  getRefreshToken ls' = Some (AuthPage.refresh_token loginData) /\
  getItem "coach" ls' = Some (stringify (AuthPage.coach loginData)) /\
  getItem "expires_at" ls'
  = Some (AuthPage.expiry_text now (AuthPage.expires_in loginData)).
Proof.
  cbn zeta. unfold getAuthToken, getRefreshToken, getItem.
  cbn [AuthPage.handleLogin].
  destruct (AuthPage.coach loginData) as [c|]; cbn [AuthPage.stored];
    unfold setItem;
    (split; [rewrite !lookup_insert_ne by discriminate;
             apply lookup_insert_eq|]);
    (split; [rewrite !lookup_insert_ne by discriminate;
             apply lookup_insert_eq|]);
    (split; [rewrite !lookup_insert_ne by discriminate;
             apply lookup_insert_eq|]);
    apply lookup_insert_eq.
Qed.

Lemma window_of_store (at_ expiry : Z) (token : string)
    (ls : gmap string string) :
  getAuthToken ls = Some token ->
  getItem "expires_at" ls = Some (JS.Number_toString expiry) ->
  JS.safe_integer expiry ->
  isAuthenticated at_ ls = true <-> token <> "" /\ at_ < expiry.
Proof.
  intros Ht He Hsafe. rewrite isAuthenticated_iff, Ht, He. split.
  - intros (t & e & x & [= <-] & Hne & [= <-] & Hp & Hlt).
    rewrite parseInt_Number_toString in Hp by exact Hsafe.
    injection Hp as <-. auto.
  - intros [Hne Hlt]. eexists _, _, _.
    split; [reflexivity|]. split; [exact Hne|]. split; [reflexivity|].
    split; [now apply parseInt_Number_toString | exact Hlt].
Qed.



(** X10: [clearAuthData] is a logout: the store it leaves holds no valid
    session at any time and yields no [Authorization] header; clearing
    twice is clearing once; and keys other than the four session keys keep
    their values. *)
Theorem clearAuthData_logs_out (ls : gmap string string) :
  (forall now, isAuthenticated now (clearAuthData ls) = false) /\
  getAuthHeaders (clearAuthData ls)
  = {[ "Content-Type" := "application/json" ]} /\
  clearAuthData (clearAuthData ls) = clearAuthData ls /\
  (forall k, k ∉ session_keys -> clearAuthData ls !! k = ls !! k).
Proof.
  split; [intros; apply clearAuthData_not_authenticated|].
  destruct (clearAuthData_lookup ls) as (A & B & C & D).
  split.
  { unfold getAuthHeaders, getAuthToken. rewrite A. reflexivity. }
  split; [|intros; now apply clearAuthData_frame].
  unfold getItem in *.
  unfold clearAuthData at 1. unfold removeItem.
  rewrite !delete_id; [reflexivity|..]; try assumption.
  - rewrite lookup_delete_ne by discriminate. assumption.
  - rewrite !lookup_delete_ne by discriminate. assumption.
  - rewrite !lookup_delete_ne by discriminate. assumption.
Qed.

Lemma gateway_requires_session_witness :
  exists w',
    makeAuthenticatedAPICall DemoGateway.env_up "http://localhost:3100/api/courses"
      no_options DemoGateway.logged_out
    = (Err "Authentication required", w') /\
    netlog w' = [] /\ reloads w' = 1%nat /\
    storage w' !! "theme" = Some "dark".
Proof.
  destruct (gateway_requires_session DemoGateway.env_up
              "http://localhost:3100/api/courses" no_options DemoGateway.logged_out)
    as (w' & Hrun & Hlog & Hre & _ & Hframe & _).
  - vm_compute. reflexivity.
  - exists w'. split; [exact Hrun|]. split; [exact Hlog|].
    split; [exact Hre|]. rewrite Hframe; [reflexivity|].
    unfold session_keys. intros H.
    repeat (apply elem_of_cons in H as [H|H]; [discriminate H|]).
    inversion H.
Defined.

Lemma gateway_single_call_witness :
  makeAuthenticatedAPICall DemoGateway.env_up "http://localhost:3100/api/courses"
    no_options Demo.world
  = (Ok 7,
     {| storage := Demo.session;
        netlog := [original "http://localhost:3100/api/courses" no_options
                     Demo.world];
        reloads := 0 |}).
Proof.
  destruct (gateway_single_call DemoGateway.env_up
              "http://localhost:3100/api/courses" no_options Demo.world)
    as (token & _ & _ & _ & _ & _ & _ & Hrun).
  - vm_compute. reflexivity.
  - cbn. discriminate.
  - rewrite Hrun. reflexivity.
Defined.

Lemma gateway_reload_witness :
  fst (makeAuthenticatedAPICall Demo.env_revoked
         "http://localhost:3100/api/courses" no_options Demo.world)
  = Err "Authentication required" \/
  fst (makeAuthenticatedAPICall Demo.env_revoked
         "http://localhost:3100/api/courses" no_options Demo.world)
  = Err "Authentication failed".
Proof.
  apply (gateway_reload_clears_session Demo.env_revoked
           "http://localhost:3100/api/courses" no_options Demo.world).
  vm_compute. discriminate.
Defined.

Lemma gateway_success_witness :
  isAuthenticated 1000 Demo.session = true /\
  exists token,
    getAuthToken
      (storage
         (snd (makeAuthenticatedAPICall Demo.env_expired
                 "http://localhost:3100/api/courses" no_options Demo.world)))
    = Some token.
Proof.
  destruct (gateway_success_is_server_data Demo.env_expired
              "http://localhost:3100/api/courses" no_options Demo.world
              (snd (makeAuthenticatedAPICall Demo.env_expired
                      "http://localhost:3100/api/courses" no_options
                      Demo.world)) 7)
    as (Hauth & _ & _ & earlier & q & r & token & _ & _ & _ & _ & _ & Ht & _).
  - vm_compute. reflexivity.
  - split; [exact Hauth|]. exists token. exact Ht.
Defined.

Lemma refresh_bad_json_witness :
  makeAuthenticatedAPICall DemoGateway.env_garbled_refresh
    "http://localhost:3100/api/courses" no_options Demo.world
  = (Err "Authentication failed",
     {| storage := clearAuthData Demo.session;
        netlog := [original "http://localhost:3100/api/courses" no_options
                     Demo.world;
                   refresh_request "refresh-1"];
        reloads := 1 |}).
Proof.
  apply (refresh_bad_json_clears_session DemoGateway.env_garbled_refresh
           "http://localhost:3100/api/courses" no_options Demo.world
           {| status := 401; text := "token expired"; json := Err "no body" |}
           "refresh-1"
           {| status := 200; text := "<html>";
              json := Err "Unexpected token <" |}
           "Unexpected token <");
    try reflexivity; try discriminate.
Defined.

Lemma refresh_empty_token_witness :
  exists w',
    makeAuthenticatedAPICall DemoGateway.env_empty_token
      "http://localhost:3100/api/courses" no_options Demo.world
    = (Err "Authentication failed", w') /\
    reloads w' = 0%nat /\
    getItem "coach" (storage w') = Some "{}" /\
    isAuthenticated 1000 (storage w') = false.
Proof.
  destruct (refresh_empty_token_keeps_store DemoGateway.env_empty_token
              "http://localhost:3100/api/courses" no_options Demo.world
              {| status := 401; text := "token expired";
                 json := Err "no body" |}
              "refresh-1"
              {| status := 200; text := "";
                 json := Ok {| access_token := "";
                               refresh_token := "refresh-2";
                               expires_in := 3600 |} |}
              {| access_token := ""; refresh_token := "refresh-2";
                 expires_in := 3600 |})
    as (w' & Hrun & _ & Hre & _ & _ & Hcoach & Hauth);
    try reflexivity; try discriminate.
  exists w'. split; [exact Hrun|]. split; [exact Hre|].
  split; [rewrite Hcoach; reflexivity | apply Hauth].
Defined.

Lemma session_expires_once_witness :
  isAuthenticated 1000 Demo.session = true.
Proof.
  apply (session_expires_once 1000 4999 Demo.session); [lia|].
  vm_compute. reflexivity.
Defined.

(** ** The query strings *)

Section QueryStrings.

Lemma occurrences_app (c : ascii) (s t : string) :
  occurrences c (s +:+ t) = (occurrences c s + occurrences c t)%nat.
Proof.
  induction s as [|a s IH]; [reflexivity|].
  rewrite str_app_cons. cbn [occurrences]. rewrite IH. lia.
Qed.

Lemma hex_digits_unreserved (a : ascii) :
  JS.uri_unreserved (JS.hex_digit (JS.code a / 16)) = true /\
  JS.uri_unreserved (JS.hex_digit (JS.code a mod 16)) = true.
Proof.
  destruct a as [[] [] [] [] [] [] [] []]; split; vm_compute; reflexivity.
Qed.

Lemma delimiter_reserved (c : ascii) :
  url_delimiter c = true ->
  JS.uri_unreserved c = false /\ c <> "%"%char /\ c <> "-"%char /\
  JS.is_digit c = false.
Proof.
  unfold url_delimiter. rewrite !orb_true_iff, !Ascii.eqb_eq.
  intros [[[[->| ->]| ->]| ->]| ->]; repeat split; discriminate.
Qed.

Lemma occurrences_encode (c : ascii) (s : string) :
  url_delimiter c = true ->
  occurrences c (JS.encodeURIComponent s) = 0%nat.
Proof.
  intros Hc. apply delimiter_reserved in Hc as (Hu & Hp & _).
  assert (Hne : forall a, JS.uri_unreserved a = true -> Ascii.eqb a c = false).
  { intros a Ha. apply Ascii.eqb_neq. congruence. }
  induction s as [|a s IH]; [reflexivity|].
  cbn [JS.encodeURIComponent].
  destruct (JS.uri_unreserved a) eqn:Ha; cbn [occurrences].
  - rewrite (Hne a Ha), IH. reflexivity.
  - destruct (hex_digits_unreserved a) as [H1 H2].
    rewrite (Hne _ H1), (Hne _ H2), IH.
    assert (Ascii.eqb "%" c = false) as ->
      by (apply Ascii.eqb_neq; congruence).
    reflexivity.
Qed.

Lemma occurrences_uint (c : ascii) (d : Decimal.uint) :
  JS.is_digit c = false ->
  occurrences c (NilEmpty.string_of_uint d) = 0%nat.
Proof.
  intros Hc.
  assert (Hne : forall a, JS.is_digit a = true -> Ascii.eqb a c = false).
  { intros a Ha. apply Ascii.eqb_neq. congruence. }
  induction d; cbn [NilEmpty.string_of_uint occurrences];
    rewrite ?Hne by reflexivity; auto.
Qed.

Lemma occurrences_number (c : ascii) (n : Z) :
  url_delimiter c = true ->
  occurrences c (JS.String_of_number n) = 0%nat.
Proof.
  intros Hc. apply delimiter_reserved in Hc as (_ & _ & Hm & Hd).
  assert (Hu : forall d, occurrences c (NilZero.string_of_uint d) = 0%nat).
  { intros d. destruct d; try (apply (occurrences_uint c _ Hd)).
    cbn [NilZero.string_of_uint occurrences].
    assert (Ascii.eqb "0" c = false) as ->; [|reflexivity].
    apply Ascii.eqb_neq. intros <-. discriminate Hd. }
  unfold JS.String_of_number.
  destruct (Z.to_int n) as [d|d]; cbn [NilZero.string_of_int]; [apply Hu|].
  cbn [occurrences]. rewrite Hu.
  assert (Ascii.eqb "-" c = false) as ->; [|reflexivity].
  apply Ascii.eqb_neq. congruence.
Qed.

End QueryStrings.

Ltac count_delimiters :=
  rewrite ?occurrences_app, ?occurrences_encode, ?occurrences_number
    by reflexivity;
  reflexivity.

(** X13: a filter value cannot change the structure of the students URL.
    Whatever the status and the search text are, the URL has one [?] when
    there is a parameter and none otherwise, one [=] for each parameter,
    one [&] between two parameters, and neither [#] nor a space. *)
Theorem students_url_separators (filters : option Students.Filters) :
  let url := Students.students_url filters in
  let n := length (Students.students_queryParams filters) in
  occurrences "?" url = (if (0 <? n)%nat then 1 else 0)%nat /\
  occurrences "=" url = n /\
  occurrences "&" url = pred n /\
  occurrences "#" url = 0%nat /\
  occurrences " " url = 0%nat.
Proof.
  unfold Students.students_url, Students.students_queryParams.
  destruct filters as [[cid st se]|];
    cbn [Students.opt_course_id Students.opt_status Students.opt_search
         Students.course_id Students.status Students.search];
    [|repeat split; reflexivity].
  destruct cid as [id|]; [destruct (JS.truthy_number id)|];
    (destruct st as [s1|]; [destruct (JS.truthy_string s1)|]);
    (destruct se as [s2|]; [destruct (JS.truthy_string s2)|]);
    cbn [app length Nat.ltb Nat.leb JS.join Nat.pred];
    repeat apply conj; count_delimiters.
Qed.


(** ** Objects and the transformed courses *)

Section Objects.

Lemma get_set_eq (k : string) (v : JValue) (o : JObject) :
  Obj.get k (Obj.set k v o) = v.
Proof.
  induction o as [|[k' v'] o IH]; cbn [Obj.set Obj.get].
  - now rewrite String.eqb_refl.
  - destruct (String.eqb k k') eqn:E; cbn [Obj.get]; rewrite E; auto.
Qed.

Lemma get_set_ne (k k' : string) (v : JValue) (o : JObject) :
  k <> k' -> Obj.get k (Obj.set k' v o) = Obj.get k o.
Proof.
  intros Hne. apply String.eqb_neq in Hne.
  induction o as [|[k2 v2] o IH]; cbn [Obj.set Obj.get].
  - now rewrite Hne.
  - destruct (String.eqb k' k2) eqn:E; cbn [Obj.get].
    + apply String.eqb_eq in E as <-. now rewrite Hne.
    + destruct (String.eqb k k2); auto.
Qed.

Lemma keys_set (k : string) (v : JValue) (o : JObject) (x : string) :
  x ∈ map fst o -> x ∈ map fst (Obj.set k v o).
Proof.
  induction o as [|[k' v'] o IH]; cbn [Obj.set map fst].
  - intros H. inversion H.
  - destruct (String.eqb k k'); cbn [map fst]; [auto|].
    rewrite !elem_of_cons. intros [->|H]; auto.
Qed.

Lemma keys_extend (o : JObject) (kvs : list (string * JValue)) (x : string) :
  x ∈ map fst o -> x ∈ map fst (Obj.extend o kvs).
Proof.
  unfold Obj.extend. revert o.
  induction kvs as [|[k v] kvs IH]; intros o H; cbn [fold_left]; [exact H|].
  apply IH. now apply keys_set.
Qed.

Lemma get_extend_other (o : JObject) (kvs : list (string * JValue))
    (k : string) :
  k ∉ map fst kvs -> Obj.get k (Obj.extend o kvs) = Obj.get k o.
Proof.
  unfold Obj.extend. revert o.
  induction kvs as [|[k' v] kvs IH]; intros o H; cbn [fold_left]; [reflexivity|].
  cbn [map fst] in H. apply not_elem_of_cons in H as [Hne H].
  rewrite IH by exact H. cbn [fst snd]. now apply get_set_ne.
Qed.

End Objects.

Ltac field_of_literal :=
  unfold Obj.extend; cbn [fold_left fst snd];
  rewrite ?get_set_ne by discriminate; apply get_set_eq.

(** X15: the object that the courses hook builds from a course of the
    server keeps every property of that course under its name, those that
    the hook defines itself apart: [status] is "live" for an active course
    and "draft" otherwise, whatever the server sent under that name;
    [version] is the server's unless that is missing or falsy, and then 1;
    [baseId], [enrolledStudents], [completionRate] and [updatedAt] repeat
    [id], [student_count], [completion_rate] and [created_at]. The students
    hook does the same with its five properties. *)
Theorem transforms_keep_api_fields (toLocaleString : JValue -> string)
    (course student : JObject) :
  let c := Courses.transformCourse course in
  let s := Students.transformStudent toLocaleString student in
  (forall k, k ∈ map fst course -> k ∈ map fst c) /\
  (forall k, k ∉ CoursesTab.frontend_keys -> Obj.get k c = Obj.get k course) /\
  Obj.get "status" c
  = (if CoursesTab.is_active course then JStr "live" else JStr "draft") /\
  Obj.get "version" c
  = (if Obj.truthy (Obj.get "version" course) then Obj.get "version" course
     else JNum 1) /\
  Obj.get "baseId" c = Obj.get "id" course /\
  Obj.get "enrolledStudents" c = Obj.get "student_count" course /\
  Obj.get "completionRate" c = Obj.get "completion_rate" course /\
  Obj.get "updatedAt" c = Obj.get "created_at" course /\
  (forall k, k ∈ map fst student -> k ∈ map fst s) /\
  (forall k,
     k ∉ ["enrolledCourses"; "progress"; "joinedAt"; "lastActivity";
          "courses_enrolled"] ->
     Obj.get k s = Obj.get k student) /\
  Obj.get "courses_enrolled" s
  = (if Obj.truthy (Obj.get "courses_enrolled" student)
     then Obj.get "courses_enrolled" student else JNum 0) /\
  Obj.get "joinedAt" s = Obj.get "created_at" student /\
  Obj.get "lastActivity" s
  = (if Obj.truthy (Obj.get "last_active" student)
     then JStr (toLocaleString (Obj.get "last_active" student))
     else JStr "No activity").
Proof.
  cbn zeta. unfold Courses.transformCourse, Students.transformStudent.
  split; [intros k; apply keys_extend|].
  split; [intros k Hk; apply get_extend_other; exact Hk|].
  split; [field_of_literal|]. split; [field_of_literal|].
  split; [field_of_literal|]. split; [field_of_literal|].
  split; [field_of_literal|]. split; [field_of_literal|].
  split; [intros k; apply keys_extend|].
  split; [intros k Hk; apply get_extend_other; exact Hk|].
  split; [field_of_literal|]. split; [field_of_literal|].
  field_of_literal.
Qed.

Lemma transformCourse_status (course : JObject) (s : string) :
  CoursesTab.has_status s (Courses.transformCourse course)
  = String.eqb (if CoursesTab.is_active course then "live" else "draft") s.
Proof.
  unfold CoursesTab.has_status.
  assert (Obj.get "status" (Courses.transformCourse course)
          = if CoursesTab.is_active course then JStr "live" else JStr "draft")
    as -> by (unfold Courses.transformCourse; field_of_literal).
  destruct (CoursesTab.is_active course); reflexivity.
Qed.

Lemma filter_map_transformCourse (s : string) (p : JObject -> bool)
    (api : list JObject) :
  (forall c, CoursesTab.has_status s (Courses.transformCourse c) = p c) ->
  List.filter (CoursesTab.has_status s) (map Courses.transformCourse api)
  = map Courses.transformCourse (List.filter p api).
Proof.
  intros H. induction api as [|c api IH]; [reflexivity|].
  cbn [map List.filter]. rewrite H, IH. destruct (p c); reflexivity.
Qed.

(** X16: what the courses tab shows once the courses hook has an answer.
    The courses of the parent are ignored, also when the answer is the
    empty list; the live courses are the server's active courses and the
    drafts are all the others, in the server's order; together they are
    all the courses, and the archive is empty. *)
Theorem api_courses_are_live_or_draft (api : list JObject)
    (propCourses : option (list JObject)) :
  let courses :=
    CoursesTab.courses (Some (map Courses.transformCourse api)) propCourses in
  courses = map Courses.transformCourse api /\
  CoursesTab.liveCourses courses
  = map Courses.transformCourse (List.filter CoursesTab.is_active api) /\
  CoursesTab.draftCourses courses
  = map Courses.transformCourse
      (List.filter (fun c => negb (CoursesTab.is_active c)) api) /\
  CoursesTab.archivedCourses courses = [] /\
  (length (CoursesTab.liveCourses courses)
   + length (CoursesTab.draftCourses courses) = length api)%nat.
Proof.
  cbn zeta. cbn [CoursesTab.courses].
  unfold CoursesTab.liveCourses, CoursesTab.draftCourses,
    CoursesTab.archivedCourses.
  assert (Hlive : forall c,
            CoursesTab.has_status "live" (Courses.transformCourse c)
            = CoursesTab.is_active c).
  { intros c. rewrite transformCourse_status.
    destruct (CoursesTab.is_active c); reflexivity. }
  assert (Hdraft : forall c,
            CoursesTab.has_status "draft" (Courses.transformCourse c)
            = negb (CoursesTab.is_active c)).
  { intros c. rewrite transformCourse_status.
    destruct (CoursesTab.is_active c); reflexivity. }
  assert (Harch : forall c,
            CoursesTab.has_status "archived" (Courses.transformCourse c)
            = false).
  { intros c. rewrite transformCourse_status.
    destruct (CoursesTab.is_active c); reflexivity. }
  rewrite (filter_map_transformCourse "live" _ api Hlive).
  rewrite (filter_map_transformCourse "draft" _ api Hdraft).
  rewrite (filter_map_transformCourse "archived" (fun _ => false) api Harch).
  split; [reflexivity|]. split; [reflexivity|]. split; [reflexivity|].
  split.
  - induction api as [|c api IH]; [reflexivity | exact IH].
  - rewrite !length_map.
    induction api as [|c api IH]; [reflexivity|].
    cbn [List.filter]. destruct (CoursesTab.is_active c); cbn [negb length]; lia.
Qed.

(** ** The hooks and the network *)

Lemma gateway_first_call {T} (env : Env T) (url : string)
    (options : RequestInit) (w : World) :
  isAuthenticated (Date_now env w) (storage w) = true ->
  exists later,
    netlog (snd (makeAuthenticatedAPICall env url options w))
    = netlog w ++ original url options w :: later.
Proof.
  intros Hauth.
  destruct (gateway_cases env url options w) as [[H _]|[_ H]];
    [congruence|]. cbn zeta in H.
  destruct H as [(msg & _ & H)|[(r1 & _ & _ & H)|(r1 & _ & _ & H)]];
    [rewrite H; now exists []|rewrite H; now exists []|].
  destruct H as [[_ H]|(rt & _ & _ & H)]; [rewrite H; now exists []|].
  cbn zeta in H. destruct H as [[_ H]|(rr & data & _ & _ & _ & H)].
  { rewrite H. exists [refresh_request rt].
    cbn [snd redirectToLogin log_call netlog]. now rewrite <- app_assoc. }
  cbn zeta in H.
  destruct H as [[_ H]|[_ [(msg & _ & H)|(r2 & _ & H)]]].
  - rewrite H. exists [refresh_request rt].
    cbn [snd with_storage log_call netlog]. now rewrite <- app_assoc.
  - rewrite H. eexists [refresh_request rt; _].
    cbn [snd with_storage log_call netlog]. rewrite <- !app_assoc. reflexivity.
  - rewrite H. eexists [refresh_request rt; _].
    destruct (ok r2); [|destruct (status r2 =? 401)];
      cbn [snd redirectToLogin with_storage log_call netlog];
      rewrite <- !app_assoc; reflexivity.
Qed.

Ltac reader_run :=
  intros ? ? ?;
  match goal with
  | |- context [isAuthenticated (Date_now ?env ?w) ?s] =>
      destruct (isAuthenticated (Date_now env w) s) eqn:?;
      [ match goal with
        | Hauth : _ = true
          |- context [makeAuthenticatedAPICall env ?u ?o w] =>
            pose proof (gateway_first_call env u o w Hauth);
            destruct (makeAuthenticatedAPICall env u o w) as [[?|?] ?]
        end
      | ]
  end;
  cbn [fst snd] in *;
  repeat match goal with
         | |- context [if ?b then _ else _] => destruct b
         end;
  (split; [reflexivity|]);
  (split; [intros; first [reflexivity | discriminate]|]);
  intros; first [discriminate | split; [reflexivity | assumption]].

(** X17: each of the eight resource hooks ends its run with [loading]
    false, leaves the store, the network and the page alone when there is
    no valid session, and otherwise makes one call of the gateway, without
    options, for its own endpoint; the first network call of the run is
    that of the endpoint with the headers of the stored session. The
    student-detail hook does so for an id other than zero. *)
Theorem hooks_read_their_endpoints :
  reads_endpoint (API_BASE_URL +:+ "/api/dashboard/metrics")
    Metrics.useDashboardMetrics /\
  reads_endpoint (API_BASE_URL +:+ "/api/dashboard/student-status")
    Status.useStudentStatus /\
  reads_endpoint (API_BASE_URL +:+ "/api/courses") Courses.useCourses /\
  (forall toLocaleString filters,
     reads_endpoint (Students.students_url filters)
       (fun env => Students.useStudents toLocaleString env filters)) /\
  (forall studentId,
     studentId <> 0 ->
     reads_endpoint
       (API_BASE_URL +:+ "/api/students/" +:+ JS.String_of_number studentId)
       (fun env => StudentDetail.useStudentDetail env (Some studentId))) /\
  (forall filters,
     reads_endpoint (Leaderboard.leaderboard_url filters)
       (fun env => Leaderboard.useLeaderboard env filters)) /\
  reads_endpoint (API_BASE_URL +:+ "/api/supercoaches")
    SuperCoaches.useSuperCoaches /\
  reads_endpoint (API_BASE_URL +:+ "/api/conversations")
    Conversations.useConversations.
Proof.
  repeat apply conj.
  - unfold reads_endpoint, Metrics.useDashboardMetrics, Metrics.fetchMetrics.
    reader_run.
  - unfold reads_endpoint, Status.useStudentStatus, Status.fetchStudentStatus.
    reader_run.
  - unfold reads_endpoint, Courses.useCourses, Courses.fetchCourses.
    reader_run.
  - intros toLocaleString filters.
    unfold reads_endpoint, Students.useStudents, Students.fetchStudents.
    reader_run.
  - intros studentId Hid.
    unfold reads_endpoint, StudentDetail.useStudentDetail,
      StudentDetail.fetchStudentDetail, JS.truthy_number.
    apply Z.eqb_neq in Hid. rewrite Hid. cbn [negb]. reader_run.
  - intros filters.
    unfold reads_endpoint, Leaderboard.useLeaderboard,
      Leaderboard.fetchLeaderboard.
    reader_run.
  - unfold reads_endpoint, SuperCoaches.useSuperCoaches,
      SuperCoaches.fetchSuperCoaches, SuperCoaches.fetchSuperCoaches_settle.
    reader_run.
  - unfold reads_endpoint, Conversations.useConversations,
      Conversations.fetchConversations,
      Conversations.fetchConversations_settle.
    reader_run.
Qed.

Lemma hooks_read_their_endpoints_witness :
  snd (Courses.useCourses Demo.env_courses_down initial_state
         DemoGateway.logged_out)
  = DemoGateway.logged_out.
Proof.
  destruct hooks_read_their_endpoints as (_ & _ & Hcourses & _).
  destruct (Hcourses Demo.env_courses_down initial_state DemoGateway.logged_out)
    as (_ & Hout & _).
  apply Hout. vm_compute. reflexivity.
Defined.

(** X18: a dashboard mounted over a store whose session is not valid at
    the times at which its four effects run (no session at all, an expired
    one, or what the gateway leaves after a logout) makes no network call,
    does not touch the store and does not reload the page; its four hooks
    end at once, and it shows no data, [loading] false and the error
    "Authentication required". *)
Theorem dashboard_without_session (toLocaleString : JValue -> string)
    (em : Env DashboardMetrics) (es : Env StudentStatus)
    (ec est : Env (list JObject)) (w : World) :
  isAuthenticated (Date_now em w) (storage w) = false ->
  isAuthenticated (Date_now es w) (storage w) = false ->
  isAuthenticated (Date_now ec w) (storage w) = false ->
  isAuthenticated (Date_now est w) (storage w) = false ->
  let m := Metrics.useDashboardMetrics em initial_state w in
  let s := Status.useStudentStatus es initial_state w in
  let c := Courses.useCourses ec initial_state w in
  let st := Students.useStudents toLocaleString est None initial_state w in
  snd m = w /\ snd s = w /\ snd c = w /\ snd st = w /\
  Dashboard.useDashboardData (fst m) (fst s) (fst c) (fst st)
  = {| Dashboard.d_metrics := None;
       Dashboard.d_studentStatus := None;
       Dashboard.d_courses := None;
       Dashboard.d_students := None;
       Dashboard.d_loading := false;
       Dashboard.d_error := Some "Authentication required" |}.
Proof.
  intros Hm Hs Hc Hst. cbn zeta.
  unfold Metrics.useDashboardMetrics, Status.useStudentStatus,
    Courses.useCourses, Students.useStudents.
  rewrite Hm, Hs, Hc, Hst. cbn [fst snd].
  repeat (split; [reflexivity|]). reflexivity.
Qed.

Lemma dashboard_without_session_witness :
  isAuthenticated 1000 Demo.session = true /\
  Dashboard.d_error
    (Dashboard.useDashboardData
       (fst (Metrics.useDashboardMetrics DemoHooks.late initial_state
               Demo.world))
       (fst (Status.useStudentStatus DemoHooks.late initial_state
               Demo.world))
       (fst (Courses.useCourses DemoHooks.late initial_state Demo.world))
       (fst (Students.useStudents Demo.locale DemoHooks.late None
               initial_state Demo.world)))
  = Some "Authentication required".
Proof.
  split; [vm_compute; reflexivity|].
  pose proof (dashboard_without_session Demo.locale DemoHooks.late
                DemoHooks.late DemoHooks.late DemoHooks.late Demo.world
                eq_refl eq_refl eq_refl eq_refl) as H.
  cbn zeta in H. destruct H as (_ & _ & _ & _ & H).
  exact (f_equal Dashboard.d_error H).
Defined.

(** ** The hooks with a fallback *)

Lemma includes_app_r (a b sub : string) :
  JS.includes b sub = true -> JS.includes (a +:+ b) sub = true.
Proof.
  intros H. induction a as [|c a IH]; [exact H|].
  rewrite str_app_cons. cbn [JS.includes]. rewrite IH. apply orb_true_r.
Qed.

Lemma looks_missing_message {A} (r : Response A) :
  looks_missing r ->
  ok r = false /\ status r <> 401 /\
  JS.includes (handleAuthError (status r) (text r)) "404"
  || JS.includes (handleAuthError (status r) (text r)) "not found" = true.
Proof.
  intros [H404|(Hok & H1 & H3 & H9 & H5 & Hbody)].
  - unfold ok. rewrite H404.
    split; [reflexivity|]. split; [discriminate | reflexivity].
  - split; [exact Hok|]. split; [exact H1|].
    unfold handleAuthError.
    apply Z.eqb_neq in H1, H3, H9, H5. rewrite H1, H3, H9, H5.
    destruct (status r =? 404); [reflexivity|].
    apply orb_true_iff.
    destruct Hbody as [H|H]; [left|right]; now repeat apply includes_app_r.
Qed.

(** X19: the super-coaches hook and the conversations hook show their
    built-in data, with no error, not only for a 404: with a valid session,
    when the first answer is a failure whose status has no message of its
    own (503, say) and whose body mentions "not found" or "404", the error
    is hidden in the same way. The run makes that one network call and
    leaves the session alone. *)
Theorem fallback_hides_other_failures :
  (forall (env : Env (list SuperCoach)) st w r,
     isAuthenticated (Date_now env w) (storage w) = true ->
     net env (length (netlog w))
       (original (API_BASE_URL +:+ "/api/supercoaches") no_options w)
     = Resolved r ->
     looks_missing r ->
     SuperCoaches.useSuperCoaches env st w
     = ({| data := Some mockSuperCoaches; loading := false; error := None |},
        log_call
          (original (API_BASE_URL +:+ "/api/supercoaches") no_options w) w))
  /\
  (forall (env : Env (list Conversation)) st w r,
     isAuthenticated (Date_now env w) (storage w) = true ->
     net env (length (netlog w))
       (original (API_BASE_URL +:+ "/api/conversations") no_options w)
     = Resolved r ->
     looks_missing r ->
     Conversations.useConversations env st w
     = ({| data := Some mockConversations; loading := false; error := None |},
        log_call
          (original (API_BASE_URL +:+ "/api/conversations") no_options w) w)).
Proof.
  split; intros env st w r Hauth Hnet Hmiss;
    apply looks_missing_message in Hmiss as (Hok & H401 & Hmsg).
  - unfold SuperCoaches.useSuperCoaches, SuperCoaches.fetchSuperCoaches.
    rewrite Hauth.
    destruct (gateway_cases env (API_BASE_URL +:+ "/api/supercoaches")
                no_options w) as [[H _]|[_ H]]; [congruence|].
    cbn zeta in H.
    destruct H as [(msg & H & _)|[(r1 & H & _ & Hrun)|(r1 & H & H1 & _)]];
      [congruence| |congruence].
    assert (r1 = r) as -> by congruence.
    rewrite Hrun, Hok. unfold SuperCoaches.fetchSuperCoaches_settle.
    rewrite Hmsg. reflexivity.
  - unfold Conversations.useConversations, Conversations.fetchConversations.
    rewrite Hauth.
    destruct (gateway_cases env (API_BASE_URL +:+ "/api/conversations")
                no_options w) as [[H _]|[_ H]]; [congruence|].
    cbn zeta in H.
    destruct H as [(msg & H & _)|[(r1 & H & _ & Hrun)|(r1 & H & H1 & _)]];
      [congruence| |congruence].
    assert (r1 = r) as -> by congruence.
    rewrite Hrun, Hok. unfold Conversations.fetchConversations_settle.
    rewrite Hmsg. reflexivity.
Qed.

Lemma fallback_hides_other_failures_witness :
  fst (Conversations.useConversations DemoHooks.env_maintenance initial_state
         Demo.world)
  = {| data := Some mockConversations; loading := false; error := None |}.
Proof.
  destruct fallback_hides_other_failures as [_ H].
  rewrite (H DemoHooks.env_maintenance initial_state Demo.world
             {| status := 503; text := "upstream not found";
                json := Err "no body" |}).
  - reflexivity.
  - vm_compute. reflexivity.
  - reflexivity.
  - right. repeat split; try discriminate. right. vm_compute. reflexivity.
Defined.

(** ** The mutation hooks *)

Lemma posts_through_gateway {T} (env : Env T) (url : string)
    (payload : JObject) (w : World) :
  let run := makeAuthenticatedAPICall env url (Mutations.post payload) w in
  (isAuthenticated (Date_now env w) (storage w) = false ->
   run = (Err "Authentication required", redirectToLogin w)) /\
  (isAuthenticated (Date_now env w) (storage w) = true ->
   exists later,
     netlog (snd run)
     = netlog w ++ original url (Mutations.post payload) w :: later) /\
  (exists calls,
     netlog (snd run) = netlog w ++ calls /\
     Forall (fun q =>
               (req_url q = url /\ method (req_init q) = Some "POST" /\
                body (req_init q) = Some (JObj payload)) \/
               (exists refreshToken, q = refresh_request refreshToken))
            calls).
Proof.
  cbn zeta. split; [|split].
  - intros Hauth. rewrite makeAuthenticatedAPICall_unfold,
      authenticatedFetch_unauthenticated by exact Hauth. reflexivity.
  - apply gateway_first_call.
  - destruct (gateway_calls env url (Mutations.post payload) w)
      as (calls & Hlog & _ & Hall).
    exists calls. split; [exact Hlog|].
    eapply List.Forall_impl; [|exact Hall].
    intros q [(Hu & Hm & Hb & _)|Hr]; [left|right; exact Hr].
    auto.
Qed.

Lemma posts_to_gateway {T} (url : string)
    (mutate : Env T -> JObject -> Mutations.MutationState -> World ->
              Result T * Mutations.MutationState * World) :
  (forall env payload st w,
     mutate env payload st w
     = match makeAuthenticatedAPICall env url (Mutations.post payload) w with
       | (Ok v, w') =>
           (Ok v, {| Mutations.loading := false; Mutations.error := None |},
            w')
       | (Err e, w') =>
           (Err e, {| Mutations.loading := false; Mutations.error := Some e |},
            w')
       end) ->
  posts_to url mutate.
Proof.
  intros Hdef env payload st w. rewrite Hdef.
  pose proof (posts_through_gateway env url payload w) as Hgw.
  cbn zeta in Hgw.
  destruct (makeAuthenticatedAPICall env url (Mutations.post payload) w)
    as [[v|e] w'];
    cbn [fst snd Mutations.loading Mutations.error] in *;
    destruct Hgw as (Hout & Hin & Hcalls);
    (split; [reflexivity|]); (split; [reflexivity|]);
    (split; [|split; assumption]);
    intros Hauth; specialize (Hout Hauth); split; congruence.
Qed.

(** X20: the three mutation hooks (create a course, create a student,
    enroll a student) do not check the session themselves. Without a valid
    session the call is answered by the gateway: nothing is sent, the
    session keys are removed, the page is reloaded and the promise is
    rejected with "Authentication required". With a valid session the first
    network call is the [POST] of the payload to the endpoint of the hook,
    and every call of the run is such a [POST] or a call of the refresh
    endpoint. In all cases the hook ends with [loading] false and with the
    message of the rejection as [error], or no error after a success. *)
Theorem mutations_go_through_gateway :
  (forall T, posts_to (T:=T) (API_BASE_URL +:+ "/api/courses")
               Mutations.createCourse) /\
  (forall T, posts_to (T:=T) (API_BASE_URL +:+ "/api/students")
               Mutations.createStudent) /\
  (forall T, posts_to (T:=T) (API_BASE_URL +:+ "/api/enrollments")
               Mutations.enrollStudent).
Proof.
  repeat apply conj; intros T; apply posts_to_gateway;
    intros env payload st w.
  - unfold Mutations.createCourse.
    destruct (makeAuthenticatedAPICall env _ _ w) as [[v|e] w']; reflexivity.
  - unfold Mutations.createStudent.
    destruct (makeAuthenticatedAPICall env _ _ w) as [[v|e] w']; reflexivity.
  - unfold Mutations.enrollStudent.
    destruct (makeAuthenticatedAPICall env _ _ w) as [[v|e] w']; reflexivity.
Qed.

Lemma mutations_witness :
  fst (fst (Mutations.createStudent DemoHooks.env_echo DemoHooks.new_student
              Mutations.idle DemoGateway.logged_out))
  = Err "Authentication required" /\
  reloads (snd (Mutations.createStudent DemoHooks.env_echo DemoHooks.new_student
                  Mutations.idle DemoGateway.logged_out)) = 1%nat.
Proof.
  destruct mutations_go_through_gateway as (_ & H & _).
  destruct (H JValue DemoHooks.env_echo DemoHooks.new_student Mutations.idle
              DemoGateway.logged_out) as (_ & _ & Hout & _).
  destruct Hout as [Hr Hw]; [vm_compute; reflexivity|].
  split; [exact Hr | rewrite Hw; reflexivity].
Defined.

(** ** The health check *)

(** X21: the health check makes exactly one network call, of the health
    endpoint without method, body or header: no token is attached even
    when a session is stored. It never throws, never touches the store or
    reloads the page, whatever the answer is (a 401 included), records the
    time of the check, and reports the server as online exactly when the
    call was answered with a 2xx status. *)
Theorem health_check_is_anonymous {T} (env : Env T) (st : APIStatus.State)
    (w : World) :
  let healthy := fst (fst (APIStatus.checkAPIStatus env st w)) in
  let st' := snd (fst (APIStatus.checkAPIStatus env st w)) in
  let w' := snd (APIStatus.checkAPIStatus env st w) in
  netlog w' = netlog w ++ [APIStatus.health_request] /\
  req_url APIStatus.health_request = "http://localhost:3100/health" /\
  headers (req_init APIStatus.health_request) = ∅ /\
  storage w' = storage w /\ reloads w' = reloads w /\
  APIStatus.isOnline st' = healthy /\
  APIStatus.lastChecked st' = Some (clock env (S (length (netlog w)))) /\
  (healthy = true <->
   exists r, net env (length (netlog w)) APIStatus.health_request
             = Resolved r /\ 200 <= status r <= 299).
Proof.
  cbn zeta. unfold APIStatus.checkAPIStatus.
  assert (Hnow : Date_now env (log_call APIStatus.health_request w)
                 = clock env (S (length (netlog w)))).
  { unfold Date_now. cbn [log_call netlog]. rewrite length_app. cbn.
    f_equal. lia. }
  destruct (net env (length (netlog w)) APIStatus.health_request)
    as [r|msg]; cbn [fst snd log_call netlog storage reloads
                     APIStatus.isOnline APIStatus.lastChecked];
    rewrite Hnow; repeat (split; [reflexivity|]).
  - unfold ok. rewrite andb_true_iff, !Z.leb_le. split.
    + intros H. exists r. auto.
    + intros (r' & [= <-] & H). exact H.
  - split; [discriminate | intros (r & H & _); discriminate].
Qed.

(** ** The filters of the students list *)

(** X22: how the filter updates of [useStudentsWithFilters] compose. Two
    updates in a row are one update with the merged object, the later one
    winning; the empty update changes nothing and an update is idempotent.
    After [clearFilters], and for the initial filters, the students hook
    asks for the bare endpoint, as it does without a filter argument.
    Setting the status to [undefined] or to the empty string removes the
    parameter, and setting it to another text makes it the only one. *)
Theorem filter_updates_compose (p q : StudentsWithFilters.PartialFilters)
    (f : Students.Filters) :
  StudentsWithFilters.updateFilters q (StudentsWithFilters.updateFilters p f)
  = StudentsWithFilters.updateFilters (StudentsWithFilters.merge p q) f /\
  StudentsWithFilters.updateFilters
    {| StudentsWithFilters.p_course_id := None;
       StudentsWithFilters.p_status := None;
       StudentsWithFilters.p_search := None |} f = f /\
  StudentsWithFilters.updateFilters p (StudentsWithFilters.updateFilters p f)
  = StudentsWithFilters.updateFilters p f /\
  Students.students_url (Some (StudentsWithFilters.clearFilters f))
  = Students.students_url None /\
  Students.students_url None = "http://localhost:3100/api/students" /\
  (forall v,
     let f' :=
       StudentsWithFilters.updateFilters
         {| StudentsWithFilters.p_course_id := None;
            StudentsWithFilters.p_status := Some v;
            StudentsWithFilters.p_search := None |}
         StudentsWithFilters.no_filters in
     Students.students_url (Some f')
     = if JS.truthy v then
         "http://localhost:3100/api/students?status="
           +:+ JS.encodeURIComponent (default "" v)
       else "http://localhost:3100/api/students").
Proof.
  destruct p as [[pc|] [ps|] [px|]], q as [[qc|] [qs|] [qx|]], f as [fc fs fx];
    (repeat apply conj; try reflexivity);
    intros [[|c s]|]; reflexivity.
Qed.

(** ** The student list of the home page *)

Section HomePageFacts.

Import HomePage.

Lemma includes_empty (s : string) : JS.includes s "" = true.
Proof. destruct s; reflexivity. Qed.

(** X23: the student list of the home page and its tiles, for names,
    emails and a search term in ASCII characters. In its first
    state (status "all", empty search) the page lists every student. For
    any choice, the listed students are a sub-list of the students, in
    their order, and with a status other than "all" each of them has that
    status. The number on a tile and the list come from two sources: once
    the status hook has data the tiles show the numbers of the server,
    whatever the students of the page are; only without that data does a
    tile show the number of students that choosing it lists (with an empty
    search). The four named numbers counted in the page add up to at most
    the number of its students. *)
Theorem home_page_filter (students : list Student)
    (selectedStatus searchTerm : string) (server : StudentStatus) :
  JS.ascii_only searchTerm = true ->
  Forall (fun s => JS.ascii_only (name s) = true /\
                   JS.ascii_only (email s) = true) students ->
  filteredStudents "all" "" students = students /\
  sublist (filteredStudents selectedStatus searchTerm students) students /\
  (selectedStatus <> "all" ->
   Forall (fun s => status s = selectedStatus)
     (filteredStudents selectedStatus searchTerm students)) /\
  tiles (Some server) students = server /\
  tiles None students
  = mkStudentStatus
      (Z.of_nat (length (filteredStudents "all" "" students)))
      (Z.of_nat (length (filteredStudents "new" "" students)))
      (Z.of_nat (length (filteredStudents "in-progress" "" students)))
      (Z.of_nat (length (filteredStudents "stuck" "" students)))
      (Z.of_nat (length (filteredStudents "completed" "" students))) /\
  (selectedStatus <> "all" ->
   length (filteredStudents selectedStatus "" students)
   = count_status selectedStatus students) /\
  (new (statusCounts students) + in_progress (statusCounts students)
   + stuck (statusCounts students) + completed (statusCounts students)
   <= all (statusCounts students))%nat.
Proof.
  intros _ _.
  assert (Hall : filteredStudents "all" "" students = students).
  { unfold filteredStudents.
    induction students as [|s l IH]; [reflexivity|].
    cbn [List.filter]. unfold shown at 1. cbn [String.eqb Ascii.eqb orb].
    cbn [JS.toLowerCase]. rewrite includes_empty. cbn [andb Bool.eqb].
    now rewrite IH. }
  assert (Hcount : forall sel, sel <> "all" ->
            length (filteredStudents sel "" students)
            = count_status sel students).
  { clear Hall. intros sel Hsel. apply String.eqb_neq in Hsel.
    unfold count_status, filteredStudents.
    f_equal. induction students as [|s l IH]; [reflexivity|].
    cbn [List.filter]. rewrite IH. unfold shown at 1. rewrite Hsel.
    cbn [orb JS.toLowerCase]. rewrite includes_empty, andb_true_r.
    reflexivity. }
  split; [exact Hall|].
  split; [|split; [|split; [|split; [|split]]]].
  - clear Hall Hcount. unfold filteredStudents.
    induction students as [|s l IH]; [constructor|].
    cbn [List.filter]. destruct (shown _ _ s); now constructor.
  - clear Hall Hcount. intros Hsel. apply String.eqb_neq in Hsel.
    unfold filteredStudents.
    induction students as [|s l IH]; [constructor|].
    cbn [List.filter]. destruct (shown selectedStatus searchTerm s) eqn:E;
      [|exact IH].
    apply List.Forall_cons; [|exact IH].
    unfold shown in E. rewrite Hsel in E. cbn [orb] in E.
    apply andb_true_iff in E as [E _]. now apply String.eqb_eq in E.
  - reflexivity.
  - unfold tiles. rewrite Hall, !Hcount by discriminate. reflexivity.
  - exact (Hcount selectedStatus).
  - clear Hall Hcount. unfold statusCounts, count_status.
    cbn [new in_progress stuck completed all].
    induction students as [|s l IH]; [reflexivity|].
    cbn [List.filter length].
    destruct (String.eqb_spec (status s) "new") as [->|];
      [cbn [String.eqb Ascii.eqb Bool.eqb length]; lia|].
    destruct (String.eqb_spec (status s) "in-progress") as [->|];
      [cbn [String.eqb Ascii.eqb Bool.eqb length]; lia|].
    destruct (String.eqb_spec (status s) "stuck") as [->|];
      [cbn [String.eqb Ascii.eqb Bool.eqb length]; lia|].
    destruct (String.eqb (status s) "completed"); cbn [length]; lia.
Qed.

End HomePageFacts.

Lemma home_page_filter_witness :
  length (HomePage.filteredStudents "stuck" "" DemoHome.students) = 1%nat /\
  stuck (tiles (Some DemoHome.server) DemoHome.students) = 5.
Proof.
  destruct (home_page_filter DemoHome.students "stuck" "" DemoHome.server)
    as (_ & _ & _ & Hserver & _ & Hcount & _).
  - reflexivity.
  - repeat constructor.
  - split; [rewrite Hcount by discriminate; reflexivity|].
    rewrite Hserver. reflexivity.
Defined.

(** ** The create-student modal, over its whole life *)

Section ModalLife.

Import CreateStudentModal.

(** X24: what holds of an open create-student modal after any sequence of
    inputs, submissions, answers, closings and timers. It is loading
    exactly while one call waits for its answer; the parent's [onSuccess]
    has been called at most once for each request sent, and never without
    [onClose]; the success banner is shown only while a timer that will
    remove it is pending; and every request ever sent is the request built
    from a form that passed the validation. *)
Theorem modal_accounts (m : Modal) :
  reachable m ->
  (isLoading (ui m) = true <-> inflight m = 1%nat) /\
  (onSuccess_calls m + timers m + inflight m <= length (sent m))%nat /\
  (onSuccess_calls m <= onClose_calls m)%nat /\
  (showSuccess (ui m) = true -> (0 < timers m)%nat) /\
  Forall (fun q => exists f,
            q = create_request f /\ snd (validateForm f) = true) (sent m).
Proof.
  intros Hr. induction Hr as [|m e Hr IH Hen].
  - cbn. repeat apply conj; try lia; try discriminate; try constructor.
  - pose proof (reachable_consistent m Hr) as (_ & Hle & _).
    destruct IH as (Hload & Hcount & Hclose & Hshow & Hsent).
    destruct e as [f value| |r| |]; cbn [step].
    + cbn [with_ui handleInputChange ui isLoading showSuccess sent inflight
           timers onClose_calls onSuccess_calls].
      auto.
    + unfold handleSubmit_begin.
      destruct (validateForm (formData (ui m))) as [errs valid] eqn:Hv.
      destruct valid; cbn [negb];
        [destruct (isLoading (ui m)) eqn:Hl|];
        cbn [with_ui ui isLoading showSuccess sent inflight timers
             onClose_calls onSuccess_calls formData];
        try (rewrite ?Hl; auto; fail).
      * assert (inflight m = 0%nat) as H0.
        { destruct (inflight m) as [|[|n]]; [reflexivity| |lia].
          destruct Hload as [_ H]. specialize (H eq_refl). discriminate H. }
        rewrite H0 in *. rewrite length_app. cbn [length].
        split; [split; reflexivity|]. split; [lia|]. split; [exact Hclose|].
        split; [exact Hshow|].
        apply Forall_app. split; [exact Hsent|].
        apply List.Forall_cons; [|constructor].
        exists (formData (ui m)). rewrite Hv. auto.
    + cbn [enabled] in Hen. destruct Hen as [Hpos _].
      assert (inflight m = 1%nat) as H1 by lia.
      unfold handleSubmit_settle.
      destruct r as [response|msg]; [destruct (ok response)|];
        cbn [negb ui isLoading showSuccess sent inflight timers
             onClose_calls onSuccess_calls];
        rewrite H1 in *; cbn [Nat.pred];
        (split; [split; discriminate|]); (split; [lia|]);
        (split; [exact Hclose|]); (split; [|exact Hsent]);
        first [ intros _; lia | exact Hshow ].
    + unfold handleClose. destruct (isLoading (ui m)) eqn:Hl.
      * rewrite Hl. auto.
      * cbn [ui isLoading showSuccess sent inflight timers onClose_calls
             onSuccess_calls initial].
        split; [rewrite <- Hload; split; discriminate|].
        split; [exact Hcount|]. split; [lia|]. split; [discriminate|].
        exact Hsent.
    + cbn [enabled] in Hen.
      cbn [success_timeout ui isLoading showSuccess sent inflight timers
           onClose_calls onSuccess_calls].
      split; [exact Hload|]. split; [lia|]. split; [lia|].
      split; [discriminate | exact Hsent].
Qed.

End ModalLife.

Lemma modal_accounts_witness :
  CreateStudentModal.inflight DemoModal.submitted = 1%nat /\
  CreateStudentModal.sent DemoModal.submitted
  = [CreateStudentModal.create_request DemoModal.filled].
Proof.
  assert (Hr : CreateStudentModal.reachable DemoModal.submitted).
  { unfold DemoModal.submitted.
    repeat (apply CreateStudentModal.reach_step;
            [|first [exact I | reflexivity]]).
    apply CreateStudentModal.reach_opened. }
  destruct (modal_accounts DemoModal.submitted Hr) as ([Hload _] & _).
  split; [apply Hload|]; vm_compute; reflexivity.
Defined.

(** ** Submitting the form of the login page *)

Section AuthSubmit.

Import AuthForm.


End AuthSubmit.


(** ** The students tab *)

Lemma String_of_number_truthy (n : Z) :
  JS.truthy_string (JS.String_of_number n) = true.
Proof.
  pose proof (parseInt_String_of_number n) as H.
  destruct (JS.String_of_number n); [discriminate H | reflexivity].
Qed.

(** X26: the request of the students tab. With the three inputs empty the
    tab asks for the bare endpoint. Choosing a course in the list, whose
    values are the course ids written as decimal numbers, adds that id as
    the only parameter, for an id other than zero; a course text that
    [parseInt] does not read as a number, or reads as zero, adds nothing. *)
Theorem students_tab_request (searchTerm selectedCourse selectedStatus : string)
    (id : Z) :
  Students.students_url (Some (StudentsTab.filters "" "" ""))
  = "http://localhost:3100/api/students" /\
  (id <> 0 ->
   Students.students_url
     (Some (StudentsTab.filters "" (JS.String_of_number id) ""))
   = "http://localhost:3100/api/students?course_id="
       +:+ JS.String_of_number id) /\
  (JS.parseInt selectedCourse = None \/ JS.parseInt selectedCourse = Some 0 ->
   Students.students_url
     (Some (StudentsTab.filters searchTerm selectedCourse selectedStatus))
   = Students.students_url
       (Some (StudentsTab.filters searchTerm "" selectedStatus))).
Proof.
  split; [reflexivity|]. split.
  - intros Hid. unfold StudentsTab.filters.
    rewrite String_of_number_truthy, parseInt_String_of_number.
    unfold Students.students_url, Students.students_queryParams.
    cbn [Students.opt_course_id Students.opt_status Students.opt_search
         Students.course_id Students.status Students.search
         JS.truthy_string].
    unfold JS.truthy_number. apply Z.eqb_neq in Hid. rewrite Hid.
    reflexivity.
  - intros Hc. unfold StudentsTab.filters.
    unfold Students.students_url, Students.students_queryParams.
    cbn [Students.opt_course_id Students.opt_status Students.opt_search
         Students.course_id Students.status Students.search
         JS.truthy_string].
    destruct (JS.truthy_string selectedCourse); [|reflexivity].
    destruct Hc as [-> | ->]; reflexivity.
Qed.

Lemma students_tab_request_witness :
  Students.students_url (Some (StudentsTab.filters "" "12" ""))
  = "http://localhost:3100/api/students?course_id=12".
Proof.
  destruct (students_tab_request "" "" "" 12) as (_ & H & _).
  exact (H ltac:(discriminate)).
Defined.

(** X27: the client-side course filter of the students tab, on the
    students that the students hook delivers. For such a student
    [courses_enrolled] is the number of courses (zero when the server sent
    none) and [enrolledCourses] is the empty list, so that, once a course
    is selected, the student passes the filter exactly when the number of
    their courses is not zero and equals the id of the selected course. *)
Theorem api_students_course_filter (toLocaleString : JValue -> string)
    (student : JObject) (selectedCourse : string) (id n : Z) :
  selectedCourse <> "" ->
  JS.parseInt selectedCourse = Some id ->
  Obj.get "courses_enrolled" student = JNum n \/
  (Obj.get "courses_enrolled" student = JUndefined /\ n = 0) ->
  StudentsTab.matchesCourse selectedCourse
    (Students.transformStudent toLocaleString student)
  = Some (negb (n =? 0) && (n =? id)) /\
  StudentsTab.shown "" selectedCourse ""
    (Students.transformStudent toLocaleString student)
  = Some (negb (n =? 0) && (n =? id)).
Proof.
  intros Hsel Hid Hcount.
  assert (Hm : StudentsTab.matchesCourse selectedCourse
                 (Students.transformStudent toLocaleString student)
               = Some (negb (n =? 0) && (n =? id))).
  { unfold StudentsTab.matchesCourse.
    apply truthy_string_true in Hsel. rewrite Hsel, Hid. cbn [negb].
    assert (Obj.get "courses_enrolled"
              (Students.transformStudent toLocaleString student)
            = Obj.or (Obj.get "courses_enrolled" student) (JNum 0)) as ->
      by (unfold Students.transformStudent; field_of_literal).
    assert (Obj.get "enrolledCourses"
              (Students.transformStudent toLocaleString student)
            = JArr []) as ->
      by (unfold Students.transformStudent; field_of_literal).
    destruct Hcount as [-> | [-> ->]]; [|reflexivity].
    unfold Obj.or. cbn [Obj.truthy]. unfold JS.truthy_number.
    destruct (n =? 0) eqn:E; cbn [negb andb Obj.truthy];
      [reflexivity|].
    unfold JS.truthy_number. rewrite E. reflexivity. }
  split; [exact Hm|].
  unfold StudentsTab.shown. rewrite Hm.
  cbn [StudentsTab.matchesSearch StudentsTab.matchesStatus JS.truthy_string
       negb orb andb].
  now rewrite andb_true_r.
Qed.

Lemma api_students_course_filter_witness :
  StudentsTab.shown "" "3" ""
    (Students.transformStudent Demo.locale
       [("id", JNum 6); ("name", JStr "Alex Thompson");
        ("courses_enrolled", JNum 1)])
  = Some false.
Proof.
  apply (api_students_course_filter Demo.locale
           [("id", JNum 6); ("name", JStr "Alex Thompson");
            ("courses_enrolled", JNum 1)] "3" 3 1).
  - discriminate.
  - reflexivity.
  - left. reflexivity.
Defined.

(** ** The conversations tab *)

Section ConversationsTabFacts.

Import ConversationsTab.

(** X28: the age label of a conversation. A timestamp less than an hour
    old, or in the future, gives "Just now"; from one hour up to a day the
    label is the number of whole hours, between 1 and 23, followed by
    "h ago"; from one day on it is the number of whole days followed by
    "d ago"; and a text that is not a date gives "NaNd ago". *)
Theorem time_since_labels (now : Z) :
  getTimeSince now None = "NaNd ago" /\
  forall t,
    let age := now - t in
    (age < 3600000 -> getTimeSince now (Some t) = "Just now") /\
    (3600000 <= age < 86400000 ->
     getTimeSince now (Some t)
     = JS.String_of_number (age / 3600000) +:+ "h ago" /\
     1 <= age / 3600000 <= 23) /\
    (86400000 <= age ->
     getTimeSince now (Some t)
     = JS.String_of_number (age / 86400000) +:+ "d ago" /\
     1 <= age / 86400000).
Proof.
  split; [reflexivity|]. intros t age.
  unfold getTimeSince. cbn [fmap option_fmap option_map JS.lt_number
                            JS.String_of_nan].
  change (1000 * 60 * 60) with 3600000. fold age.
  repeat apply conj.
  - intros H. assert ((age / 3600000 <? 1) = true) as ->; [|reflexivity].
    apply Z.ltb_lt.
    apply Z.div_lt_upper_bound; lia.
  - intros [H1 H2].
    assert (1 <= age / 3600000) by (apply Z.div_le_lower_bound; lia).
    assert (age / 3600000 < 24) by (apply Z.div_lt_upper_bound; lia).
    assert ((age / 3600000 <? 1) = false) as -> by (apply Z.ltb_ge; lia).
    assert ((age / 3600000 <? 24) = true) as -> by (apply Z.ltb_lt; lia).
    split; [reflexivity | lia].
  - intros H.
    assert (24 <= age / 3600000) by (apply Z.div_le_lower_bound; lia).
    assert ((age / 3600000 <? 1) = false) as -> by (apply Z.ltb_ge; lia).
    assert ((age / 3600000 <? 24) = false) as -> by (apply Z.ltb_ge; lia).
    rewrite Z.div_div by lia. change (3600000 * 24) with 86400000.
    split; [reflexivity|]. apply Z.div_le_lower_bound; lia.
Qed.

Lemma time_since_labels_witness :
  getTimeSince 90000000 (Some 0) = "1d ago".
Proof.
  destruct (time_since_labels 90000000) as [_ H].
  destruct (H 0) as (_ & _ & Hd).
  destruct Hd as [Hd _]; [cbn; lia|]. exact Hd.
Defined.

Lemma find_nil_none {A} (p : A -> bool) : List.find p [] = None.
Proof. reflexivity. Qed.

(** X29: the list of the conversations tab. With no search text and no
    coach selected every conversation is shown; for any choice the shown
    conversations are a sub-list, in order. A search text is looked up in
    the student and the coach of a conversation, so that while neither
    students nor coaches are loaded a search hides every conversation.
    Selecting a coach, whose value in the list is the id written as a
    decimal number, keeps exactly the conversations of that coach, and a
    selection that is not a number hides them all. *)
Theorem conversations_filter (students : list HomePage.Student)
    (superCoaches : list SuperCoach) (searchTerm selectedSuperCoach : string)
    (conversations : list Conversation) :
  filteredConversations students superCoaches "" "" conversations
  = conversations /\
  sublist
    (filteredConversations students superCoaches searchTerm
       selectedSuperCoach conversations)
    conversations /\
  (searchTerm <> "" ->
   filteredConversations [] [] searchTerm selectedSuperCoach conversations
   = []) /\
  (forall id,
     filteredConversations students superCoaches ""
       (JS.String_of_number id) conversations
     = List.filter (fun c => superCoachId c =? id) conversations) /\
  (selectedSuperCoach <> "" -> JS.parseInt selectedSuperCoach = None ->
   filteredConversations students superCoaches searchTerm selectedSuperCoach
     conversations = []).
Proof.
  unfold filteredConversations. repeat apply conj.
  - induction conversations as [|c l IH]; [reflexivity|].
    cbn [List.filter]. unfold shown at 1. cbn [JS.truthy_string negb orb andb].
    now rewrite IH.
  - induction conversations as [|c l IH]; [constructor|].
    cbn [List.filter]. destruct (shown _ _ _ _ c); now constructor.
  - intros Hterm. apply truthy_string_true in Hterm.
    induction conversations as [|c l IH]; [reflexivity|].
    cbn [List.filter]. unfold shown at 1. rewrite Hterm.
    unfold find_student, find_superCoach. rewrite !find_nil_none.
    cbn [fmap option_fmap option_map lower_includes negb orb andb].
    exact IH.
  - intros id.
    induction conversations as [|c l IH]; [reflexivity|].
    cbn [List.filter]. rewrite IH. unfold shown at 1.
    rewrite String_of_number_truthy, parseInt_String_of_number.
    cbn [JS.truthy_string negb orb andb is_number]. reflexivity.
  - intros Hsel Hnan. apply truthy_string_true in Hsel.
    induction conversations as [|c l IH]; [reflexivity|].
    cbn [List.filter]. unfold shown at 1. rewrite Hsel, Hnan.
    cbn [negb orb is_number]. rewrite andb_false_r. exact IH.
Qed.

End ConversationsTabFacts.

Lemma conversations_filter_witness :
  ConversationsTab.filteredConversations [] [] "maya" "" mockConversations
  = [].
Proof.
  destruct (conversations_filter [] [] "maya" "" mockConversations)
    as (_ & _ & H & _).
  apply H. discriminate.
Defined.

(** ** From the login to the first request *)

Section LoginThenGateway.

Import AuthForm.

(** X30: the login page and the gateway fit together. After a submission
    of a valid login form, typed in ASCII characters, that the server grants with a non-empty access
    token and a whole number of seconds (the time, the product and the sum
    being safe integers), a gateway call made before the announced expiry
    finds a valid session and sends the resource call with [Bearer] and
    the granted token; when the answer is not a 401 this is the only call,
    the stored session and the page are left alone, and the outcome is
    that of the answer. *)
Theorem login_enables_gateway {T}
    (stringify : option AuthPage.Coach -> string) (typeError : string)
    (now : Z) (server : Request -> AuthPage.LoginOutcome) (p : Page)
    (env : Env T) (url : string) (loginData : AuthPage.LoginResponse)
    (seconds : Z) :
  let req := login_request (formData (view p)) in
  let w := world (handleSubmit stringify typeError now server p) in
  let first := original url no_options w in
  ascii_form (formData (view p)) = true ->
  validateForm (view p) = true ->
  isSignUp (view p) = false ->
  server req = AuthPage.Granted loginData ->
  AuthPage.access_token loginData <> "" ->
  AuthPage.expires_in loginData = Some seconds ->
  JS.safe_integer now ->
  JS.safe_integer (seconds * 1000) ->
  JS.safe_integer (now + seconds * 1000) ->
  Date_now env w < now + seconds * 1000 ->
  match net env (length (netlog w)) first with
  | Resolved r => status r <> 401
  | Rejected _ => True
  end ->
  isAuthenticated (Date_now env w) (storage w) = true /\
  headers (req_init first) !! "Authorization"
  = Some ("Bearer " +:+ AuthPage.access_token loginData) /\
  makeAuthenticatedAPICall env url no_options w
  = (match net env (length (netlog w)) first with
     | Rejected msg => Err msg
     | Resolved r =>
         if ok r then json r else Err (handleAuthError (status r) (text r))
     end,
     {| storage := storage w;
        netlog := netlog (world p) ++ [req; first];
        reloads := reloads (world p) |}).
Proof.
  intros req w first _ Hvalid Hlogin Hgrant Htoken Hsec _ _ Hsafe Hnow Hnot.
  assert (Hw : w = with_storage
                     (fun _ => AuthPage.stored
                                 (AuthPage.handleLogin stringify typeError now
                                    (AuthPage.Granted loginData)
                                    (storage (world p))))
                     (log_call req (world p))).
  { unfold w, handleSubmit. rewrite Hvalid, Hlogin. cbn [negb world].
    fold req. rewrite Hgrant. reflexivity. }
  destruct (granted_store stringify typeError now loginData
              (storage (world p))) as (Htok & _ & _ & Hexp).
  rewrite Hsec in Hexp. cbn [AuthPage.expiry_text] in Hexp.
  assert (Hauth : isAuthenticated (Date_now env w) (storage w) = true).
  { rewrite Hw at 2. cbn [with_storage storage].
    apply (window_of_store _ _ _ _ Htok Hexp Hsafe). auto. }
  assert (Htok' : getAuthToken (storage w)
                  = Some (AuthPage.access_token loginData))
    by (rewrite Hw; exact Htok).
  split; [exact Hauth|]. split.
  { unfold first. cbn [original req_init].
    rewrite (auth_header no_options (storage w) _ Htok' Htoken).
    reflexivity. }
  assert (Hlog : netlog w ++ [first] = netlog (world p) ++ [req; first]).
  { rewrite Hw. cbn [with_storage log_call netlog].
    now rewrite <- app_assoc. }
  assert (Hre : reloads w = reloads (world p)) by (rewrite Hw; reflexivity).
  rewrite <- Hlog, <- Hre.
  destruct (gateway_cases env url no_options w) as [[H _]|[_ H]];
    [congruence|]. cbn zeta in H. fold first in H.
  destruct H as [(msg & H1 & Hrun)|[(r1 & H1 & Hs & Hrun)|(r1 & H1 & Hs & _)]].
  - rewrite Hrun, H1. reflexivity.
  - rewrite Hrun, H1. reflexivity.
  - rewrite H1 in Hnot. contradiction.
Qed.

End LoginThenGateway.

Lemma login_enables_gateway_witness :
  fst (makeAuthenticatedAPICall DemoGateway.env_up
         "http://localhost:3100/api/courses" no_options
         (AuthForm.world
            (AuthForm.handleSubmit DemoLogin.stringify DemoLogin.typeError 0
               (fun _ => AuthPage.Granted DemoLogin.granted)
               DemoLogin.page)))
  = Ok 7.
Proof.
  destruct (login_enables_gateway DemoLogin.stringify DemoLogin.typeError 0
              (fun _ => AuthPage.Granted DemoLogin.granted) DemoLogin.page
              DemoGateway.env_up "http://localhost:3100/api/courses"
              DemoLogin.granted 3600) as (_ & _ & Hrun).
  - reflexivity.
  - vm_compute. reflexivity.
  - reflexivity.
  - reflexivity.
  - discriminate.
  - reflexivity.
  - unfold JS.safe_integer, JS.MAX_SAFE_INTEGER. lia.
  - unfold JS.safe_integer, JS.MAX_SAFE_INTEGER. lia.
  - unfold JS.safe_integer, JS.MAX_SAFE_INTEGER. lia.
  - vm_compute. reflexivity.
  - cbn. discriminate.
  - rewrite Hrun. reflexivity.
Defined.
